(** * libavfilter/af_dumpwave.c: the dumpwave audio filter

    A shallow embedding of the accumulator ([dumpwave_filter_frame]), the
    finalizer ([dumpwave_request_frame]) and the setup ([init]) of the
    dumpwave filter, and the properties of these functions.

    Numbers are modelled as the C code has them on an IEEE-754 platform:
    [int], [int16_t] and [int64_t] values are integers of [Z] within their
    ranges, [float] is binary32 and [double] is binary64, both carried by
    [spec_float] and computed with the round-to-nearest-even operations of
    the Standard Library's [SpecFloat].  The two functions of the C
    library that the filter calls, [log10] and [exp], are not part of the
    repository: the filter is parameterised by them. *)

From Stdlib Require Import ZArith List Bool Lia String Ascii.
From Stdlib Require Import DecimalString.
From Stdlib Require Import Floats.SpecFloat.
From stdpp Require Import base list.
Import ListNotations.

Local Open Scope Z_scope.

(** ** Machine integers *)

Definition INT16_MAX : Z := 32767.
Definition INT_MAX : Z := 2147483647.
Definition INT_MIN : Z := -2147483648.

(** Conversion of an [int] to [int16_t]: the value is reduced modulo 2^16
    into [-32768, 32767]. *)
Definition int16_of_int (z : Z) : Z := (z + 32768) mod 65536 - 32768.

(** [AVERROR_EOF] is [FFERRTAG('E','O','F',' ')], negated. *)
Definition AVERROR_EOF : Z := - (69 + 79 * 2 ^ 8 + 70 * 2 ^ 16 + 32 * 2 ^ 24).

(** ** Floating point *)

Definition float : Type := spec_float.
Definition double : Type := spec_float.

Definition float_of_int (z : Z) : float := binary_normalize 24 128 z 0 false.
Definition double_of_int (z : Z) : double := binary_normalize 53 1024 z 0 false.

(** Promotion of a [float] to [double] (exact) and conversion of a
    [double] to [float] (rounded to nearest). *)
Definition double_of_float (x : float) : double :=
  match x with
  | S754_finite s m e => binary_round 53 1024 s m e
  | _ => x
  end.

Definition float_of_double (x : double) : float :=
  match x with
  | S754_finite s m e => binary_round 24 128 s m e
  | _ => x
  end.

Definition fadd : float -> float -> float := SFadd 24 128.
Definition fmul : float -> float -> float := SFmul 24 128.
Definition fdiv : float -> float -> float := SFdiv 24 128.

Definition dadd : double -> double -> double := SFadd 53 1024.
Definition dsub : double -> double -> double := SFsub 53 1024.
Definition dmul : double -> double -> double := SFmul 53 1024.
Definition ddiv : double -> double -> double := SFdiv 53 1024.
Definition dsqrt : double -> double := SFsqrt 53 1024.
Definition fabs : double -> double := SFabs.

Definition double_zero : double := S754_zero false.
Definition float_zero : float := S754_zero false.
Definition double_one : double := S754_finite false 4503599627370496 (-52).

(** [M_E] of math.h, 2.7182818284590452354, as the nearest binary64. *)
Definition M_E : double := S754_finite false 6121026514868073 (-51).

(** The integer a finite value truncates to (towards zero), and the
    integer below it. *)
Definition SFtrunc (x : spec_float) : option Z :=
  match x with
  | S754_zero _ => Some 0
  | S754_finite s m e => Some (cond_Zopp s (Z.shiftl (Z.pos m) e))
  | _ => None
  end.

Definition SFfloor (x : spec_float) : option Z :=
  match x with
  | S754_zero _ => Some 0
  | S754_finite s m e => Some (Z.shiftl (cond_Zopp s (Z.pos m)) e)
  | _ => None
  end.

(** Conversion of a [double] to [int]: the fractional part is discarded;
    the conversion is defined only when the integral part is an [int]. *)
Definition int_of_double (x : double) : option Z :=
  match SFtrunc x with
  | Some z => if (INT_MIN <=? z) && (z <=? INT_MAX) then Some z else None
  | None => None
  end.

Definition is_nan (x : spec_float) : bool :=
  match x with S754_nan => true | _ => false end.

Definition pos_finite (x : spec_float) : bool :=
  match x with S754_finite false _ _ => true | _ => false end.

(** [FFMAX(a,b)] is [((a) > (b) ? (a) : (b))]. *)
Definition FFMAX (a b : double) : double := if SFltb b a then a else b.

(** ** Outcomes of a call *)

(** A call returns, or stops the process in [av_assert0], or does
    something the C language leaves undefined. *)
Inductive ub : Set :=
  | uninit_read      (* an object read before it was ever written *)
  | out_of_bounds    (* an access outside the object *)
  | float_to_int     (* a double whose integral part is not an int *)
  | buffer_overrun   (* sprintf past the end of the str buffer *)
  | invalid_free.    (* av_free of a pointer that was never allocated *)

Inductive exec (A : Type) : Type :=
  | Done (a : A)
  | Abort
  | Undefined (u : ub).

Arguments Done {A} a.
Arguments Abort {A}.
Arguments Undefined {A} u.

Definition bind {A B : Type} (m : exec A) (k : A -> exec B) : exec B :=
  match m with
  | Done a => k a
  | Abort => Abort
  | Undefined u => Undefined u
  end.

Notation "'let*' x ':=' m 'in' k" := (bind m (fun x => k))
  (at level 10, x name, m at level 100, k at level 200).

Definition av_assert0 (cond : bool) : exec unit :=
  if cond then Done tt else Abort.

(** ** Data *)

Record DumpWaveContext : Type := mkDumpWaveContext {
  w : Z;
  h : Z;
  c : Z;
  col : Z;
  str : option string;            (* None: nothing written to the buffer yet *)
  values : list (option double);  (* None: a slot never written since av_malloc *)
  n : Z;
  max : double;
  sum : double
}.

(** An audio frame: the sample count and the interleaved [int16_t]
    samples of [data[0]]. *)
Record AVFrame : Type := mkAVFrame {
  nb_samples : Z;
  data : list Z
}.

Definition read_s16 (p : list Z) (idx : Z) : exec Z :=
  if idx <? 0 then Undefined out_of_bounds
  else match p !! Z.to_nat idx with
       | Some s => Done s
       | None => Undefined out_of_bounds
       end.

(** [%d] of sprintf. *)
Definition sprintf_d (z : Z) : string := NilZero.string_of_int (Z.to_int z).

Fixpoint string_removelast (s : string) : string :=
  match s with
  | EmptyString => EmptyString
  | String _ EmptyString => EmptyString
  | String a s' => String a (string_removelast s')
  end.

Definition Zlength_string (s : string) : Z := Z.of_nat (String.length s).

(** ** Setup *)

(** Modelled from the spec: the filter framework, which is outside the file,
    allocates the private context zero-filled and stores the options [s]
    (width and height) and [c] in it before [init] runs. *)
Definition priv_alloc (opt_w opt_h opt_c : Z) : DumpWaveContext :=
  {| w := opt_w; h := opt_h; c := opt_c; col := 0; str := None;
     values := []; n := 0; max := double_zero; sum := double_zero |}.

(** [av_malloc] returns a block whose content was never written. *)
Definition av_malloc_doubles (count : Z) : list (option double) :=
  replicate (Z.to_nat count) None.

Definition init (ctx : DumpWaveContext) : DumpWaveContext :=
  {| w := w ctx; h := h ctx; c := c ctx; col := col ctx;
     str := None;
     values := av_malloc_doubles (w ctx);
     n := n ctx; max := max ctx; sum := sum ctx |}.

Section Filter.

(** The C library. *)
Variable log10 : double -> double.
Variable exp : double -> double.

(** *** The accumulator *)

(** Lines 199-208: the level of one sample. *)
Definition sample_level (s16 : Z) : float :=
  let smpl := fdiv (float_of_int s16) (float_of_int INT16_MAX) in
  if negb (SFeqb (double_of_float smpl) double_zero) then
    let db := float_of_double
                (dmul (double_of_int 20) (log10 (fabs (double_of_float smpl)))) in
    let smpl := fdiv (fadd db (float_of_int 60)) (float_of_int 60) in
    if SFltb (double_of_float smpl) double_zero then float_zero else smpl
  else smpl.

(** Lines 198-221: one iteration of the loop, on the sample read. *)
Definition ingest (ctx : DumpWaveContext) (s16 : Z) : exec DumpWaveContext :=
  let smpl := sample_level s16 in
  let sum1 := dadd (sum ctx) (double_of_float (fmul smpl smpl)) in
  let max_samples := c ctx in
  if n ctx =? max_samples then
    let sample := dsqrt (ddiv sum1 (double_of_int max_samples)) in
    let* _ := av_assert0 (col ctx <? w ctx) in
    if (0 <=? col ctx) && (Z.to_nat (col ctx) <? length (values ctx))%nat then
      Done {| w := w ctx; h := h ctx; c := c ctx;
              col := col ctx + 1;
              str := str ctx;
              values := <[Z.to_nat (col ctx) := Some sample]> (values ctx);
              n := 0;
              max := FFMAX (max ctx) sample;
              sum := double_zero |}
    else Undefined out_of_bounds
  else
    Done {| w := w ctx; h := h ctx; c := c ctx; col := col ctx;
            str := str ctx; values := values ctx;
            n := n ctx + 1;
            max := max ctx;
            sum := sum1 |}.

(** The loop of line 197, [k] iterations from index [i]. *)
Fixpoint ingest_loop (nb_channels : Z) (p : list Z) (k : nat) (i : Z)
    (ctx : DumpWaveContext) : exec DumpWaveContext :=
  match k with
  | O => Done ctx
  | S k' =>
      let* s16 := read_s16 p (i * nb_channels) in
      let* ctx' := ingest ctx s16 in
      ingest_loop nb_channels p k' (i + 1) ctx'
  end.

(** What a call of [dumpwave_filter_frame] leaves behind: the context,
    the frames handed to [ff_filter_frame] so far, and the value
    returned. *)
Record filtered : Type := mkFiltered {
  f_ctx : DumpWaveContext;
  f_sink : list AVFrame;
  f_ret : Z
}.

(** [ff_filter_frame] hands the frame to the next filter and returns
    that filter's status. *)
Variable downstream : AVFrame -> Z.

Definition dumpwave_filter_frame (nb_channels : Z) (ctx : DumpWaveContext)
    (sink : list AVFrame) (frame : AVFrame) : exec filtered :=
  let nb_samples16 := int16_of_int (nb_samples frame) in
  let* ctx' := ingest_loop nb_channels (data frame) (Z.to_nat nb_samples16) 0 ctx in
  let ret := downstream frame in
  Done {| f_ctx := ctx'; f_sink := sink ++ [frame]; f_ret := 0 |}.

(** The frames of a stream, one call each. *)
Fixpoint filter_stream (nb_channels : Z) (ctx : DumpWaveContext)
    (sink : list AVFrame) (frames : list AVFrame)
    : exec (DumpWaveContext * list AVFrame) :=
  match frames with
  | [] => Done (ctx, sink)
  | frame :: rest =>
      let* r := dumpwave_filter_frame nb_channels ctx sink frame in
      filter_stream nb_channels (f_ctx r) (f_sink r) rest
  end.

(** *** The finalizer *)

(** Lines 165-166: the integer of one column. *)
Definition render_res (ch_height : Z) (max_ v : double) : exec Z :=
  let rmsSize := exp (dsub (dmul (ddiv v max_) M_E) M_E) in
  match int_of_double (dmul (double_of_int ch_height) rmsSize) with
  | Some res => Done res
  | None => Undefined float_to_int
  end.

(** The loop of line 164, [k] iterations from column [i]; [out] is what
    was written to the buffer so far, [cap] the size of the buffer. *)
Fixpoint render_loop (ctx : DumpWaveContext) (cap : Z) (k : nat) (i : Z)
    (out : string) : exec string :=
  match k with
  | O => Done out
  | S k' =>
      match values ctx !! Z.to_nat i with
      | None => Undefined out_of_bounds
      | Some None => Undefined uninit_read
      | Some (Some v) =>
          let* res := render_res (h ctx) (max ctx) v in
          let out' := String.append out (String.append (sprintf_d res) ",") in
          if Zlength_string out' + 1 <=? cap
          then render_loop ctx cap k' (i + 1) out'
          else Undefined buffer_overrun
      end
  end.

(** [ret] is what [ff_request_frame] returned for the input link. *)
Definition dumpwave_request_frame (ctx : DumpWaveContext) (ret : Z)
    : exec (DumpWaveContext * Z) :=
  if ret =? AVERROR_EOF then
    let* out := render_loop ctx (w ctx * 4) (Z.to_nat (w ctx)) 0 EmptyString in
    match out with
    | EmptyString => Undefined out_of_bounds
    | _ =>
        Done ({| w := w ctx; h := h ctx; c := c ctx; col := col ctx;
                 str := Some (string_removelast out);
                 values := values ctx;
                 n := n ctx; max := max ctx; sum := sum ctx |}, ret)
    end
  else Done (ctx, ret).

End Filter.

(** ** Teardown *)

(** The double quote. *)
Definition dquote : string := String "034"%char EmptyString.

(** Line 96: the text [fprintf] writes to the dump file. *)
Definition json_document (ch_width ch_height : Z) (result : string) : string :=
  String.concat EmptyString
    ["{"; dquote; "width"; dquote; ":"; sprintf_d ch_width; ",";
     dquote; "height"; dquote; ":"; sprintf_d ch_height; ",";
     dquote; "samples"; dquote; ":["; result; "]}"]%string.

(** [av_freep] of libavutil expects the address of a pointer: it reads
    the pointer stored there, stores a null pointer in its place and
    hands the pointer read to [av_free].  Line 100 passes the array
    itself, so the pointer read is made of the first bytes of the array,
    those of [values[0]] where a pointer has the size of a double.
    [av_free] ignores a null pointer, whose representation is that of a
    positive zero; any other pointer made this way was never allocated,
    and releasing it is undefined. *)
Definition av_freep_values (values : list (option double)) : exec unit :=
  match values !! 0%nat with
  | None => Undefined out_of_bounds
  | Some None => Undefined uninit_read
  | Some (Some v) =>
      match (v : double) with
      | S754_zero false => Done tt
      | _ => Undefined invalid_free
      end
  end.

(** What a call of [uninit] that returns leaves behind: the text of the
    dump file, if one was opened, and whether the warning was logged. *)
Record torn_down : Type := mkTornDown {
  dump_file : option string;
  warned : bool
}.

(** [json] is the option of that name, which the context record leaves
    out; [fopen] says which paths [av_fopen_utf8] opens. *)
Definition uninit (ctx : DumpWaveContext) (json : option string)
    (fopen : string -> bool) : exec torn_down :=
  let dump_fp := match json with Some path => fopen path | None => false end in
  let warning := match json with Some path => negb (fopen path) | None => false end in
  let* file :=
    if dump_fp then
      match str ctx with
      | Some result => Done (Some (json_document (w ctx) (h ctx) result))
      | None => Undefined uninit_read
      end
    else Done None in
  let* _ := av_freep_values (values ctx) in
  Done {| dump_file := file; warned := warning |}.

(** ** A reference C library

    [log10] and [exp] computed in fixed point with 120 fractional bits
    and rounded to binary64, with the special values of Annex F of the C
    standard.  The filter is evaluated with them on concrete streams. *)

Definition FIX : Z := 2 ^ 120.

(** The series of [atanh z], [z] in fixed point, [k] terms from the one
    of odd index [j]. *)
Fixpoint atanh_series (k : nat) (z2 term : Z) (j : Z) : Z :=
  match k with
  | O => 0
  | S k' => term / j + atanh_series k' z2 (term * z2 / FIX) (j + 2)
  end.

Definition atanh_fix (z : Z) : Z := atanh_series 64 (z * z / FIX) z 1.

(** The logarithm of [f / FIX], [f] in [[FIX, 2 FIX)]. *)
Definition ln_fix (f : Z) : Z := 2 * atanh_fix ((f - FIX) * FIX / (f + FIX)).

Definition LN2_fix : Z := 2 * atanh_fix (FIX / 3).
Definition LN10_fix : Z := ln_fix (FIX + FIX / 4) + 3 * LN2_fix.

Definition ref_log10 (x : double) : double :=
  match x with
  | S754_nan => S754_nan
  | S754_zero _ => S754_infinity true
  | S754_infinity false => x
  | S754_infinity true => S754_nan
  | S754_finite true _ _ => S754_nan
  | S754_finite false m e =>
      let d := Z.pos (digits2_pos m) in
      let f := Z.shiftl (Z.pos m) (120 - (d - 1)) in
      let ln := ln_fix f + (e + d - 1) * LN2_fix in
      binary_normalize 53 1024 (ln * FIX / LN10_fix) (-120) false
  end.

(** The series of [exp y], [k] terms from the one of index [j]. *)
Fixpoint exp_series (k : nat) (y term : Z) (j : Z) : Z :=
  match k with
  | O => 0
  | S k' => term + exp_series k' y (term * y / (FIX * j)) (j + 1)
  end.

Fixpoint square_fix (k : nat) (r : Z) : Z :=
  match k with
  | O => r
  | S k' => square_fix k' (r * r / FIX)
  end.

(** [exp] of a non-negative argument below 2^11, in fixed point. *)
Definition exp_fix (x : Z) : Z :=
  square_fix 16 (exp_series 32 (x / 2 ^ 16) FIX 1).

Definition ref_exp (x : double) : double :=
  match x with
  | S754_nan => S754_nan
  | S754_zero _ => double_one
  | S754_infinity false => x
  | S754_infinity true => S754_zero false
  | S754_finite s m e =>
      if 11 <=? Z.pos (digits2_pos m) + e then
        if s then S754_zero false else S754_infinity false
      else
        let r := exp_fix (Z.shiftl (Z.pos m) (e + 120)) in
        if s then binary_normalize 53 1024 (FIX * FIX / r) (-120) false
        else binary_normalize 53 1024 r (-120) false
  end.

(** ** Streams, well-formed inputs and the words of the specification *)

(** The samples of the first channel at the indices [i], ..., [i + k - 1]
    of an interleaved buffer. *)
Definition first_channel (nb_channels : Z) (p : list Z) (i : Z) (k : nat)
    : list Z :=
  map (fun j => default 0 (p !! Z.to_nat ((i + Z.of_nat j) * nb_channels)))
      (seq 0 k).

(** The samples one call of [dumpwave_filter_frame] ingests, and those of
    a stream. *)
Definition frame_ingested (nb_channels : Z) (frame : AVFrame) : list Z :=
  first_channel nb_channels (data frame) 0
    (Z.to_nat (int16_of_int (nb_samples frame))).

Definition stream_ingested (nb_channels : Z) (frames : list AVFrame) : list Z :=
  concat (map (frame_ingested nb_channels) frames).

(** A frame as the framework delivers it: [nb_samples] samples of
    [nb_channels] interleaved [int16_t] values each. *)
Definition is_int16 (s : Z) : Prop := -32768 <= s <= 32767.

Definition frame_wf (nb_channels : Z) (frame : AVFrame) : Prop :=
  1 <= nb_channels /\
  0 <= nb_samples frame <= INT_MAX /\
  Z.of_nat (length (data frame)) = nb_samples frame * nb_channels /\
  Forall is_int16 (data frame).

(** A frame built from the samples of a mono stream. *)
Definition mono_frame (samples : list Z) : AVFrame :=
  {| nb_samples := Z.of_nat (length samples); data := samples |}.

(** The accumulator, sample by sample. *)
Section Ingest_all.
Variable log10 : double -> double.

Fixpoint ingest_all (ctx : DumpWaveContext) (samples : list Z)
    : exec DumpWaveContext :=
  match samples with
  | [] => Done ctx
  | s16 :: rest => let* ctx' := ingest log10 ctx s16 in ingest_all ctx' rest
  end.
End Ingest_all.

(** The number of samples ingested since setup, as the counters hold it. *)
Definition ingested_count (ctx : DumpWaveContext) : Z :=
  col ctx * (c ctx + 1) + n ctx.

(** The counters of a context between two samples. *)
Definition ctx_ok (ctx : DumpWaveContext) : Prop :=
  0 <= n ctx <= c ctx /\
  0 <= col ctx <= w ctx /\
  Z.of_nat (length (values ctx)) = w ctx /\
  w ctx <= INT_MAX /\ c ctx <= INT_MAX.

(** Two contexts with the same configuration. *)
Definition same_config (ctx ctx' : DumpWaveContext) : Prop :=
  w ctx' = w ctx /\ h ctx' = h ctx /\ c ctx' = c ctx.

(** ** The state of the accumulator *)

(** The slots of [values] below the column cursor, and the others. *)
Definition committed (ctx : DumpWaveContext) : list (option double) :=
  take (Z.to_nat (col ctx)) (values ctx).

Definition uncommitted (ctx : DumpWaveContext) : list (option double) :=
  drop (Z.to_nat (col ctx)) (values ctx).

(** ** Predicates on floating-point values *)

(** The bits a right shift dropped were not all zero. *)
Definition inexact (mrs : shr_record) : bool := shr_r mrs || shr_s mrs.

(** [b] is [a] shifted right by [k] bits. *)
Definition shr_by (k : Z) (a b : shr_record) : Prop :=
  shr_m b = shr_m a / 2 ^ k /\
  inexact b = negb (shr_m a mod 2 ^ k =? 0) || inexact a.

(** A double of [[0,1]]: a valid binary64 value between zero and one. *)
Definition in_unit_interval (y : double) : bool :=
  valid_binary 53 1024 y && SFleb (S754_zero false) y && SFleb y double_one.

(** A value that is not a NaN, as a point of the lexicographic order on
    triples of integers: the sign class, then the exponent, then the
    mantissa. *)
Definition SFkey (x : spec_float) : Z * Z * Z :=
  match x with
  | S754_nan => (3, 0, 0)
  | S754_zero _ => (0, 0, 0)
  | S754_infinity s => (if s then -2 else 2, 0, 0)
  | S754_finite s m e =>
      if s then (-1, - e, - Z.pos m) else (1, e, Z.pos m)
  end.

Definition key_le (a b : Z * Z * Z) : Prop :=
  let '(a1, a2, a3) := a in
  let '(b1, b2, b3) := b in
  a1 < b1 \/ (a1 = b1 /\ (a2 < b2 \/ (a2 = b2 /\ a3 <= b3))).

Definition key_lt (a b : Z * Z * Z) : Prop :=
  let '(a1, a2, a3) := a in
  let '(b1, b2, b3) := b in
  a1 < b1 \/ (a1 = b1 /\ (a2 < b2 \/ (a2 = b2 /\ a3 < b3))).

Definition nonneg (x : spec_float) : bool := SFleb (S754_zero false) x.

(** The sign of a value that is not a NaN. *)
Definition has_sign (s : bool) (x : spec_float) : Prop :=
  match x with
  | S754_zero s' | S754_infinity s' | S754_finite s' _ _ => s' = s
  | S754_nan => False
  end.

(** [peak] is the maximum of the committed values: it bounds each of
    them and, once a value is committed, it is one of them. *)
Definition peak_is_max (ctx : DumpWaveContext) : Prop :=
  Forall (fun o => exists v, o = Some v /\ nonneg v = true /\
                             SFleb v (max ctx) = true) (committed ctx) /\
  (col ctx = 0 -> max ctx = double_zero) /\
  (0 < col ctx -> In (Some (max ctx)) (committed ctx)).

(** What holds of a context between two samples. *)
Definition dw_inv (ctx : DumpWaveContext) : Prop :=
  ctx_ok ctx /\
  nonneg (sum ctx) = true /\ nonneg (max ctx) = true /\
  peak_is_max ctx /\
  Forall (fun o => o = None) (uncommitted ctx) /\
  valid_binary 53 1024 (max ctx) = true /\
  Forall (fun o => exists v, o = Some v /\ valid_binary 53 1024 v = true)
         (committed ctx).

(** What the filter needs of [log10]: on a positive argument the result
    is a number.  Then the level of every sample is a number. *)
Definition log10_defined (log10 : double -> double) : Prop :=
  forall x, SFltb double_zero x = true -> is_nan (log10 x) = false.

(** The samples whose level is a number. *)
Definition levels_defined (log10 : double -> double) (samples : list Z) : Prop :=
  Forall (fun s16 => is_nan (sample_level log10 s16) = false) samples.

(** ** The words of the specification *)

Section Spec.
Variable log10 : double -> double.
Variable exp : double -> double.

(** "clamped below at 0" *)
Definition spec_clamp (x : float) : float :=
  if SFltb (double_of_float x) double_zero then float_zero else x.

(** "smpl = s / 32767.0; if smpl is exactly 0 it stays 0; otherwise smpl
    is replaced by (20*log10(|smpl|) + 60) / 60, clamped below at 0" *)
Definition spec_smpl (s : Z) : float :=
  let smpl := fdiv (float_of_int s) (float_of_int 32767) in
  if SFeqb (double_of_float smpl) double_zero then smpl
  else
    let db := float_of_double
                (dmul (double_of_int 20) (log10 (fabs (double_of_float smpl)))) in
    spec_clamp (fdiv (fadd db (float_of_int 60)) (float_of_int 60)).

(** "the value added to sumOfSquares is smpl^2" *)
Definition spec_square (s : Z) : double :=
  double_of_float (fmul (spec_smpl s) (spec_smpl s)).

(** "floor(H * exp((v / peak) * e - e))" *)
Definition spec_render (H : Z) (peak v : double) : option Z :=
  SFfloor (dmul (double_of_int H) (exp (dsub (dmul (ddiv v peak) M_E) M_E))).

(** The argument [exp] is called with for a column. *)
Definition exp_arg (peak v : double) : double :=
  dsub (dmul (ddiv v peak) M_E) M_E.

End Spec.

(** "W comma-separated decimal integers with the trailing separator
    removed" *)
Definition spec_serialize (ints : list Z) : string :=
  String.concat "," (map sprintf_d ints).

(** The slots past the column cursor were never written. *)
Definition slots_inv (ctx : DumpWaveContext) : Prop :=
  ctx_ok ctx /\ Forall (fun o => o = None) (uncommitted ctx).

(** The state of the accumulator on a silent stream. *)
Definition silent_inv (ctx : DumpWaveContext) : Prop :=
  slots_inv ctx /\ sum ctx = double_zero /\ max ctx = double_zero /\
  Forall (fun o => o = Some double_zero) (committed ctx).

(** The columns left take the values that [samples] complete: no
    commit finds the cursor at [w]. *)
Definition room (ctx : DumpWaveContext) (samples : list Z) : Prop :=
  ingested_count ctx + Z.of_nat (length samples) < (w ctx + 1) * (c ctx + 1).

(** What the loop of the finalizer writes for the integers [rs]. *)
Fixpoint entries (rs : list Z) : string :=
  match rs with
  | [] => EmptyString
  | r :: rs' => String.append (sprintf_d r) (String.append "," (entries rs'))
  end.

(** ** Windows of samples *)

Section Windows.
Variable log10 : double -> double.

(** Line 209: what a sample adds to [sum]. *)
Definition level_square (s16 : Z) : double :=
  double_of_float (fmul (sample_level log10 s16) (sample_level log10 s16)).

(** What [sum] holds after the samples, from [acc]. *)
Definition sum_of (acc : double) (samples : list Z) : double :=
  fold_left (fun a s16 => dadd a (level_square s16)) samples acc.

(** Line 212: the value committed on the last sample of the run [ws]. *)
Definition window_value (C : Z) (ws : list Z) : double :=
  dsqrt (ddiv (sum_of double_zero ws) (double_of_int C)).

End Windows.

(** The first [k] runs of [size] consecutive samples. *)
Fixpoint windows (k size : nat) (samples : list Z) : list (list Z) :=
  match k with
  | O => []
  | S k' => take size samples :: windows k' size (drop size samples)
  end.

(** Line 218: the peak after the values [vs], from [acc]. *)
Definition peak_of (acc : double) (vs : list double) : double :=
  fold_left FFMAX vs acc.

(** The samples of the first channel of a frame, all [nb_samples] of
    them, and those of a stream. *)
Definition frame_first_channel (nb_channels : Z) (frame : AVFrame) : list Z :=
  first_channel nb_channels (data frame) 0 (Z.to_nat (nb_samples frame)).

Definition stream_first_channel (nb_channels : Z) (frames : list AVFrame) : list Z :=
  concat (map (frame_first_channel nb_channels) frames).

(** The context of an outcome of [filter_stream]. *)
Definition exec_ctx (r : exec (DumpWaveContext * list AVFrame))
    : exec DumpWaveContext :=
  let* p := r in Done (fst p).

(** Positive infinity, or a NaN. *)
Definition inf_or_nan (v : double) : bool :=
  match v with
  | S754_infinity false | S754_nan => true
  | _ => false
  end.

(** ** Concrete inputs *)

Definition status_ok : AVFrame -> Z := fun _ => 0.

Definition eight_samples : list Z :=
  [1000; 2000; -3000; 4000; 30000; 20000; 100; 0].

Definition twelve_samples : list Z := eight_samples ++ [1; 1; 1; 1].

(** A frame of 40000 silent samples, one channel. *)
Definition long_frame : AVFrame :=
  {| nb_samples := 40000; data := replicate (Z.to_nat 40000) 0 |}.

(** The context a stream ends in, when its calls all return. *)
Definition stream_ctx (r : exec (DumpWaveContext * list AVFrame))
    : DumpWaveContext :=
  match r with
  | Done (ctx, _) => ctx
  | _ => priv_alloc 0 0 0
  end.

(** The context at the end of the stream of twelve samples, with W = 4,
    H = 100 and C = 2: four committed columns. *)
Definition example_ctx : DumpWaveContext :=
  stream_ctx (filter_stream ref_log10 status_ok 1 (init (priv_alloc 4 100 2)) []
                [mono_frame twelve_samples]).

(** Three samples on two channels. *)
Definition stereo_frame : AVFrame :=
  {| nb_samples := 3; data := [1000; 7; 2000; 9; -3000; 11] |}.

(** The context after the frames of a mono stream, from setup. *)
Definition after_stream (W H C : Z) (frames : list AVFrame) : DumpWaveContext :=
  stream_ctx (filter_stream ref_log10 status_ok 1 (init (priv_alloc W H C)) [] frames).

(** The context the finalizer leaves, when it returns. *)
Definition finalized (r : exec (DumpWaveContext * Z)) : DumpWaveContext :=
  match r with
  | Done (ctx, _) => ctx
  | _ => priv_alloc 0 0 0
  end.

Definition dump_path : string := "wave.json".

(** * Properties *)

(** ** Floating point: shifts and rounding *)

Lemma digits2_pos_bounds p :
  2 ^ (Z.pos (digits2_pos p) - 1) <= Z.pos p < 2 ^ Z.pos (digits2_pos p).
Proof.
  induction p as [p IH|p IH|]; cbn [digits2_pos]; [| |simpl; lia];
    rewrite Pos2Z.inj_succ;
    replace (Z.succ (Z.pos (digits2_pos p)) - 1) with (Z.succ (Z.pos (digits2_pos p) - 1)) by lia;
    rewrite !Z.pow_succ_r by lia; lia.
Qed.

Lemma shr_1_by mrs : 0 <= shr_m mrs -> shr_by 1 mrs (shr_1 mrs).
Proof.
  destruct mrs as [m r s]. unfold shr_by, inexact. cbn [shr_m shr_r shr_s].
  intros Hm. change (2 ^ 1) with 2.
  destruct m as [|[p|p|]|p]; try lia; cbn [shr_1 shr_m shr_r shr_s].
  - split; [|destruct r, s; reflexivity]. reflexivity.
  - rewrite Pos2Z.inj_xI. split.
    + apply (Z.div_unique _ 2 _ 1); lia.
    + replace ((2 * Z.pos p + 1) mod 2) with 1.
      * reflexivity.
      * apply (Z.mod_unique _ 2 (Z.pos p) 1); lia.
  - rewrite Pos2Z.inj_xO. split.
    + apply (Z.div_unique _ 2 _ 0); lia.
    + replace ((2 * Z.pos p) mod 2) with 0.
      * reflexivity.
      * apply (Z.mod_unique _ 2 (Z.pos p) 0); lia.
  - split; reflexivity.
Qed.

Lemma shr_by_nonneg k a b : 0 <= k -> 0 <= shr_m a -> shr_by k a b -> 0 <= shr_m b.
Proof. intros Hk Ha [Hb _]. rewrite Hb. apply Z.div_pos; lia. Qed.

Lemma shr_by_trans j k a b d :
  0 <= j -> 0 <= k -> 0 <= shr_m a ->
  shr_by j a b -> shr_by k b d -> shr_by (j + k) a d.
Proof.
  intros Hj Hk Ha [Hb Hib] [Hd Hid]. unfold shr_by.
  rewrite Z.pow_add_r by assumption.
  assert (H2j : 0 < 2 ^ j) by lia. assert (H2k : 0 < 2 ^ k) by lia.
  split.
  - rewrite Hd, Hb. apply Z.div_div; lia.
  - rewrite Hid, Hib, Hb. rewrite Z.rem_mul_r by lia.
    pose proof (Z.mod_pos_bound (shr_m a) (2 ^ j) H2j).
    pose proof (Z.mod_pos_bound (shr_m a / 2 ^ j) (2 ^ k) H2k).
    destruct (Z.eqb_spec (shr_m a mod 2 ^ j) 0) as [E1|E1];
    destruct (Z.eqb_spec (shr_m a / 2 ^ j mod 2 ^ k) 0) as [E2|E2];
    destruct (Z.eqb_spec (shr_m a mod 2 ^ j + 2 ^ j * (shr_m a / 2 ^ j mod 2 ^ k)) 0) as [E3|E3];
    simpl; try reflexivity; try (destruct (inexact a); reflexivity); exfalso; nia.
Qed.

Lemma iter_shr_1_by p : forall mrs,
  0 <= shr_m mrs -> shr_by (Z.pos p) mrs (SpecFloat.iter_pos shr_1 p mrs).
Proof.
  induction p as [p IH|p IH|]; intros mrs Hm; cbn [SpecFloat.iter_pos].
  - pose proof (shr_1_by mrs Hm) as H1.
    pose proof (shr_by_nonneg 1 _ _ ltac:(lia) Hm H1) as Hm1.
    pose proof (IH _ Hm1) as H2.
    pose proof (shr_by_nonneg (Z.pos p) _ _ ltac:(lia) Hm1 H2) as Hm2.
    pose proof (IH _ Hm2) as H3.
    replace (Z.pos p~1) with (1 + (Z.pos p + Z.pos p)) by lia.
    eapply shr_by_trans; [lia|lia|assumption|exact H1|].
    eapply shr_by_trans; [lia|lia|assumption|exact H2|exact H3].
  - pose proof (IH _ Hm) as H2.
    pose proof (shr_by_nonneg (Z.pos p) _ _ ltac:(lia) Hm H2) as Hm2.
    pose proof (IH _ Hm2) as H3.
    replace (Z.pos p~0) with (Z.pos p + Z.pos p) by lia.
    eapply shr_by_trans; [lia|lia|assumption|exact H2|exact H3].
  - apply shr_1_by, Hm.
Qed.

Lemma shr_by_0 mrs : shr_by 0 mrs mrs.
Proof.
  unfold shr_by. change (2 ^ 0) with 1. rewrite Z.div_1_r, Z.mod_1_r. split; reflexivity.
Qed.

Section Shifts.
Variables prec emax : Z.

(** [shr_fexp] shifts by the number of bits in excess. *)
Lemma shr_fexp_by m e l :
  0 <= m ->
  let k := Z.max 0 (fexp prec emax (Zdigits2 m + e) - e) in
  shr_by k (shr_record_of_loc m l) (fst (shr_fexp prec emax m e l)) /\
  snd (shr_fexp prec emax m e l) = e + k.
Proof.
  intros Hm k. unfold shr_fexp, shr.
  assert (Hs : shr_m (shr_record_of_loc m l) = m) by (destruct l as [|[]]; reflexivity).
  destruct (fexp prec emax (Zdigits2 m + e) - e) as [|p|p] eqn:Hk; subst k; cbn [fst snd].
  - split; [apply shr_by_0|lia].
  - replace (Z.max 0 (Z.pos p)) with (Z.pos p) by lia.
    split; [|reflexivity]. apply iter_shr_1_by. rewrite Hs. exact Hm.
  - replace (Z.max 0 (Z.neg p)) with 0 by lia.
    split; [apply shr_by_0|lia].
Qed.

Lemma round_nearest_even_bounds q lx :
  q <= round_nearest_even q lx <= q + 1.
Proof. destruct lx as [|[]]; simpl; try lia. destruct (Z.even q); lia. Qed.

Lemma loc_exact_of_inexact mrs :
  inexact mrs = false -> loc_of_shr_record mrs = loc_Exact.
Proof. destruct mrs as [m [] []]; unfold inexact; simpl; congruence. Qed.

End Shifts.

Section Round_aux.
Variables prec emax : Z.

Lemma inexact_of_loc m l :
  shr_m (shr_record_of_loc m l) = m /\
  (l = loc_Exact -> inexact (shr_record_of_loc m l) = false).
Proof. destruct l as [|[]]; unfold inexact; simpl; split; congruence. Qed.

(** The two shifts and the rounding of [binary_round_aux], on a
    non-negative mantissa. *)
Lemma binary_round_aux_steps s m e l :
  0 <= m ->
  exists k1 r k2,
    k1 = Z.max 0 (fexp prec emax (Zdigits2 m + e) - e) /\
    m / 2 ^ k1 <= r <= m / 2 ^ k1 + 1 /\
    (l = loc_Exact -> m mod 2 ^ k1 = 0 -> r = m / 2 ^ k1) /\
    k2 = Z.max 0 (fexp prec emax (Zdigits2 r + (e + k1)) - (e + k1)) /\
    binary_round_aux prec emax s m e l =
      match r / 2 ^ k2 with
      | Z0 => S754_zero s
      | Z.pos p => if e + k1 + k2 <=? emax - prec
                   then S754_finite s p (e + k1 + k2) else S754_infinity s
      | Z.neg _ => S754_nan
      end.
Proof.
  intros Hm. unfold binary_round_aux.
  destruct (shr_fexp_by prec emax m e l Hm) as [[Hq Hi] He1].
  destruct (inexact_of_loc m l) as [Hsm Hil].
  destruct (shr_fexp prec emax m e l) as [mrs1 e1]. cbn [fst snd] in *.
  rewrite Hsm in Hq, Hi.
  set (k1 := Z.max 0 (fexp prec emax (Zdigits2 m + e) - e)) in *.
  set (r := round_nearest_even (shr_m mrs1) (loc_of_shr_record mrs1)).
  assert (Hr : m / 2 ^ k1 <= r <= m / 2 ^ k1 + 1).
  { subst r. rewrite <- Hq. apply round_nearest_even_bounds. }
  assert (Hr0 : 0 <= r).
  { assert (0 <= m / 2 ^ k1) by (apply Z.div_pos; lia). lia. }
  destruct (shr_fexp_by prec emax r e1 loc_Exact Hr0) as [[Hq2 _] He2].
  destruct (shr_fexp prec emax r e1 loc_Exact) as [mrs2 e2]. cbn [fst snd] in *.
  cbn [shr_record_of_loc shr_m] in Hq2.
  exists k1, r, (Z.max 0 (fexp prec emax (Zdigits2 r + (e + k1)) - (e + k1))).
  split; [reflexivity|]. split; [exact Hr|]. split.
  { intros Hl Hmod. subst r. rewrite loc_exact_of_inexact; [simpl; exact Hq|].
    rewrite Hi, (Hil Hl), Hmod. reflexivity. }
  split; [reflexivity|].
  rewrite Hq2, He2, He1. reflexivity.
Qed.

(** Signs: rounding a non-negative mantissa keeps the sign and never
    gives a NaN. *)
Lemma binary_round_aux_sign s m e l :
  0 <= m -> has_sign s (binary_round_aux prec emax s m e l).
Proof.
  intros Hm. destruct (binary_round_aux_steps s m e l Hm) as (k1 & r & k2 & Hk1 & Hr & _ & Hk2 & ->).
  assert (0 <= m / 2 ^ k1) by (apply Z.div_pos; lia).
  assert (0 <= r / 2 ^ k2) by (apply Z.div_pos; lia).
  destruct (r / 2 ^ k2); [reflexivity| |lia].
  destruct (_ <=? _); reflexivity.
Qed.

Lemma binary_round_sign s m e : has_sign s (binary_round prec emax s m e).
Proof.
  unfold binary_round. destruct (shl_align _ _ _) as [mz ez].
  apply binary_round_aux_sign. lia.
Qed.

Lemma binary_normalize_not_nan m e sz :
  is_nan (binary_normalize prec emax m e sz) = false.
Proof.
  destruct m as [|p|p]; simpl; [reflexivity| |].
  - pose proof (binary_round_sign false p e) as Hs.
    destruct (binary_round prec emax false p e); simpl in *; tauto.
  - pose proof (binary_round_sign true p e) as Hs.
    destruct (binary_round prec emax true p e); simpl in *; tauto.
Qed.

(** A canonical mantissa is not changed. *)
Lemma binary_round_aux_canonical s m e :
  bounded prec emax m e = true ->
  binary_round_aux prec emax s (Z.pos m) e loc_Exact = S754_finite s m e.
Proof.
  intros Hb. apply andb_prop in Hb as [Hc He].
  unfold canonical_mantissa in Hc. apply Z.eqb_eq in Hc. apply Z.leb_le in He.
  destruct (binary_round_aux_steps s (Z.pos m) e loc_Exact ltac:(lia))
    as (k1 & r & k2 & Hk1 & Hr & Hex & Hk2 & ->).
  cbn [Zdigits2] in Hk1. rewrite Hc in Hk1.
  assert (Hk0 : k1 = 0) by lia. clear Hk1. subst k1.
  change (2 ^ 0) with 1 in Hr, Hex. rewrite Z.div_1_r in Hr, Hex.
  assert (r = Z.pos m) by (apply Hex; [reflexivity|apply Z.mod_1_r]). subst r.
  cbn [Zdigits2] in Hk2. rewrite Z.add_0_r in Hk2. rewrite Hc in Hk2.
  assert (Hk2' : k2 = 0) by lia. rewrite Hk2'.
  change (2 ^ 0) with 1. rewrite Z.div_1_r, !Z.add_0_r.
  destruct (Z.leb_spec e (emax - prec)); [reflexivity|lia].
Qed.

End Round_aux.

Lemma Zdigits2_bounds r :
  0 <= r -> r < 2 ^ Zdigits2 r /\ (0 < r -> 2 ^ (Zdigits2 r - 1) <= r).
Proof.
  destruct r as [|p|p]; intros Hr; try lia; cbn [Zdigits2].
  - simpl. lia.
  - pose proof (digits2_pos_bounds p). lia.
Qed.

Lemma Zdigits2_nonneg r : 0 <= Zdigits2 r.
Proof. destruct r; simpl; lia. Qed.

Lemma Zdigits2_le_of_lt r a : 0 <= r -> 0 <= a -> r < 2 ^ a -> Zdigits2 r <= a.
Proof.
  intros Hr Ha Hlt.
  destruct (Z.eq_dec r 0) as [->|Hne]; [simpl; lia|].
  destruct (Zdigits2_bounds r Hr) as [_ Hlo]. specialize (Hlo ltac:(lia)).
  destruct (Z.le_gt_cases (Zdigits2 r) a) as [|Hgt]; [assumption|exfalso].
  assert (2 ^ a <= 2 ^ (Zdigits2 r - 1)) by (apply Z.pow_le_mono_r; lia).
  lia.
Qed.

Lemma iter_xO_value p d : Z.pos (Pos.iter xO p d) = Z.pos p * 2 ^ Z.pos d.
Proof.
  induction d as [|d IH] using Pos.peano_ind.
  - simpl. lia.
  - rewrite Pos.iter_succ, Pos2Z.inj_xO, IH, Pos2Z.inj_succ, Z.pow_succ_r by lia. lia.
Qed.

Lemma iter_xO_digits p d :
  Z.pos (digits2_pos (Pos.iter xO p d)) = Z.pos (digits2_pos p) + Z.pos d.
Proof.
  induction d as [|d IH] using Pos.peano_ind.
  - simpl. lia.
  - rewrite Pos.iter_succ. cbn [digits2_pos]. rewrite Pos2Z.inj_succ, IH. lia.
Qed.

(** An integer below 2^53 is a double. *)
Lemma double_of_int_pos z :
  0 < z < 2 ^ 53 ->
  exists mh eh, double_of_int z = S754_finite false mh eh /\
    Z.pos mh = z * 2 ^ (- eh) /\ -52 <= eh <= 0 /\
    bounded 53 1024 mh eh = true.
Proof.
  intros Hz. destruct z as [|p|p]; try lia.
  unfold double_of_int, binary_normalize, binary_round.
  pose proof (digits2_pos_bounds p) as Hd.
  assert (Hd53 : Z.pos (digits2_pos p) <= 53).
  { apply (Zdigits2_le_of_lt (Z.pos p)); lia. }
  assert (Hfexp : fexp 53 1024 (Z.pos (digits2_pos p) + 0) = Z.pos (digits2_pos p) - 53).
  { unfold fexp, emin. lia. }
  rewrite Hfexp. unfold shl_align.
  destruct (Z.pos (digits2_pos p) - 53 - 0) as [|k|k] eqn:Hk; try lia.
  - exists p, 0.
    assert (Hb : bounded 53 1024 p 0 = true).
    { unfold bounded, canonical_mantissa. rewrite Hfexp.
      apply andb_true_intro; split; [apply Z.eqb_eq; lia|reflexivity]. }
    rewrite binary_round_aux_canonical by exact Hb.
    repeat split; try lia. exact Hb.
  - exists (Pos.iter xO p k), (Z.pos (digits2_pos p) - 53).
    assert (Hb : bounded 53 1024 (Pos.iter xO p k) (Z.pos (digits2_pos p) - 53) = true).
    { unfold bounded, canonical_mantissa. rewrite iter_xO_digits.
      apply andb_true_intro; split; [apply Z.eqb_eq; unfold fexp, emin; lia|apply Z.leb_le; lia]. }
    rewrite binary_round_aux_canonical by exact Hb.
    split; [reflexivity|]. split; [|split; [lia|exact Hb]].
    rewrite iter_xO_value. f_equal. f_equal. lia.
Qed.

Lemma double_of_int_0 : double_of_int 0 = S754_zero false.
Proof. reflexivity. Qed.

(** A finite value divided by itself is one. *)
Lemma ddiv_self s m e : ddiv (S754_finite s m e) (S754_finite s m e) = double_one.
Proof.
  unfold ddiv, SFdiv, SFdiv_core_binary.
  rewrite !Z.sub_diag. change (fexp 53 1024 0) with (-53).
  change (Z.min (-53) 0) with (-53). change (0 - -53) with 53.
  rewrite Z.shiftl_mul_pow2 by lia.
  rewrite (Z.mul_comm (Z.pos m)).
  pose proof (Z.div_mul (2 ^ 53) (Z.pos m) ltac:(lia)) as Hq.
  pose proof (Z.mod_mul (2 ^ 53) (Z.pos m) ltac:(lia)) as Hr.
  unfold Z.div, Z.modulo in Hq, Hr.
  destruct (Z.div_eucl (2 ^ 53 * Z.pos m) (Z.pos m)) as [q r]. subst q r.
  assert (Hloc : new_location (Z.pos m) 0 = loc_Exact).
  { unfold new_location. destruct (Z.even (Z.pos m)); reflexivity. }
  rewrite Hloc. destruct s; reflexivity.
Qed.

(** Multiplying a double by one does not change it. *)
Lemma dmul_one_r s m e :
  bounded 53 1024 m e = true ->
  dmul (S754_finite s m e) double_one = S754_finite s m e.
Proof.
  intros Hb. pose proof Hb as Hb'. apply andb_prop in Hb' as [Hc He].
  unfold canonical_mantissa in Hc. apply Z.eqb_eq in Hc. apply Z.leb_le in He.
  unfold dmul, double_one, SFmul. rewrite xorb_false_r.
  rewrite Pos.mul_comm.
  change (4503599627370496 * m)%positive with (Pos.iter xO m 52).
  destruct (binary_round_aux_steps 53 1024 s (Z.pos (Pos.iter xO m 52)) (e + -52) loc_Exact ltac:(lia))
    as (k1 & r & k2 & Hk1 & Hr & Hex & Hk2 & ->).
  cbn [Zdigits2] in Hk1. rewrite iter_xO_digits in Hk1.
  replace (Z.pos (digits2_pos m) + 52 + (e + -52)) with (Z.pos (digits2_pos m) + e) in Hk1 by lia.
  rewrite Hc in Hk1.
  assert (Hk : k1 = 52) by lia. clear Hk1. subst k1.
  rewrite iter_xO_value in Hr, Hex.
  rewrite Z.div_mul in Hr, Hex by lia. rewrite Z.mod_mul in Hex by lia.
  assert (r = Z.pos m) by (apply Hex; reflexivity). subst r.
  cbn [Zdigits2] in Hk2.
  replace (Z.pos (digits2_pos m) + (e + -52 + 52)) with (Z.pos (digits2_pos m) + e) in Hk2 by lia.
  rewrite Hc in Hk2.
  assert (Hk : k2 = 0) by lia. clear Hk2. subst k2.
  change (2 ^ 0) with 1. rewrite Z.div_1_r.
  replace (e + -52 + 52 + 0) with e by lia.
  destruct (Z.leb_spec e (1024 - 53)); [reflexivity|lia].
Qed.

Lemma int_of_double_of_int z :
  0 <= z <= INT_MAX -> int_of_double (double_of_int z) = Some z.
Proof.
  intros Hz. unfold INT_MAX in Hz.
  destruct (Z.eq_dec z 0) as [->|Hne]; [reflexivity|].
  destruct (double_of_int_pos z) as (mh & eh & -> & Hm & He & _); [lia|].
  unfold int_of_double, SFtrunc. cbn [cond_Zopp].
  rewrite Z.shiftl_div_pow2 by lia. rewrite Hm, Z.div_mul by lia.
  unfold INT_MIN, INT_MAX.
  destruct (Z.leb_spec (-2147483648) z); [|lia].
  destruct (Z.leb_spec z 2147483647); [|lia]. reflexivity.
Qed.

(** Rounding stays below an integer bound: if [M * 2^E <= B] for an
    integer [B] below 2^53, the double nearest to [M * 2^E] truncates to
    an integer of [[0, B]]. *)
Lemma round_below_int M E B :
  E <= 0 -> 0 <= B < 2 ^ 53 -> Z.pos M <= B * 2 ^ (- E) ->
  exists r, SFtrunc (binary_round_aux 53 1024 false (Z.pos M) E loc_Exact) = Some r /\
            0 <= r <= B.
Proof.
  intros HE HB HM.
  destruct (binary_round_aux_steps 53 1024 false (Z.pos M) E loc_Exact ltac:(lia))
    as (k1 & r & k2 & Hk1 & Hr & Hex & Hk2 & ->).
  specialize (Hex eq_refl).
  (* the first shift *)
  assert (HdM : Zdigits2 (Z.pos M) <= 53 - E).
  { apply Zdigits2_le_of_lt; [lia|lia|].
    replace (53 - E) with (53 + - E) by lia. rewrite Z.pow_add_r by lia.
    assert (0 < 2 ^ (- E)) by (apply Z.pow_pos_nonneg; lia). nia. }
  set (e1 := E + k1) in *.
  assert (He1 : E <= e1 <= 0 /\ k1 = e1 - E /\ 0 <= k1).
  { subst e1. unfold fexp, emin in Hk1. lia. }
  destruct He1 as (He1 & Hk1' & Hk10). clear Hk1.
  assert (HB1 : B * 2 ^ (- E) = B * 2 ^ (- e1) * 2 ^ k1).
  { replace (- E) with (- e1 + k1) by lia. rewrite Z.pow_add_r by lia. ring. }
  assert (Hp1 : 0 < 2 ^ k1) by (apply Z.pow_pos_nonneg; lia).
  assert (Hq1 : 0 < 2 ^ (- e1)) by (apply Z.pow_pos_nonneg; lia).
  assert (Hrb : 0 <= r <= B * 2 ^ (- e1)).
  { pose proof (Z.div_mod (Z.pos M) (2 ^ k1) ltac:(lia)) as Hdm.
    pose proof (Z.mod_pos_bound (Z.pos M) (2 ^ k1) Hp1) as Hmb.
    assert (0 <= Z.pos M / 2 ^ k1) by (apply Z.div_pos; lia).
    split; [lia|].
    destruct (Z.eq_dec (Z.pos M mod 2 ^ k1) 0) as [Hz|Hnz].
    - rewrite (Hex Hz). nia.
    - assert (Z.pos M / 2 ^ k1 < B * 2 ^ (- e1)) by nia. lia. }
  clear Hr Hex HM HB1.
  (* the second shift *)
  assert (Hdr : Zdigits2 r <= 53 - e1).
  { apply Zdigits2_le_of_lt; [lia|lia|].
    replace (53 - e1) with (53 + - e1) by lia. rewrite Z.pow_add_r by lia. nia. }
  pose proof (Zdigits2_nonneg r) as Hdr0.
  set (e2 := e1 + k2) in *.
  assert (He2 : e1 <= e2 <= 0 /\ k2 = e2 - e1 /\ 0 <= k2).
  { subst e2. unfold fexp, emin in Hk2. lia. }
  destruct He2 as (He2 & Hk2' & Hk20). clear Hk2.
  assert (HB2 : B * 2 ^ (- e1) = B * 2 ^ (- e2) * 2 ^ k2).
  { replace (- e1) with (- e2 + k2) by lia. rewrite Z.pow_add_r by lia. ring. }
  assert (Hp2 : 0 < 2 ^ k2) by (apply Z.pow_pos_nonneg; lia).
  assert (Hq2 : 0 < 2 ^ (- e2)) by (apply Z.pow_pos_nonneg; lia).
  assert (Hm2 : 0 <= r / 2 ^ k2 <= B * 2 ^ (- e2)).
  { pose proof (Z.div_mod r (2 ^ k2) ltac:(lia)) as Hdm.
    pose proof (Z.mod_pos_bound r (2 ^ k2) Hp2) as Hmb.
    assert (0 <= r / 2 ^ k2) by (apply Z.div_pos; lia).
    split; [lia|]. nia. }
  destruct (r / 2 ^ k2) as [|p|p]; [exists 0; split; [reflexivity|lia]| |lia].
  destruct (Z.leb_spec e2 (1024 - 53)); [|lia].
  cbn [SFtrunc cond_Zopp]. eexists; split; [reflexivity|].
  rewrite Z.shiftl_div_pow2 by lia.
  split; [apply Z.div_pos; lia|].
  apply Z.div_le_upper_bound; [lia|]. lia.
Qed.

Lemma unit_interval_mantissa m e :
  valid_binary 53 1024 (S754_finite false m e) = true ->
  SFleb (S754_finite false m e) double_one = true ->
  e <= -52 /\ Z.pos m <= 2 ^ (- e).
Proof.
  unfold valid_binary, bounded, canonical_mantissa, SFleb, SFcompare, double_one.
  intros Hv Hle. apply andb_prop in Hv as [Hc _]. apply Z.eqb_eq in Hc.
  destruct (Z.compare_spec e (-52)) as [He|He|He]; try discriminate.
  - subst e. rewrite Pos.compare_cont_spec in Hle. simpl Pos.switch_Eq in Hle.
    split; [lia|]. change (2 ^ (- -52)) with 4503599627370496.
    assert (Hm : (m <= 4503599627370496)%positive).
    { unfold Pos.le. intros HG. rewrite HG in Hle. discriminate. }
    clear Hle Hc. exact (Pos2Z.pos_le_pos _ _ Hm).
  - split; [lia|]. pose proof (digits2_pos_bounds m) as [_ Hhi].
    assert (Hd : Z.pos (digits2_pos m) <= 53) by (unfold fexp, emin in Hc; lia).
    assert (2 ^ Z.pos (digits2_pos m) <= 2 ^ (- e)) by (apply Z.pow_le_mono_r; lia).
    lia.
Qed.

(** The product of an [int] and a double of [[0,1]] converts to an
    integer between zero and that [int]. *)
Lemma dmul_int_unit_interval ch_height y :
  0 <= ch_height <= INT_MAX -> in_unit_interval y = true ->
  exists res, int_of_double (dmul (double_of_int ch_height) y) = Some res /\
              0 <= res <= ch_height.
Proof.
  intros Hh Hy. unfold INT_MAX in Hh. unfold in_unit_interval in Hy.
  apply andb_prop in Hy as [Hy Hle]. apply andb_prop in Hy as [Hv Hge].
  assert (Hzero : forall s, exists res,
             int_of_double (S754_zero s) = Some res /\ 0 <= res <= ch_height).
  { intros s. exists 0. split; [reflexivity|lia]. }
  destruct y as [sy|sy| |sy my ey]; try discriminate.
  - (* y is a zero *)
    destruct (Z.eq_dec ch_height 0) as [->|Hne]; [apply Hzero|].
    destruct (double_of_int_pos ch_height) as (mh & eh & -> & _); [lia|]. apply Hzero.
  - destruct sy; discriminate.
  - destruct sy; [discriminate|].
    destruct (unit_interval_mantissa my ey Hv Hle) as [Hey Hmy].
    destruct (Z.eq_dec ch_height 0) as [->|Hne]; [apply Hzero|].
    destruct (double_of_int_pos ch_height) as (mh & eh & -> & Hmh & Heh & _); [lia|].
    unfold dmul, SFmul. cbn [xorb].
    destruct (round_below_int (mh * my) (eh + ey) ch_height) as (res & Hres & Hrange);
      [lia|lia| |].
    + rewrite Pos2Z.inj_mul, Hmh.
      replace (- (eh + ey)) with (- eh + - ey) by lia. rewrite Z.pow_add_r by lia.
      assert (0 < 2 ^ (- eh)) by (apply Z.pow_pos_nonneg; lia).
      assert (0 < 2 ^ (- ey)) by (apply Z.pow_pos_nonneg; lia). nia.
    + exists res. split; [|exact Hrange].
      unfold int_of_double. rewrite Hres. unfold INT_MIN, INT_MAX.
      destruct (Z.leb_spec (-2147483648) res); [|lia].
      destruct (Z.leb_spec res 2147483647); [|lia]. reflexivity.
Qed.

(** *** The order of doubles *)

Lemma SFcompare_key x y :
  is_nan x = false -> is_nan y = false ->
  exists cmp, SFcompare x y = Some cmp /\
    (cmp = Lt <-> key_lt (SFkey x) (SFkey y)) /\
    (cmp = Gt <-> key_lt (SFkey y) (SFkey x)).
Proof.
  intros Hx Hy.
  destruct x as [sx|sx| |sx mx ex]; try discriminate;
  destruct y as [sy|sy| |sy my ey]; try discriminate;
  try (destruct sx); try (destruct sy); cbn [SFcompare SFkey key_lt];
  try (eexists; split; [reflexivity|]; split; split; intros Hc;
       solve [discriminate | lia | reflexivity]).
  - (* two negative values *)
    destruct (Z.compare_spec ex ey) as [He|He|He].
    + rewrite Pos.compare_cont_spec. simpl Pos.switch_Eq.
      destruct (Pos.compare_spec mx my) as [Hm|Hm|Hm]; cbn [CompOpp];
        eexists; (split; [reflexivity|]); split; split; intros Hc;
        solve [discriminate | lia | reflexivity].
    + eexists; (split; [reflexivity|]); split; split; intros Hc;
        solve [discriminate | lia | reflexivity].
    + eexists; (split; [reflexivity|]); split; split; intros Hc;
        solve [discriminate | lia | reflexivity].
  - (* two positive values *)
    destruct (Z.compare_spec ex ey) as [He|He|He].
    + rewrite Pos.compare_cont_spec. simpl Pos.switch_Eq.
      destruct (Pos.compare_spec mx my) as [Hm|Hm|Hm];
        eexists; (split; [reflexivity|]); split; split; intros Hc;
        solve [discriminate | lia | reflexivity].
    + eexists; (split; [reflexivity|]); split; split; intros Hc;
        solve [discriminate | lia | reflexivity].
    + eexists; (split; [reflexivity|]); split; split; intros Hc;
        solve [discriminate | lia | reflexivity].
Qed.

Lemma SFleb_not_nan x y : SFleb x y = true -> is_nan x = false /\ is_nan y = false.
Proof.
  unfold SFleb. destruct x as [| | |]; destruct y as [| | |]; simpl; try discriminate; auto.
Qed.

Lemma SFltb_not_nan x y : SFltb x y = true -> is_nan x = false /\ is_nan y = false.
Proof.
  unfold SFltb. destruct x as [| | |]; destruct y as [| | |]; simpl; try discriminate; auto.
Qed.

Lemma SFleb_key x y :
  SFleb x y = true <-> is_nan x = false /\ is_nan y = false /\ key_le (SFkey x) (SFkey y).
Proof.
  split.
  - intros Hle. destruct (SFleb_not_nan _ _ Hle) as [Hx Hy].
    split; [assumption|]. split; [assumption|].
    destruct (SFcompare_key x y Hx Hy) as (cmp & Hc & _ & Hgt).
    unfold SFleb in Hle. rewrite Hc in Hle.
    assert (Hn : ~ key_lt (SFkey y) (SFkey x)).
    { intros Hk. apply Hgt in Hk. subst cmp. discriminate. }
    destruct (SFkey x) as [[a1 a2] a3], (SFkey y) as [[b1 b2] b3].
    unfold key_le, key_lt in *. lia.
  - intros (Hx & Hy & Hk).
    destruct (SFcompare_key x y Hx Hy) as (cmp & Hc & _ & Hgt).
    unfold SFleb. rewrite Hc.
    destruct cmp; try reflexivity. exfalso.
    destruct Hgt as [Hgt _]. specialize (Hgt eq_refl).
    destruct (SFkey x) as [[a1 a2] a3], (SFkey y) as [[b1 b2] b3].
    unfold key_le, key_lt in *. lia.
Qed.

Lemma SFltb_key x y :
  SFltb x y = true <-> is_nan x = false /\ is_nan y = false /\ key_lt (SFkey x) (SFkey y).
Proof.
  split.
  - intros Hlt. destruct (SFltb_not_nan _ _ Hlt) as [Hx Hy].
    split; [assumption|]. split; [assumption|].
    destruct (SFcompare_key x y Hx Hy) as (cmp & Hc & Hl & _).
    unfold SFltb in Hlt. rewrite Hc in Hlt.
    destruct cmp; try discriminate. tauto.
  - intros (Hx & Hy & Hk).
    destruct (SFcompare_key x y Hx Hy) as (cmp & Hc & Hl & _).
    unfold SFltb. rewrite Hc. apply Hl in Hk. now rewrite Hk.
Qed.

Lemma SFleb_refl x : is_nan x = false -> SFleb x x = true.
Proof.
  intros Hx. apply SFleb_key. repeat split; try assumption.
  destruct (SFkey x) as [[a1 a2] a3]. unfold key_le. lia.
Qed.

Lemma SFleb_trans x y z : SFleb x y = true -> SFleb y z = true -> SFleb x z = true.
Proof.
  rewrite !SFleb_key. intros (Hx & Hy & Hxy) (_ & Hz & Hyz).
  repeat split; try assumption.
  destruct (SFkey x) as [[a1 a2] a3], (SFkey y) as [[b1 b2] b3], (SFkey z) as [[c1 c2] c3].
  unfold key_le in *. lia.
Qed.

Lemma SFltb_false_leb x y :
  is_nan x = false -> is_nan y = false -> SFltb y x = false -> SFleb x y = true.
Proof.
  intros Hx Hy Hlt. apply SFleb_key. repeat split; try assumption.
  assert (Hn : ~ key_lt (SFkey y) (SFkey x)).
  { intros Hk. rewrite (proj2 (SFltb_key y x)) in Hlt; [discriminate|tauto]. }
  destruct (SFkey x) as [[a1 a2] a3], (SFkey y) as [[b1 b2] b3].
  unfold key_le, key_lt in *. lia.
Qed.

Lemma SFltb_leb x y : SFltb x y = true -> SFleb x y = true.
Proof.
  rewrite SFltb_key, SFleb_key. intros (Hx & Hy & Hk). repeat split; try assumption.
  destruct (SFkey x) as [[a1 a2] a3], (SFkey y) as [[b1 b2] b3].
  unfold key_le, key_lt in *. lia.
Qed.

Lemma nonneg_not_nan x : nonneg x = true -> is_nan x = false.
Proof. intros H. apply (SFleb_not_nan _ _ H). Qed.

Lemma has_sign_nonneg x : has_sign false x -> nonneg x = true.
Proof. destruct x as [s|s| |s m e]; simpl; intros Hs; try contradiction; subst; reflexivity. Qed.

Lemma has_sign_not_nan s x : has_sign s x -> is_nan x = false.
Proof. destruct x; simpl; tauto. Qed.

(** [FFMAX] of two values that are not NaN is the greater one. *)
Lemma FFMAX_ge_l a b :
  is_nan a = false -> is_nan b = false -> SFleb a (FFMAX a b) = true.
Proof.
  intros Ha Hb. unfold FFMAX. destruct (SFltb b a) eqn:Hlt.
  - now apply SFleb_refl.
  - now apply SFltb_false_leb.
Qed.

Lemma FFMAX_ge_r a b :
  is_nan a = false -> is_nan b = false -> SFleb b (FFMAX a b) = true.
Proof.
  intros Ha Hb. unfold FFMAX. destruct (SFltb b a) eqn:Hlt.
  - now apply SFltb_leb.
  - now apply SFleb_refl.
Qed.

Lemma FFMAX_cases a b : FFMAX a b = a \/ FFMAX a b = b.
Proof. unfold FFMAX. destruct (SFltb b a); auto. Qed.

(** *** Operations on values that are not NaN *)

Section NotNan.
Variables prec emax : Z.

Lemma binary_round_aux_not_nan s m e l :
  0 <= m -> is_nan (binary_round_aux prec emax s m e l) = false.
Proof. intros Hm. eapply has_sign_not_nan, binary_round_aux_sign, Hm. Qed.

Lemma binary_round_not_nan s m e : is_nan (binary_round prec emax s m e) = false.
Proof. eapply has_sign_not_nan, binary_round_sign. Qed.

Lemma SFdiv_core_nonneg m1 e1 m2 e2 :
  0 <= fst (fst (SFdiv_core_binary prec emax (Z.pos m1) e1 (Z.pos m2) e2)).
Proof.
  unfold SFdiv_core_binary.
  set (s := e1 - e2 - _).
  set (m' := match s with Z.pos _ => _ | Z0 => _ | Z.neg _ => _ end).
  assert (Hm' : 0 <= m').
  { subst m'. destruct s; try lia. apply Z.shiftl_nonneg. lia. }
  pose proof (Z.div_pos m' (Z.pos m2) Hm' ltac:(lia)) as Hq.
  unfold Z.div in Hq. destruct (Z.div_eucl m' (Z.pos m2)) as [q r]. exact Hq.
Qed.

Lemma SFdiv_finite_sign sx mx ex sy my ey :
  has_sign (xorb sx sy)
    (SFdiv prec emax (S754_finite sx mx ex) (S754_finite sy my ey)).
Proof.
  cbn [SFdiv]. pose proof (SFdiv_core_nonneg mx ex my ey) as Hq.
  destruct (SFdiv_core_binary prec emax (Z.pos mx) ex (Z.pos my) ey) as [[q e'] l].
  apply binary_round_aux_sign. exact Hq.
Qed.

Lemma SFdiv_not_nan x sy my ey :
  is_nan x = false -> is_nan (SFdiv prec emax x (S754_finite sy my ey)) = false.
Proof.
  intros Hx. destruct x as [sx|sx| |sx mx ex]; try discriminate; try reflexivity.
  eapply has_sign_not_nan, SFdiv_finite_sign.
Qed.

Lemma SFdiv_nonneg x y :
  nonneg x = true -> pos_finite y = true -> nonneg (SFdiv prec emax x y) = true.
Proof.
  intros Hx Hy. destruct y as [| | |[] my ey]; try discriminate.
  destruct x as [sx|[]| |[] mx ex]; try discriminate; try reflexivity.
  apply has_sign_nonneg. apply (SFdiv_finite_sign false mx ex false my ey).
Qed.

Lemma SFmul_self_nonneg x :
  is_nan x = false -> nonneg (SFmul prec emax x x) = true.
Proof.
  intros Hx. destruct x as [s|s| |s m e]; try discriminate.
  - simpl. reflexivity.
  - simpl. now rewrite xorb_nilpotent.
  - apply has_sign_nonneg. cbn [SFmul]. rewrite xorb_nilpotent.
    apply binary_round_aux_sign. lia.
Qed.

Lemma SFmul_not_nan sx mx ex y :
  is_nan y = false -> is_nan (SFmul prec emax (S754_finite sx mx ex) y) = false.
Proof.
  intros Hy. destruct y as [sy|sy| |sy my ey]; try discriminate; try reflexivity.
  cbn [SFmul]. apply binary_round_aux_not_nan. lia.
Qed.

Lemma SFadd_finite_not_nan sx mx ex sy my ey :
  is_nan (SFadd prec emax (S754_finite sx mx ex) (S754_finite sy my ey)) = false.
Proof. cbn [SFadd]. apply binary_normalize_not_nan. Qed.

Lemma SFadd_not_nan x sy my ey :
  is_nan x = false -> is_nan (SFadd prec emax x (S754_finite sy my ey)) = false.
Proof.
  intros Hx. destruct x as [sx|sx| |sx mx ex]; try discriminate; try reflexivity.
  apply SFadd_finite_not_nan.
Qed.

Lemma SFadd_nonneg x y :
  nonneg x = true -> nonneg y = true -> nonneg (SFadd prec emax x y) = true.
Proof.
  intros Hx Hy.
  destruct x as [sx|[]| |[] mx ex]; try discriminate;
  destruct y as [sy|[]| |[] my ey]; try discriminate; try reflexivity.
  - destruct sx, sy; reflexivity.
  - apply has_sign_nonneg. cbn [SFadd cond_Zopp]. cbn [binary_normalize Z.add].
    apply binary_round_sign.
Qed.

Lemma SFsqrt_nonneg x : nonneg x = true -> nonneg (SFsqrt prec emax x) = true.
Proof.
  intros Hx. destruct x as [sx|[]| |[] mx ex]; try discriminate; try reflexivity.
  apply has_sign_nonneg. cbn [SFsqrt]. unfold SFsqrt_core_binary.
  set (s := ex - 2 * _).
  set (m' := match s with Z.pos _ => _ | Z0 => _ | Z.neg _ => _ end).
  assert (Hm' : 0 <= m').
  { subst m'. destruct s; try lia. apply Z.shiftl_nonneg. lia. }
  pose proof (Z.sqrtrem_spec m' Hm') as Hs.
  destruct (Z.sqrtrem m') as [q r].
  apply binary_round_aux_sign. lia.
Qed.

End NotNan.

Lemma double_of_float_not_nan x : is_nan x = false -> is_nan (double_of_float x) = false.
Proof.
  destruct x; simpl; try congruence. intros _. apply binary_round_not_nan.
Qed.

Lemma float_of_double_not_nan x : is_nan x = false -> is_nan (float_of_double x) = false.
Proof.
  destruct x; simpl; try congruence. intros _. apply binary_round_not_nan.
Qed.

Lemma double_of_float_nonneg x : nonneg x = true -> nonneg (double_of_float x) = true.
Proof.
  destruct x as [s|[]| |[] m e]; try discriminate; try reflexivity.
  intros _. apply has_sign_nonneg. simpl. apply binary_round_sign.
Qed.

Lemma fabs_positive x :
  is_nan x = false -> SFeqb x double_zero = false ->
  SFltb double_zero (fabs x) = true.
Proof. destruct x as [s|s| |s m e]; try discriminate; reflexivity. Qed.

Lemma float_of_int_not_nan z : is_nan (float_of_int z) = false.
Proof. apply binary_normalize_not_nan. Qed.

Lemma double_of_int_pos_finite z :
  0 < z <= INT_MAX -> pos_finite (double_of_int z) = true.
Proof.
  intros Hz. unfold INT_MAX in Hz.
  destruct (double_of_int_pos z) as (mh & eh & -> & _); [lia|reflexivity].
Qed.

(** ** The counters *)

Lemma int16_of_int_range z : -32768 <= int16_of_int z <= 32767.
Proof. unfold int16_of_int. pose proof (Z.mod_pos_bound (z + 32768) 65536). lia. Qed.

Lemma int16_of_int_small z : -32768 <= z <= 32767 -> int16_of_int z = z.
Proof. intros Hz. unfold int16_of_int. rewrite Z.mod_small; lia. Qed.

Lemma int16_of_int_le z : 0 <= z -> int16_of_int z <= z.
Proof.
  intros Hz. unfold int16_of_int.
  pose proof (Z.mod_le (z + 32768) 65536). lia.
Qed.

Lemma bind_Done {A B} (m : exec A) (k : A -> exec B) b :
  bind m k = Done b -> exists a, m = Done a /\ k a = Done b.
Proof. destruct m; simpl; intros Hm; try discriminate. eauto. Qed.

Section Counters.
Variable log10 : double -> double.

Lemma ingest_no_commit ctx s16 :
  n ctx <> c ctx ->
  exists ctx', ingest log10 ctx s16 = Done ctx' /\
    n ctx' = n ctx + 1 /\ col ctx' = col ctx /\ values ctx' = values ctx /\
    max ctx' = max ctx /\ str ctx' = str ctx /\ same_config ctx ctx'.
Proof.
  intros Hn. unfold ingest.
  destruct (Z.eqb_spec (n ctx) (c ctx)) as [|_]; [contradiction|].
  eexists; split; [reflexivity|]. simpl. unfold same_config; simpl. tauto.
Qed.

Lemma ingest_commit ctx s16 :
  n ctx = c ctx -> ctx_ok ctx -> col ctx < w ctx ->
  exists ctx', ingest log10 ctx s16 = Done ctx' /\
    n ctx' = 0 /\ col ctx' = col ctx + 1 /\
    length (values ctx') = length (values ctx) /\
    sum ctx' = double_zero /\ str ctx' = str ctx /\ same_config ctx ctx'.
Proof.
  intros Hn (_ & Hcol & Hlen & _) Hlt. unfold ingest.
  rewrite Hn, Z.eqb_refl.
  destruct (Z.ltb_spec (col ctx) (w ctx)) as [_|]; [|lia]. simpl.
  destruct (Z.leb_spec 0 (col ctx)) as [_|]; [|lia].
  destruct (Nat.ltb_spec (Z.to_nat (col ctx)) (length (values ctx))) as [_|]; [|lia].
  simpl. eexists; split; [reflexivity|]. simpl.
  rewrite length_insert. unfold same_config; simpl. tauto.
Qed.

Lemma ingest_commit_full ctx s16 :
  n ctx = c ctx -> w ctx <= col ctx -> ingest log10 ctx s16 = Abort.
Proof.
  intros Hn Hge. unfold ingest. rewrite Hn, Z.eqb_refl.
  destruct (Z.ltb_spec (col ctx) (w ctx)); [lia|]. reflexivity.
Qed.

(** One sample more: the count grows by one, or the column assertion
    stops the process. *)
Lemma ingest_count ctx s16 :
  ctx_ok ctx ->
  ingested_count ctx + 1 < (w ctx + 1) * (c ctx + 1) ->
  exists ctx', ingest log10 ctx s16 = Done ctx' /\ ctx_ok ctx' /\
    same_config ctx ctx' /\ ingested_count ctx' = ingested_count ctx + 1.
Proof.
  intros Hok Hroom. pose proof Hok as (Hn & Hcol & Hlen & Hw & Hc).
  unfold ingested_count in *.
  destruct (Z.eq_dec (n ctx) (c ctx)) as [Heq|Hne].
  - assert (col ctx < w ctx) by nia.
    destruct (ingest_commit ctx s16 Heq Hok) as (ctx' & -> & Hn' & Hcol' & Hlen' & _ & _ & Hw' & Hh' & Hc'); [assumption|].
    exists ctx'. split; [reflexivity|]. unfold ctx_ok, same_config.
    rewrite Hn', Hcol', Hlen', Hw', Hc', Hh'. repeat split; try lia.
  - destruct (ingest_no_commit ctx s16 Hne) as (ctx' & -> & Hn' & Hcol' & Hval' & _ & _ & Hw' & Hh' & Hc').
    exists ctx'. split; [reflexivity|]. unfold ctx_ok, same_config.
    rewrite Hn', Hcol', Hval', Hw', Hc', Hh'. repeat split; try lia.
Qed.

Lemma ingest_all_count samples : forall ctx,
  ctx_ok ctx ->
  ingested_count ctx + Z.of_nat (length samples) < (w ctx + 1) * (c ctx + 1) ->
  exists ctx', ingest_all log10 ctx samples = Done ctx' /\ ctx_ok ctx' /\
    same_config ctx ctx' /\
    ingested_count ctx' = ingested_count ctx + Z.of_nat (length samples).
Proof.
  induction samples as [|s16 rest IH]; intros ctx Hok Hroom.
  - exists ctx. split; [reflexivity|]. split; [assumption|].
    split; [unfold same_config; tauto|]. simpl; lia.
  - simpl length in Hroom.
    destruct (ingest_count ctx s16 Hok) as (ctx1 & H1 & Hok1 & (Hw1 & Hh1 & Hc1) & Hcnt1); [lia|].
    destruct (IH ctx1 Hok1) as (ctx' & H' & Hok' & (Hw' & Hh' & Hc') & Hcnt').
    { rewrite Hw1, Hc1, Hcnt1. lia. }
    exists ctx'. simpl. rewrite H1. simpl. split; [exact H'|].
    split; [exact Hok'|]. unfold same_config. simpl length.
    repeat split; try congruence; lia.
Qed.

(** Past [w] columns the assertion fires. *)
Lemma ingest_all_abort samples : forall ctx,
  ctx_ok ctx -> 0 <= c ctx ->
  (w ctx + 1) * (c ctx + 1) <= ingested_count ctx + Z.of_nat (length samples) ->
  ingest_all log10 ctx samples = Abort.
Proof.
  induction samples as [|s16 rest IH]; intros ctx Hok Hc0 Hfull.
  - exfalso. destruct Hok as (Hn & Hcol & _). unfold ingested_count in Hfull.
    simpl in Hfull. nia.
  - simpl. simpl length in Hfull.
    destruct (Z.lt_ge_cases (ingested_count ctx + 1) ((w ctx + 1) * (c ctx + 1))) as [Hlt|Hge].
    + destruct (ingest_count ctx s16 Hok Hlt) as (ctx1 & -> & Hok1 & (Hw1 & Hh1 & Hc1) & Hcnt1).
      simpl. apply IH; [assumption|lia|]. rewrite Hw1, Hc1, Hcnt1. lia.
    + assert (Hn : n ctx = c ctx /\ col ctx = w ctx).
      { destruct Hok as (Hn & Hcol & _). unfold ingested_count in Hge. nia. }
      destruct Hn as [Hn Hcol]. rewrite ingest_commit_full; [reflexivity|assumption|lia].
Qed.

End Counters.

(** ** Frames and streams as sequences of samples *)

Lemma first_channel_S nb_channels p i k :
  first_channel nb_channels p i (S k) =
  default 0 (p !! Z.to_nat (i * nb_channels)) ::
  first_channel nb_channels p (i + 1) k.
Proof.
  unfold first_channel. rewrite <- cons_seq. cbn [map].
  f_equal.
  - do 3 f_equal. lia.
  - rewrite <- seq_shift, map_map. apply map_ext. intros j.
    do 3 f_equal. lia.
Qed.

Lemma length_first_channel nb_channels p i k :
  length (first_channel nb_channels p i k) = k.
Proof. unfold first_channel. now rewrite length_map, length_seq. Qed.

Lemma length_frame_ingested nb_channels frame :
  length (frame_ingested nb_channels frame) =
  Z.to_nat (int16_of_int (nb_samples frame)).
Proof. apply length_first_channel. Qed.

Lemma first_channel_int16 nb_channels p i k :
  Forall is_int16 p -> Forall is_int16 (first_channel nb_channels p i k).
Proof.
  intros Hp. unfold first_channel. apply Forall_map, Forall_forall.
  intros j _. simpl.
  destruct (p !! Z.to_nat ((i + Z.of_nat j) * nb_channels)) as [s|] eqn:Hs; simpl.
  - rewrite Forall_forall in Hp. apply Hp. eapply list_elem_of_lookup_2, Hs.
  - unfold is_int16. lia.
Qed.

Section Streams.
Variable log10 : double -> double.
Variable downstream : AVFrame -> Z.

Lemma ingest_all_app l1 : forall ctx l2,
  ingest_all log10 ctx (l1 ++ l2) =
  (let* ctx' := ingest_all log10 ctx l1 in ingest_all log10 ctx' l2).
Proof.
  induction l1 as [|s16 l1 IH]; intros ctx l2; simpl; [reflexivity|].
  destruct (ingest log10 ctx s16); simpl; auto.
Qed.

(** The loop reads inside the buffer and ingests the samples of the
    first channel. *)
Lemma ingest_loop_first_channel nb_channels p k : forall i ctx,
  1 <= nb_channels -> 0 <= i ->
  (i + Z.of_nat k) * nb_channels <= Z.of_nat (length p) ->
  ingest_loop log10 nb_channels p k i ctx =
  ingest_all log10 ctx (first_channel nb_channels p i k).
Proof.
  induction k as [|k IH]; intros i ctx Hch Hi Hlen; [reflexivity|].
  rewrite first_channel_S. cbn [ingest_loop ingest_all].
  unfold read_s16.
  destruct (Z.ltb_spec (i * nb_channels) 0) as [|_]; [nia|].
  destruct (lookup_lt_is_Some_2 p (Z.to_nat (i * nb_channels))) as [s Hs]; [nia|].
  rewrite Hs. simpl.
  destruct (ingest log10 ctx s); simpl; auto.
  apply IH; [assumption|lia|]. nia.
Qed.

Lemma filter_frame_ingest_all nb_channels ctx sink frame :
  frame_wf nb_channels frame ->
  dumpwave_filter_frame log10 downstream nb_channels ctx sink frame =
  (let* ctx' := ingest_all log10 ctx (frame_ingested nb_channels frame) in
   Done {| f_ctx := ctx'; f_sink := sink ++ [frame]; f_ret := 0 |}).
Proof.
  intros (Hch & Hnb & Hlen & _).
  unfold dumpwave_filter_frame, frame_ingested.
  rewrite ingest_loop_first_channel; [reflexivity|assumption|lia|].
  rewrite Hlen. pose proof (int16_of_int_le (nb_samples frame)). nia.
Qed.

Lemma filter_stream_ingest_all nb_channels frames : forall ctx sink,
  Forall (frame_wf nb_channels) frames ->
  filter_stream log10 downstream nb_channels ctx sink frames =
  (let* ctx' := ingest_all log10 ctx (stream_ingested nb_channels frames) in
   Done (ctx', sink ++ frames)).
Proof.
  induction frames as [|frame rest IH]; intros ctx sink Hwf.
  - simpl. now rewrite app_nil_r.
  - apply Forall_cons in Hwf as [Hframe Hrest].
    cbn [filter_stream]. rewrite filter_frame_ingest_all by assumption.
    unfold stream_ingested. cbn [map concat]. rewrite ingest_all_app.
    destruct (ingest_all log10 ctx (frame_ingested nb_channels frame)); simpl; auto.
    rewrite IH by assumption. unfold stream_ingested.
    now rewrite <- app_assoc.
Qed.

End Streams.

(** The context after setup. *)
Lemma init_ctx_ok W H C :
  0 <= W <= INT_MAX -> 0 <= C <= INT_MAX -> ctx_ok (init (priv_alloc W H C)).
Proof.
  intros HW HC. unfold ctx_ok, init, priv_alloc, av_malloc_doubles; simpl.
  rewrite length_replicate. lia.
Qed.

(** After [L] samples from setup the column cursor is [L / (C + 1)]: the
    window counter is compared before it is incremented, so a value is
    committed on sample [C + 1] of a window. *)
Lemma column_after_stream log10 downstream nb_channels W H C frames :
  0 <= W <= INT_MAX -> 0 <= C <= INT_MAX ->
  Forall (frame_wf nb_channels) frames ->
  let L := Z.of_nat (length (stream_ingested nb_channels frames)) in
  L / (C + 1) <= W ->
  exists ctx, filter_stream log10 downstream nb_channels
                (init (priv_alloc W H C)) [] frames = Done (ctx, frames) /\
    col ctx = L / (C + 1) /\ n ctx = L mod (C + 1) /\ ctx_ok ctx /\
    same_config (init (priv_alloc W H C)) ctx.
Proof.
  intros HW HC Hwf L HL.
  rewrite filter_stream_ingest_all by assumption.
  pose proof (init_ctx_ok W H C HW HC) as Hok.
  destruct (ingest_all_count log10 (stream_ingested nb_channels frames) _ Hok)
    as (ctx & Hrun & Hok' & Hcfg & Hcnt).
  { unfold ingested_count; simpl. fold L.
    pose proof (Z.div_mod L (C + 1)). pose proof (Z.mod_pos_bound L (C + 1)). nia. }
  exists ctx. rewrite Hrun. simpl. split; [reflexivity|].
  unfold ingested_count in Hcnt. simpl in Hcnt. fold L in Hcnt.
  destruct Hcfg as (Hw' & Hh' & Hc'). simpl in Hw', Hh', Hc'.
  destruct Hok' as (Hn & Hcol & Hrest). rewrite Hc' in *.
  assert (Hq : col ctx = L / (C + 1)).
  { apply (Z.div_unique L (C + 1) (col ctx) (n ctx)); lia. }
  split; [assumption|]. split.
  { apply (Z.mod_unique L (C + 1) (col ctx) (n ctx)); lia. }
  split; [unfold ctx_ok; rewrite Hc'; tauto|].
  unfold same_config; simpl; tauto.
Qed.

Lemma stream_too_long log10 downstream nb_channels W H C frames :
  0 <= W <= INT_MAX -> 0 <= C <= INT_MAX ->
  Forall (frame_wf nb_channels) frames ->
  W < Z.of_nat (length (stream_ingested nb_channels frames)) / (C + 1) ->
  filter_stream log10 downstream nb_channels
    (init (priv_alloc W H C)) [] frames = Abort.
Proof.
  intros HW HC Hwf HL.
  rewrite filter_stream_ingest_all by assumption.
  rewrite ingest_all_abort; [reflexivity|now apply init_ctx_ok|simpl; lia|].
  unfold ingested_count; simpl.
  set (L := Z.of_nat _) in *.
  pose proof (Z.div_mod L (C + 1)). pose proof (Z.mod_pos_bound L (C + 1)). nia.
Qed.

Lemma mono_frame_wf samples :
  Z.of_nat (length samples) <= INT_MAX -> Forall is_int16 samples ->
  frame_wf 1 (mono_frame samples).
Proof. intros Hlen Hs. unfold frame_wf, mono_frame; simpl. repeat split; auto; lia. Qed.

(** ** Canonical mantissas and the order of values *)

Lemma bounded_digits m e :
  bounded 53 1024 m e = true ->
  Z.pos (digits2_pos m) <= 53 /\ -1074 <= e <= 971 /\
  (-1074 < e -> Z.pos (digits2_pos m) = 53) /\
  fexp 53 1024 (Z.pos (digits2_pos m) + e) = e.
Proof.
  intros Hb. apply andb_prop in Hb as [Hc He].
  unfold canonical_mantissa in Hc. apply Z.eqb_eq in Hc. apply Z.leb_le in He.
  split; [|split; [|split]]; try assumption; unfold fexp, emin in Hc; lia.
Qed.

Lemma fexp_mono a b : a <= b -> fexp 53 1024 a <= fexp 53 1024 b.
Proof. unfold fexp, emin. lia. Qed.

Lemma Zdigits2_mono a b : 0 <= a <= b -> Zdigits2 a <= Zdigits2 b.
Proof.
  intros Hab. apply Zdigits2_le_of_lt; [lia|apply Zdigits2_nonneg|].
  destruct (Zdigits2_bounds b ltac:(lia)) as [Hb _]. lia.
Qed.

Lemma Zdigits2_unique x a : 0 < a -> 2 ^ (a - 1) <= x < 2 ^ a -> Zdigits2 x = a.
Proof.
  intros Ha Hx.
  assert (0 < 2 ^ (a - 1)) by (apply Z.pow_pos_nonneg; lia).
  destruct (Zdigits2_bounds x ltac:(lia)) as [Hhi Hlo]. specialize (Hlo ltac:(lia)).
  pose proof (Zdigits2_nonneg x).
  assert (Zdigits2 x <= a) by (apply Zdigits2_le_of_lt; lia).
  destruct (Z.eq_dec (Zdigits2 x) a) as [|Hne]; [assumption|exfalso].
  assert (2 ^ Zdigits2 x <= 2 ^ (a - 1)) by (apply Z.pow_le_mono_r; lia).
  lia.
Qed.

(** The order of two positive doubles is the order of their values. *)
Lemma SFleb_value mx ex my ey e :
  bounded 53 1024 mx ex = true -> bounded 53 1024 my ey = true ->
  SFleb (S754_finite false mx ex) (S754_finite false my ey) = true ->
  e <= ex -> e <= ey ->
  Z.pos mx * 2 ^ (ex - e) <= Z.pos my * 2 ^ (ey - e).
Proof.
  intros Hbx Hby Hle Hex Hey.
  apply SFleb_key in Hle as (_ & _ & Hk). unfold key_le, SFkey in Hk.
  destruct (bounded_digits mx ex Hbx) as (Hdx & Hex' & _ & _).
  destruct (bounded_digits my ey Hby) as (Hdy & Hey' & Hny & _).
  pose proof (digits2_pos_bounds mx) as [_ Hmx].
  pose proof (digits2_pos_bounds my) as [Hmy _].
  assert (0 < 2 ^ (ex - e)) by (apply Z.pow_pos_nonneg; lia).
  destruct Hk as [Hk|[_ [Hk|[Heq Hk]]]].
  { exfalso. clear -Hk. lia. }
  2:{ subst ey. apply Z.mul_le_mono_nonneg_r; lia. }
  specialize (Hny ltac:(lia)). rewrite Hny in Hmy.
  assert (Hmx' : Z.pos mx < 2 ^ 53).
  { assert (2 ^ Z.pos (digits2_pos mx) <= 2 ^ 53) by (apply Z.pow_le_mono_r; lia). lia. }
  replace (ey - e) with ((ex - e) + (ey - ex)) by lia.
  rewrite Z.pow_add_r by lia.
  assert (2 ^ 1 <= 2 ^ (ey - ex)) by (apply Z.pow_le_mono_r; lia).
  change (2 ^ 1) with 2 in *. change (2 ^ (53 - 1)) with 4503599627370496 in Hmy.
  change (2 ^ 53) with 9007199254740992 in Hmx'.
  set (P := 2 ^ (ex - e)) in *. set (Q := 2 ^ (ey - ex)) in *.
  assert (H1 : Z.pos mx * P <= 9007199254740992 * P)
    by (apply Z.mul_le_mono_nonneg_r; lia).
  assert (H2 : 9007199254740992 <= Z.pos my * Q).
  { transitivity (4503599627370496 * 2); [lia|]. apply Z.mul_le_mono_nonneg; lia. }
  assert (H3 : 9007199254740992 * P <= Z.pos my * Q * P)
    by (apply Z.mul_le_mono_nonneg_r; lia).
  replace (Z.pos my * (P * Q)) with (Z.pos my * Q * P) by ring. lia.
Qed.

(** ** Rounding stays below a double *)

(** If [M * 2^E] is at most the double [mb * 2^eb] (and below it when
    bits were already dropped), so is the double it rounds to. *)
Lemma round_below M E l mb eb :
  0 <= M -> E <= eb -> bounded 53 1024 mb eb = true ->
  M <= Z.pos mb * 2 ^ (eb - E) ->
  (l <> loc_Exact -> M < Z.pos mb * 2 ^ (eb - E)) ->
  binary_round_aux 53 1024 false M E l = S754_zero false \/
  exists m2 e2,
    binary_round_aux 53 1024 false M E l = S754_finite false m2 e2 /\
    e2 <= eb /\ Z.pos m2 <= Z.pos mb * 2 ^ (eb - e2).
Proof.
  intros HM HE Hb Hle Hlt.
  destruct (bounded_digits mb eb Hb) as (Hdb & Heb & _ & Hcb).
  pose proof (digits2_pos_bounds mb) as [_ Hmb].
  destruct (binary_round_aux_steps 53 1024 false M E l HM)
    as (k1 & r & k2 & Hk1 & Hr & Hex & Hk2 & ->).
  (* the first shift *)
  assert (HdM : Zdigits2 M <= Z.pos (digits2_pos mb) + eb - E).
  { apply Zdigits2_le_of_lt; [lia|lia|].
    replace (Z.pos (digits2_pos mb) + eb - E) with (Z.pos (digits2_pos mb) + (eb - E)) by lia.
    rewrite Z.pow_add_r by lia.
    assert (0 < 2 ^ (eb - E)) by (apply Z.pow_pos_nonneg; lia). nia. }
  set (e1 := E + k1) in *.
  assert (He1 : E <= e1 <= eb /\ k1 = e1 - E /\ 0 <= k1).
  { subst e1. pose proof (fexp_mono (Zdigits2 M + E) (Z.pos (digits2_pos mb) + eb) ltac:(lia)).
    lia. }
  destruct He1 as (He1 & Hk1' & Hk10). clear Hk1.
  assert (HB1 : Z.pos mb * 2 ^ (eb - E) = Z.pos mb * 2 ^ (eb - e1) * 2 ^ k1).
  { replace (eb - E) with ((eb - e1) + k1) by lia. rewrite Z.pow_add_r by lia. ring. }
  assert (Hp1 : 0 < 2 ^ k1) by (apply Z.pow_pos_nonneg; lia).
  assert (Hq1 : 0 < 2 ^ (eb - e1)) by (apply Z.pow_pos_nonneg; lia).
  set (B1 := Z.pos mb * 2 ^ (eb - e1)) in *.
  assert (Hrb : 0 <= r <= B1).
  { pose proof (Z.div_mod M (2 ^ k1) ltac:(lia)) as Hdm.
    pose proof (Z.mod_pos_bound M (2 ^ k1) Hp1) as Hmb'.
    assert (0 <= M / 2 ^ k1) by (apply Z.div_pos; lia).
    split; [lia|]. rewrite HB1 in Hle, Hlt.
    destruct l as [|c].
    - destruct (Z.eq_dec (M mod 2 ^ k1) 0) as [Hz|Hnz].
      + rewrite (Hex eq_refl Hz). nia.
      + assert (M / 2 ^ k1 < B1) by nia. lia.
    - specialize (Hlt ltac:(discriminate)).
      assert (M / 2 ^ k1 < B1) by nia. lia. }
  clear Hr Hex Hle Hlt HB1.
  (* the second shift *)
  assert (Hdr : Zdigits2 r <= Z.pos (digits2_pos mb) + eb - e1).
  { apply Zdigits2_le_of_lt; [lia|lia|].
    replace (Z.pos (digits2_pos mb) + eb - e1) with (Z.pos (digits2_pos mb) + (eb - e1)) by lia.
    rewrite Z.pow_add_r by lia. subst B1. nia. }
  pose proof (Zdigits2_nonneg r) as Hdr0.
  set (e2 := e1 + k2) in *.
  assert (He2 : e1 <= e2 <= eb /\ k2 = e2 - e1 /\ 0 <= k2).
  { subst e2. pose proof (fexp_mono (Zdigits2 r + e1) (Z.pos (digits2_pos mb) + eb) ltac:(lia)).
    lia. }
  destruct He2 as (He2 & Hk2' & Hk20). clear Hk2.
  assert (HB2 : B1 = Z.pos mb * 2 ^ (eb - e2) * 2 ^ k2).
  { subst B1. replace (eb - e1) with ((eb - e2) + k2) by lia.
    rewrite Z.pow_add_r by lia. ring. }
  assert (Hp2 : 0 < 2 ^ k2) by (apply Z.pow_pos_nonneg; lia).
  assert (Hq2 : 0 < 2 ^ (eb - e2)) by (apply Z.pow_pos_nonneg; lia).
  assert (Hm2 : 0 <= r / 2 ^ k2 <= Z.pos mb * 2 ^ (eb - e2)).
  { pose proof (Z.div_mod r (2 ^ k2) ltac:(lia)) as Hdm.
    pose proof (Z.mod_pos_bound r (2 ^ k2) Hp2) as Hmb'.
    assert (0 <= r / 2 ^ k2) by (apply Z.div_pos; lia).
    split; [lia|]. nia. }
  destruct (r / 2 ^ k2) as [|p|p]; [now left| |lia].
  right. destruct (Z.leb_spec e2 (1024 - 53)); [|lia].
  exists p, e2. repeat split; lia.
Qed.

Lemma has_sign_true_nonpos x : has_sign true x -> SFleb x double_zero = true.
Proof. destruct x as [s|s| |s m e]; simpl; intros Hs; try contradiction; subst; reflexivity. Qed.

(** The ratio of a column to the peak is at most one. *)
Lemma ddiv_le_one mv ev mp ep :
  bounded 53 1024 mv ev = true -> bounded 53 1024 mp ep = true ->
  SFleb (S754_finite false mv ev) (S754_finite false mp ep) = true ->
  ddiv (S754_finite false mv ev) (S754_finite false mp ep) = S754_zero false \/
  exists m e,
    ddiv (S754_finite false mv ev) (S754_finite false mp ep) = S754_finite false m e /\
    e <= -52 /\ Z.pos m <= 2 ^ (- e).
Proof.
  intros Hbv Hbp Hle.
  destruct (bounded_digits mv ev Hbv) as (Hdv & Hev & _ & _).
  destruct (bounded_digits mp ep Hbp) as (Hdp & Hep & _ & _).
  unfold ddiv. cbn [SFdiv xorb]. unfold SFdiv_core_binary. cbn [Zdigits2].
  set (e' := Z.min _ _).
  (* the magnitudes *)
  assert (Hmag : Z.pos (digits2_pos mv) + ev <= Z.pos (digits2_pos mp) + ep).
  { pose proof (SFleb_value mv ev mp ep (-1074) Hbv Hbp Hle ltac:(lia) ltac:(lia)) as Hval.
    pose proof (digits2_pos_bounds mv) as [Hlo _].
    pose proof (digits2_pos_bounds mp) as [_ Hhi].
    destruct (Z.le_gt_cases (Z.pos (digits2_pos mv) + ev) (Z.pos (digits2_pos mp) + ep))
      as [|Hgt]; [assumption|exfalso].
    assert (H1 : Z.pos mp * 2 ^ (ep - -1074) < 2 ^ (Z.pos (digits2_pos mp) + (ep - -1074))).
    { rewrite Z.pow_add_r by lia.
      assert (0 < 2 ^ (ep - -1074)) by (apply Z.pow_pos_nonneg; lia). nia. }
    assert (H2 : 2 ^ (Z.pos (digits2_pos mv) - 1 + (ev - -1074)) <= Z.pos mv * 2 ^ (ev - -1074)).
    { rewrite Z.pow_add_r by lia.
      assert (0 < 2 ^ (ev - -1074)) by (apply Z.pow_pos_nonneg; lia). nia. }
    assert (H3 : 2 ^ (Z.pos (digits2_pos mp) + (ep - -1074))
                 <= 2 ^ (Z.pos (digits2_pos mv) - 1 + (ev - -1074)))
      by (apply Z.pow_le_mono_r; lia).
    lia. }
  assert (He' : e' <= -53 /\ e' <= ev - ep).
  { subst e'. unfold fexp, emin. lia. }
  destruct He' as [He'1 He'2].
  set (s := ev - ep - e').
  assert (Hs : 0 <= s) by (subst s; lia).
  set (m' := match s with Z.pos _ => Z.shiftl (Z.pos mv) s | Z0 => Z.pos mv | Z.neg _ => 0 end).
  assert (Hm' : m' = Z.pos mv * 2 ^ s).
  { subst m'. destruct s as [|ps|ps] eqn:Hse; [simpl; lia| |lia].
    rewrite Z.shiftl_mul_pow2 by lia. reflexivity. }
  assert (Hbound : m' <= Z.pos mp * 2 ^ (- e')).
  { rewrite Hm'.
    pose proof (SFleb_value mv ev mp ep (ep + e') Hbv Hbp Hle ltac:(lia) ltac:(lia)) as Hval.
    replace (ev - (ep + e')) with s in Hval by (subst s; lia).
    replace (ep - (ep + e')) with (- e') in Hval by lia. exact Hval. }
  pose proof (Z.div_mod m' (Z.pos mp) ltac:(lia)) as Hdm.
  pose proof (Z.mod_pos_bound m' (Z.pos mp) ltac:(lia)) as Hmod.
  assert (Hm'0 : 0 <= m') by (rewrite Hm'; assert (0 < 2 ^ s) by (apply Z.pow_pos_nonneg; lia); nia).
  pose proof (Z.div_pos m' (Z.pos mp) Hm'0 ltac:(lia)) as Hq0.
  unfold Z.div, Z.modulo in Hdm, Hmod, Hq0.
  destruct (Z.div_eucl m' (Z.pos mp)) as [q r].
  assert (Hloc : r = 0 -> new_location (Z.pos mp) r = loc_Exact).
  { intros ->. unfold new_location. destruct (Z.even (Z.pos mp)); reflexivity. }
  assert (Hpe : 0 < 2 ^ (- e')) by (apply Z.pow_pos_nonneg; lia).
  assert (Hsplit : 4503599627370496 * 2 ^ (-52 - e') = 2 ^ (- e')).
  { change 4503599627370496 with (2 ^ 52). rewrite <- Z.pow_add_r by lia.
    f_equal. lia. }
  destruct (round_below q e' (new_location (Z.pos mp) r) 4503599627370496 (-52))
    as [Hz|(m & e & Hx & He & Hm)]; try assumption.
  - lia.
  - reflexivity.
  - rewrite Hsplit. nia.
  - intros Hl.
    assert (r <> 0) by (intros Hr0; apply Hl, Hloc, Hr0).
    rewrite Hsplit. nia.
  - now left.
  - right. exists m, e. split; [exact Hx|]. split; [exact He|].
    replace (- e) with (52 + (-52 - e)) by lia. rewrite Z.pow_add_r by lia. exact Hm.
Qed.

(** A ratio of at most one, times [M_E], is at most [M_E]. *)
Lemma dmul_M_E_le m e :
  e <= -52 -> Z.pos m <= 2 ^ (- e) ->
  dmul (S754_finite false m e) M_E = S754_zero false \/
  exists m2 e2,
    dmul (S754_finite false m e) M_E = S754_finite false m2 e2 /\
    e2 <= -51 /\ Z.pos m2 <= 6121026514868073 * 2 ^ (-51 - e2).
Proof.
  intros He Hm. unfold dmul, M_E. cbn [SFmul xorb].
  assert (0 < 2 ^ (- e)) by (apply Z.pow_pos_nonneg; lia).
  apply (round_below (Z.pos (m * 6121026514868073)) (e + -51) loc_Exact
           6121026514868073 (-51)); try lia.
  - reflexivity.
  - replace (-51 - (e + -51)) with (- e) by lia. rewrite Pos2Z.inj_mul. nia.
  - congruence.
Qed.

(** A product of at most [M_E], minus [M_E], is at most zero. *)
Lemma dsub_M_E_nonpos m e :
  e <= -51 -> Z.pos m <= 6121026514868073 * 2 ^ (-51 - e) ->
  SFleb (dsub (S754_finite false m e) M_E) double_zero = true.
Proof.
  intros He Hm. unfold dsub, M_E. cbn [SFsub cond_Zopp].
  replace (Z.min e (-51)) with e by lia.
  assert (Hx : fst (shl_align m e e) = m).
  { unfold shl_align. rewrite Z.sub_diag. reflexivity. }
  assert (Hy : Z.pos (fst (shl_align 6121026514868073 (-51) e))
               = 6121026514868073 * 2 ^ (-51 - e)).
  { unfold shl_align. destruct (e - -51) as [|p|p] eqn:Hd; try lia.
    - cbn [fst]. replace (-51 - e) with 0 by lia. reflexivity.
    - cbn [fst]. rewrite iter_xO_value. do 2 f_equal. lia. }
  rewrite Hx.
  destruct (Z.pos m - Z.pos (fst (shl_align 6121026514868073 (-51) e))) as [|p|p] eqn:Hd;
    [reflexivity|lia|].
  cbn [binary_normalize]. apply has_sign_true_nonpos, binary_round_sign.
Qed.

(** The argument of [exp] for a committed value is not positive. *)
Lemma exp_arg_nonpos peak v :
  valid_binary 53 1024 v = true -> valid_binary 53 1024 peak = true ->
  pos_finite peak = true -> nonneg v = true -> SFleb v peak = true ->
  SFleb (exp_arg peak v) double_zero = true.
Proof.
  intros Hv Hp Hpos Hnn Hle. unfold exp_arg.
  destruct peak as [| | |[] mp ep]; try discriminate.
  destruct v as [sv|[]| |[] mv ev]; try discriminate.
  - reflexivity.
  - destruct (ddiv_le_one mv ev mp ep Hv Hp Hle) as [->|(m & e & -> & He & Hm)];
      [reflexivity|].
    destruct (dmul_M_E_le m e He Hm) as [->|(m2 & e2 & -> & He2 & Hm2)];
      [reflexivity|].
    now apply dsub_M_E_nonpos.
Qed.

(** ** Rounding gives doubles *)

Lemma Zdigits2_div_pow2 M k :
  0 < M -> 0 <= k < Zdigits2 M -> Zdigits2 (M / 2 ^ k) = Zdigits2 M - k.
Proof.
  intros HM Hk. destruct (Zdigits2_bounds M ltac:(lia)) as [Hhi Hlo].
  specialize (Hlo HM).
  assert (Hp : 0 < 2 ^ k) by (apply Z.pow_pos_nonneg; lia).
  apply Zdigits2_unique; [lia|]. split.
  - replace (Zdigits2 M - 1) with ((Zdigits2 M - k - 1) + k) in Hlo by lia.
    rewrite Z.pow_add_r in Hlo by lia.
    apply Z.div_le_lower_bound; [lia|]. lia.
  - apply Z.div_lt_upper_bound; [lia|].
    rewrite <- Z.pow_add_r by lia. replace (k + (Zdigits2 M - k)) with (Zdigits2 M) by lia.
    exact Hhi.
Qed.

Lemma Zdigits2_pos_lt r k : 0 <= k -> 0 < r / 2 ^ k -> k < Zdigits2 r.
Proof.
  intros Hk Hq.
  assert (Hp : 0 < 2 ^ k) by (apply Z.pow_pos_nonneg; lia).
  assert (Hr : 0 <= r).
  { destruct (Z.le_gt_cases 0 r); [assumption|].
    assert (r / 2 ^ k < 0) by (apply Z.div_lt_upper_bound; lia). lia. }
  destruct (Zdigits2_bounds r Hr) as [Hhi _].
  destruct (Z.lt_ge_cases k (Zdigits2 r)) as [|Hge]; [assumption|exfalso].
  assert (2 ^ Zdigits2 r <= 2 ^ k) by (apply Z.pow_le_mono_r; [lia|lia]).
  rewrite Z.div_small in Hq; lia.
Qed.

(** A mantissa with at least the digits of its precision rounds to a
    double. *)
Lemma binary_round_aux_valid s M E l :
  0 <= M -> E <= fexp 53 1024 (Zdigits2 M + E) ->
  valid_binary 53 1024 (binary_round_aux 53 1024 s M E l) = true.
Proof.
  intros HM HE.
  destruct (binary_round_aux_steps 53 1024 s M E l HM)
    as (k1 & r & k2 & Hk1 & Hr & _ & Hk2 & ->).
  set (e1 := E + k1) in *.
  assert (He1 : e1 = fexp 53 1024 (Zdigits2 M + E) /\ 0 <= k1) by (subst e1; lia).
  destruct He1 as [He1 Hk10].
  assert (Hp1 : 0 < 2 ^ k1) by (apply Z.pow_pos_nonneg; lia).
  assert (Hq0 : 0 <= M / 2 ^ k1) by (apply Z.div_pos; lia).
  assert (Hge : e1 <= fexp 53 1024 (Zdigits2 r + e1)).
  { destruct (Z.eq_dec (M / 2 ^ k1) 0) as [Hz|Hnz].
    - (* everything was shifted out *)
      assert (HMk : M < 2 ^ k1).
      { pose proof (Z.div_mod M (2 ^ k1) ltac:(lia)).
        pose proof (Z.mod_pos_bound M (2 ^ k1) Hp1). nia. }
      assert (Zdigits2 M <= k1) by (apply Zdigits2_le_of_lt; lia).
      unfold fexp, emin in *. lia.
    - assert (HM0 : 0 < M) by (destruct (Z.eq_dec M 0) as [->|]; [rewrite Z.div_0_l in Hnz; lia|lia]).
      assert (Hlt : k1 < Zdigits2 M) by (apply Zdigits2_pos_lt; lia).
      pose proof (Zdigits2_div_pow2 M k1 HM0 ltac:(lia)) as Hd.
      pose proof (Zdigits2_mono (M / 2 ^ k1) r ltac:(lia)) as Hmono.
      rewrite He1 at 1.
      replace (Zdigits2 M + E) with (Zdigits2 (M / 2 ^ k1) + e1) by (subst e1; lia).
      apply fexp_mono. lia. }
  assert (Hk20 : 0 <= k2) by lia.
  assert (Hp2 : 0 < 2 ^ k2) by (apply Z.pow_pos_nonneg; lia).
  destruct (r / 2 ^ k2) as [|p|p] eqn:Hm2; [reflexivity| |reflexivity].
  destruct (Z.leb_spec (e1 + k2) (1024 - 53)) as [Hle|]; [|reflexivity].
  cbn [valid_binary]. unfold bounded, canonical_mantissa.
  apply andb_true_intro. split; [|apply Z.leb_le; exact Hle].
  apply Z.eqb_eq.
  assert (Hlt : k2 < Zdigits2 r) by (apply Zdigits2_pos_lt; lia).
  assert (Hr0 : 0 < r).
  { destruct (Z.le_gt_cases r 0); [|lia].
    pose proof (Zdigits2_nonneg r). destruct r; simpl in *; lia. }
  pose proof (Zdigits2_div_pow2 r k2 Hr0 ltac:(lia)) as Hd. rewrite Hm2 in Hd.
  cbn [Zdigits2] in Hd. rewrite Hd.
  replace (Zdigits2 r - k2 + (e1 + k2)) with (Zdigits2 r + e1) by lia. lia.
Qed.

Lemma Zdigits2_sqrt n q r :
  0 < n -> n = q * q + r -> 0 <= r <= 2 * q ->
  Zdigits2 q = (Zdigits2 n + 1) / 2.
Proof.
  intros Hn Heq Hr.
  destruct (Zdigits2_bounds n ltac:(lia)) as [Hhi Hlo]. specialize (Hlo Hn).
  assert (Hd : 0 < Zdigits2 n).
  { destruct n; simpl in *; lia. }
  set (a := (Zdigits2 n + 1) / 2).
  assert (Ha : 2 * a - 1 <= Zdigits2 n <= 2 * a).
  { subst a. pose proof (Z.div_mod (Zdigits2 n + 1) 2 ltac:(lia)).
    pose proof (Z.mod_pos_bound (Zdigits2 n + 1) 2 ltac:(lia)). lia. }
  assert (Hq0 : 0 <= q) by nia.
  apply Zdigits2_unique; [lia|].
  assert (Hpa : 0 < 2 ^ a) by (apply Z.pow_pos_nonneg; lia).
  assert (Hpa' : 0 < 2 ^ (a - 1)) by (apply Z.pow_pos_nonneg; lia).
  split.
  - (* (q + 1)^2 > n >= 2^(2 (a - 1)) *)
    assert (H1 : 2 ^ (a - 1) * 2 ^ (a - 1) <= 2 ^ (Zdigits2 n - 1)).
    { rewrite <- Z.pow_add_r by lia. apply Z.pow_le_mono_r; lia. }
    destruct (Z.le_gt_cases (2 ^ (a - 1)) q) as [|Hgt]; [assumption|exfalso].
    assert ((q + 1) * (q + 1) <= 2 ^ (a - 1) * 2 ^ (a - 1)) by nia.
    nia.
  - assert (H1 : 2 ^ Zdigits2 n <= 2 ^ a * 2 ^ a).
    { rewrite <- Z.pow_add_r by lia. apply Z.pow_le_mono_r; lia. }
    destruct (Z.lt_ge_cases q (2 ^ a)) as [|Hge]; [assumption|exfalso].
    assert (2 ^ a * 2 ^ a <= q * q) by nia.
    nia.
Qed.

(** A square root is a double. *)
Lemma dsqrt_valid x : valid_binary 53 1024 (dsqrt x) = true.
Proof.
  destruct x as [s|[]| |[] m e]; try reflexivity.
  unfold dsqrt. cbn [SFsqrt].
  unfold SFsqrt_core_binary. cbn [Zdigits2].
  set (d := Z.pos (digits2_pos m)).
  set (e' := Z.min _ _).
  assert (Hdiv2 : 2 * Z.div2 e <= e <= 2 * Z.div2 e + 1).
  { rewrite Z.div2_div. pose proof (Z.div_mod e 2 ltac:(lia)).
    pose proof (Z.mod_pos_bound e 2 ltac:(lia)). lia. }
  assert (He' : e' <= fexp 53 1024 (Z.div2 (d + e + 1)) /\ 2 * e' <= e) by (subst e'; lia).
  destruct He' as [He'1 He'2].
  set (s := e - 2 * e').
  set (m' := match s with Z.pos _ => Z.shiftl (Z.pos m) s | Z0 => Z.pos m | Z.neg _ => 0 end).
  assert (Hm' : m' = Z.pos m * 2 ^ s).
  { subst m'. destruct s as [|ps|ps] eqn:Hse; [simpl; lia| |lia].
    rewrite Z.shiftl_mul_pow2 by lia. reflexivity. }
  assert (Hps : 0 < 2 ^ s) by (apply Z.pow_pos_nonneg; subst s; lia).
  assert (Hm'0 : 0 < m') by (rewrite Hm'; nia).
  assert (Hdm' : Zdigits2 m' = d + s).
  { apply Zdigits2_unique; [subst d s; lia|]. rewrite Hm'.
    pose proof (digits2_pos_bounds m) as [Hlo Hhi]. fold d in Hlo, Hhi.
    replace (d + s - 1) with ((d - 1) + s) by lia.
    rewrite !Z.pow_add_r by (subst d s; lia). nia. }
  pose proof (Z.sqrtrem_spec m' ltac:(lia)) as Hspec.
  destruct (Z.sqrtrem m') as [q r]. destruct Hspec as [Heq Hr].
  pose proof (Zdigits2_sqrt m' q r Hm'0 Heq Hr) as Hdq.
  apply binary_round_aux_valid; [nia|].
  rewrite Hdq, Hdm'.
  replace ((d + s + 1) / 2 + e') with (Z.div2 (d + e + 1)); [exact He'1|].
  rewrite Z.div2_div. subst s.
  replace (d + (e - 2 * e') + 1) with ((d + e + 1) + (- e') * 2) by lia.
  rewrite Z.div_add by lia. lia.
Qed.

Lemma FFMAX_valid a b :
  valid_binary 53 1024 a = true -> valid_binary 53 1024 b = true ->
  valid_binary 53 1024 (FFMAX a b) = true.
Proof. intros Ha Hb. destruct (FFMAX_cases a b) as [-> | ->]; assumption. Qed.

(** ** The level of a sample *)

Section Level.
Variable log10 : double -> double.

Lemma sample_level_spec s16 : sample_level log10 s16 = spec_smpl log10 s16.
Proof.
  unfold sample_level, spec_smpl, spec_clamp, INT16_MAX.
  destruct (SFeqb _ double_zero); reflexivity.
Qed.

Lemma sample_level_zero : sample_level log10 0 = float_zero.
Proof. reflexivity. Qed.

Hypothesis Hlog10 : log10_defined log10.

Lemma sample_level_not_nan s16 : is_nan (sample_level log10 s16) = false.
Proof.
  unfold sample_level.
  set (smpl := fdiv (float_of_int s16) (float_of_int INT16_MAX)).
  assert (Hsmpl : is_nan smpl = false).
  { subst smpl. change (float_of_int INT16_MAX) with (S754_finite false 16776704 (-9)).
    apply SFdiv_not_nan, float_of_int_not_nan. }
  destruct (SFeqb (double_of_float smpl) double_zero) eqn:Hz; cbn [negb]; [exact Hsmpl|].
  set (lg := log10 (fabs (double_of_float smpl))).
  assert (Hlg : is_nan lg = false).
  { apply Hlog10, fabs_positive; [now apply double_of_float_not_nan|exact Hz]. }
  set (y := fdiv _ _).
  assert (Hy : is_nan y = false).
  { subst y. change (float_of_int 60) with (S754_finite false 15728640 (-18)).
    apply SFdiv_not_nan, SFadd_not_nan, float_of_double_not_nan.
    change (double_of_int 20) with (S754_finite false 5629499534213120 (-48)).
    now apply SFmul_not_nan. }
  destruct (SFltb (double_of_float y) double_zero); [reflexivity|exact Hy].
Qed.

End Level.

Lemma log10_defined_levels log10 samples :
  log10_defined log10 -> levels_defined log10 samples.
Proof.
  intros Hlog10. apply Forall_forall. intros s16 _. now apply sample_level_not_nan.
Qed.

Lemma square_nonneg (x : float) :
  is_nan x = false -> nonneg (double_of_float (fmul x x)) = true.
Proof. intros Hx. now apply double_of_float_nonneg, SFmul_self_nonneg. Qed.

(** ** The invariant of the accumulator *)

Lemma nonneg_zero : nonneg double_zero = true.
Proof. reflexivity. Qed.

Lemma nonneg_not_lt_zero x : nonneg x = true -> SFltb x double_zero = false.
Proof.
  intros Hx. destruct (SFltb x double_zero) eqn:Hlt; [|reflexivity].
  apply SFltb_key in Hlt as (_ & _ & Hlt). apply SFleb_key in Hx as (_ & _ & Hle).
  unfold double_zero in *. cbn [SFkey] in *.
  destruct (SFkey x) as [[a1 a2] a3]. unfold key_le, key_lt in *. lia.
Qed.

Lemma committed_after_commit ctx (sample : double) :
  0 <= col ctx -> (Z.to_nat (col ctx) < length (values ctx))%nat ->
  take (Z.to_nat (col ctx + 1)) (<[Z.to_nat (col ctx) := Some sample]> (values ctx)) =
  committed ctx ++ [Some sample].
Proof.
  intros Hcol Hlen. unfold committed.
  replace (Z.to_nat (col ctx + 1)) with (S (Z.to_nat (col ctx))) by lia.
  rewrite (take_S_r _ _ (Some sample)) by (now apply list_lookup_insert_eq).
  now rewrite take_insert_ge by lia.
Qed.

Lemma uncommitted_after_commit ctx (sample : double) :
  0 <= col ctx -> (Z.to_nat (col ctx) < length (values ctx))%nat ->
  Forall (fun o => o = None) (uncommitted ctx) ->
  Forall (fun o => o = None)
    (drop (Z.to_nat (col ctx + 1)) (<[Z.to_nat (col ctx) := Some sample]> (values ctx))).
Proof.
  intros Hcol Hlen Hun. unfold uncommitted in Hun.
  replace (Z.to_nat (col ctx + 1)) with (S (Z.to_nat (col ctx))) by lia.
  rewrite drop_insert_lt by lia.
  destruct (lookup_lt_is_Some_2 _ _ Hlen) as [x Hx].
  rewrite (drop_S _ _ _ Hx) in Hun. now apply Forall_cons in Hun as [_ Hun].
Qed.

Section Invariant.
Variable log10 : double -> double.

(** A sample whose level is a number keeps the invariant and does not
    lower the peak. *)
Lemma ingest_inv ctx s16 ctx' :
  is_nan (sample_level log10 s16) = false ->
  0 < c ctx -> dw_inv ctx -> ingest log10 ctx s16 = Done ctx' ->
  dw_inv ctx' /\ SFleb (max ctx) (max ctx') = true.
Proof.
  intros Hlevel Hc (Hok & Hsum & Hmax & (Hall & Hnone & Hsome) & Hun & Hvmax & Hvall).
  pose proof Hok as (Hn & Hcol & Hlen & Hw & HcM).
  pose proof (nonneg_not_nan _ Hmax) as Hmax_nn.
  unfold ingest. set (sq := double_of_float _).
  assert (Hsq : nonneg sq = true) by (apply square_nonneg, Hlevel).
  assert (Hsum1 : nonneg (dadd (sum ctx) sq) = true) by (now apply SFadd_nonneg).
  destruct (Z.eqb_spec (n ctx) (c ctx)) as [Heq|Hne].
  - (* a value is committed *)
    set (sample := dsqrt _).
    assert (Hsample : nonneg sample = true).
    { subst sample. apply SFsqrt_nonneg, SFdiv_nonneg; [assumption|].
      apply double_of_int_pos_finite. lia. }
    pose proof (nonneg_not_nan _ Hsample) as Hsample_nn.
    destruct (Z.ltb_spec (col ctx) (w ctx)) as [Hlt|]; [|discriminate]. cbn [av_assert0 bind].
    destruct (Z.leb_spec 0 (col ctx)) as [_|]; [|lia].
    destruct (Nat.ltb_spec (Z.to_nat (col ctx)) (length (values ctx))) as [Hin|]; [|lia].
    cbn [andb]. intros [= <-]. cbn [max].
    split; [|now apply FFMAX_ge_l].
    unfold dw_inv, ctx_ok, peak_is_max, committed, uncommitted. cbn -[Z.to_nat].
    rewrite length_insert, committed_after_commit by (assumption || lia).
    split; [lia|]. split; [reflexivity|]. split.
    { destruct (FFMAX_cases (max ctx) sample) as [-> | ->]; assumption. }
    split; [|split; [now apply uncommitted_after_commit|split]].
    2:{ apply FFMAX_valid; [assumption|apply dsqrt_valid]. }
    2:{ apply Forall_app. split; [assumption|].
        apply Forall_cons. split; [|constructor].
        exists sample. split; [reflexivity|apply dsqrt_valid]. }
    split; [|split; [lia|]].
    + apply Forall_app. split.
      * eapply Forall_impl; [exact Hall|]. intros o (v & -> & Hv & Hle).
        exists v. repeat split; try assumption.
        eapply SFleb_trans; [exact Hle|]. now apply FFMAX_ge_l.
      * apply Forall_cons. split; [|constructor].
        exists sample. repeat split; try assumption. now apply FFMAX_ge_r.
    + intros _. apply in_or_app. unfold FFMAX.
      destruct (SFltb sample (max ctx)) eqn:Hlt'.
      * left. apply Hsome. destruct (Z.eq_dec (col ctx) 0) as [H0|]; [|lia].
        rewrite (Hnone H0) in Hlt'. rewrite nonneg_not_lt_zero in Hlt' by assumption.
        discriminate.
      * right. now left.
  - (* no value is committed *)
    intros [= <-]. cbn [max]. split; [|now apply SFleb_refl].
    unfold dw_inv, ctx_ok, peak_is_max, committed, uncommitted. cbn -[Z.to_nat].
    split; [lia|]. split; [assumption|]. split; [assumption|].
    split; [repeat split; assumption|]. repeat split; assumption.
Qed.

Lemma ingest_all_inv samples : forall ctx ctx',
  levels_defined log10 samples ->
  0 < c ctx -> dw_inv ctx -> ingest_all log10 ctx samples = Done ctx' ->
  dw_inv ctx' /\ SFleb (max ctx) (max ctx') = true /\ same_config ctx ctx'.
Proof.
  induction samples as [|s16 rest IH]; intros ctx ctx' Hlevels Hc Hinv.
  - intros [= <-]. split; [assumption|]. split.
    + apply SFleb_refl, nonneg_not_nan. apply Hinv.
    + unfold same_config. tauto.
  - apply Forall_cons in Hlevels as [Hlevel Hlevels].
    cbn [ingest_all]. intros Hrun. apply bind_Done in Hrun as (ctx1 & H1 & Hrest).
    destruct (ingest_inv ctx s16 ctx1 Hlevel Hc Hinv H1) as [Hinv1 Hle1].
    assert (Hcfg1 : same_config ctx ctx1).
    { destruct (Z.eq_dec (n ctx) (c ctx)) as [Heq|Hne].
      - destruct Hinv as (Hok & _).
        assert (Hlt : col ctx < w ctx).
        { destruct (Z.lt_ge_cases (col ctx) (w ctx)); [assumption|].
          rewrite ingest_commit_full in H1 by assumption. discriminate. }
        destruct (ingest_commit log10 ctx s16 Heq Hok Hlt) as (ctx2 & H2 & Hrest2).
        rewrite H1 in H2. injection H2 as <-. tauto.
      - destruct (ingest_no_commit log10 ctx s16 Hne) as (ctx2 & H2 & Hrest2).
        rewrite H1 in H2. injection H2 as <-. tauto. }
    destruct Hcfg1 as (Hw1 & Hh1 & Hc1).
    destruct (IH ctx1 ctx' Hlevels ltac:(lia) Hinv1 Hrest) as (Hinv' & Hle' & Hw' & Hh' & Hc').
    split; [assumption|]. split; [eapply SFleb_trans; eassumption|].
    unfold same_config. repeat split; congruence.
Qed.

End Invariant.

Lemma init_dw_inv W H C :
  0 <= W <= INT_MAX -> 0 <= C <= INT_MAX -> dw_inv (init (priv_alloc W H C)).
Proof.
  intros HW HC. split; [now apply init_ctx_ok|].
  unfold peak_is_max, committed, uncommitted. cbn.
  repeat split; try reflexivity; try constructor; try lia.
  unfold av_malloc_doubles. now apply Forall_replicate.
Qed.

(** ** The finalizer *)

(** ** Strings *)

Lemma string_app_assoc (a b d : string) :
  String.append (String.append a b) d = String.append a (String.append b d).
Proof. induction a as [|x a IH]; simpl; [reflexivity|now rewrite IH]. Qed.

Lemma string_length_app (a b : string) :
  String.length (String.append a b) = (String.length a + String.length b)%nat.
Proof. induction a as [|x a IH]; simpl; [reflexivity|now rewrite IH]. Qed.

Lemma string_removelast_app (a b : string) :
  b <> EmptyString ->
  string_removelast (String.append a b) = String.append a (string_removelast b).
Proof.
  intros Hb. induction a as [|x a IH]; [reflexivity|].
  cbn [String.append string_removelast]. rewrite IH.
  destruct (String.append a b) eqn:Hab; [|reflexivity].
  destruct a; [simpl in Hab; contradiction|discriminate].
Qed.

Lemma entries_serialize r rs :
  entries (r :: rs) = String.append (spec_serialize (r :: rs)) ",".
Proof.
  revert r. induction rs as [|r' rs IH]; intros r.
  - reflexivity.
  - change (entries (r :: r' :: rs))
      with (String.append (sprintf_d r) (String.append "," (entries (r' :: rs)))).
    rewrite IH. unfold spec_serialize. cbn [map String.concat].
    now rewrite !string_app_assoc.
Qed.

Lemma removelast_entries r rs :
  string_removelast (entries (r :: rs)) = spec_serialize (r :: rs).
Proof.
  rewrite entries_serialize, string_removelast_app by discriminate.
  simpl. induction (spec_serialize (r :: rs)) as [|x a IH]; simpl; congruence.
Qed.

Lemma entries_nonempty r rs : entries (r :: rs) <> EmptyString.
Proof. simpl. destruct (sprintf_d r); discriminate. Qed.

Lemma Zlength_entries r rs :
  Zlength_string (entries (r :: rs)) = Zlength_string (spec_serialize (r :: rs)) + 1.
Proof.
  rewrite entries_serialize. unfold Zlength_string.
  rewrite string_length_app. simpl. lia.
Qed.

(** ** One column *)

Lemma SFfloor_nonneg x : nonneg x = true -> SFfloor x = SFtrunc x.
Proof. destruct x as [s|[]| |[] m e]; try discriminate; reflexivity. Qed.

Lemma dmul_nonneg x y :
  nonneg x = true -> nonneg y = true -> is_nan (dmul x y) = false ->
  nonneg (dmul x y) = true.
Proof.
  intros Hx Hy Hn.
  destruct x as [sx|[]| |[] mx ex]; try discriminate;
  destruct y as [sy|[]| |[] my ey]; try discriminate; try reflexivity.
  apply has_sign_nonneg. unfold dmul. cbn [SFmul xorb].
  apply binary_round_aux_sign. lia.
Qed.

Lemma double_of_int_nonneg z : 0 <= z <= INT_MAX -> nonneg (double_of_int z) = true.
Proof.
  intros Hz. destruct (Z.eq_dec z 0) as [->|Hne]; [reflexivity|].
  unfold INT_MAX in Hz.
  destruct (double_of_int_pos z) as (mh & eh & -> & _); [lia|reflexivity].
Qed.

Lemma int_of_double_trunc x r : int_of_double x = Some r -> SFtrunc x = Some r.
Proof.
  unfold int_of_double. destruct (SFtrunc x) as [z|]; [|discriminate].
  destruct (_ && _); congruence.
Qed.

Section Column.
Variable exp : double -> double.

(** The integer of a column is the one of the formula, between zero
    and the height. *)
Lemma render_res_unit_interval H peak v :
  0 <= H <= INT_MAX ->
  in_unit_interval (exp (exp_arg peak v)) = true ->
  exists res, render_res exp H peak v = Done res /\
              spec_render exp H peak v = Some res /\ 0 <= res <= H.
Proof.
  intros HH Hy. unfold render_res, spec_render. fold (exp_arg peak v).
  destruct (dmul_int_unit_interval H _ HH Hy) as (res & Hres & Hrange).
  exists res. rewrite Hres. split; [reflexivity|]. split; [|exact Hrange].
  rewrite SFfloor_nonneg; [now apply int_of_double_trunc|].
  unfold in_unit_interval in Hy. apply andb_prop in Hy as [Hy _].
  apply andb_prop in Hy as [_ Hy].
  apply dmul_nonneg; [now apply double_of_int_nonneg|exact Hy|].
  destruct (dmul (double_of_int H) (exp (exp_arg peak v))); try reflexivity.
  discriminate.
Qed.

(** The column that holds the peak. *)
Lemma exp_arg_peak peak : pos_finite peak = true -> exp_arg peak peak = double_zero.
Proof.
  destruct peak as [| | |[] m e]; try discriminate. intros _.
  unfold exp_arg. rewrite ddiv_self. reflexivity.
Qed.

Lemma render_res_peak H peak :
  0 <= H <= INT_MAX -> pos_finite peak = true ->
  exp double_zero = double_one ->
  render_res exp H peak peak = Done H.
Proof.
  intros HH Hpeak Hexp. unfold render_res. fold (exp_arg peak peak).
  rewrite exp_arg_peak, Hexp by assumption.
  assert (Hmul : dmul (double_of_int H) double_one = double_of_int H).
  { destruct (Z.eq_dec H 0) as [->|Hne]; [reflexivity|].
    unfold INT_MAX in HH.
    destruct (double_of_int_pos H) as (mh & eh & -> & _ & _ & Hb); [lia|].
    now apply dmul_one_r. }
  rewrite Hmul, int_of_double_of_int by assumption. reflexivity.
Qed.

(** A silent stream: zero divided by zero. *)
Lemma render_res_silence H :
  exp S754_nan = S754_nan ->
  render_res exp H double_zero double_zero = Undefined float_to_int.
Proof.
  intros Hexp. unfold render_res.
  change (dsub (dmul (ddiv double_zero double_zero) M_E) M_E) with S754_nan.
  rewrite Hexp. unfold dmul. destruct (double_of_int H); reflexivity.
Qed.

(** ** The loop *)

Lemma render_loop_done ctx cap rs : forall k i out,
  k = length rs -> 0 <= i ->
  (forall j r, rs !! j = Some r ->
     exists v, values ctx !! (Z.to_nat i + j)%nat = Some (Some v) /\
               render_res exp (h ctx) (max ctx) v = Done r) ->
  Zlength_string (String.append out (entries rs)) + 1 <= cap ->
  render_loop exp ctx cap k i out = Done (String.append out (entries rs)).
Proof.
  induction rs as [|r rs IH]; intros k i out -> Hi Hcols Hcap.
  - simpl. f_equal. clear. induction out; simpl; congruence.
  - cbn [length render_loop].
    destruct (Hcols 0%nat r eq_refl) as (v & Hv & Hr).
    rewrite Nat.add_0_r in Hv. rewrite Hv, Hr. cbn [bind].
    cbn [entries] in Hcap |- *.
    set (out' := String.append out (String.append (sprintf_d r) ",")).
    assert (HX : String.append out (String.append (sprintf_d r) (String.append "," (entries rs)))
                 = String.append out' (entries rs)).
    { subst out'. now rewrite !string_app_assoc. }
    rewrite HX in Hcap |- *.
    assert (Hlen : Zlength_string out' <= Zlength_string (String.append out' (entries rs))).
    { unfold Zlength_string. rewrite string_length_app. lia. }
    destruct (Z.leb_spec (Zlength_string out' + 1) cap) as [_|]; [|lia].
    apply IH; [reflexivity|lia| |assumption].
    intros j r' Hj. destruct (Hcols (S j) r' Hj) as (v' & Hv' & Hr').
    exists v'. split; [|assumption].
    replace (Z.to_nat (i + 1) + j)%nat with (Z.to_nat i + S j)%nat by lia. exact Hv'.
Qed.

(** A slot that was never written stops the loop. *)
Lemma render_loop_uninit ctx cap : forall k i out j,
  0 <= i -> (Z.to_nat i <= j < Z.to_nat i + k)%nat ->
  values ctx !! j = Some None ->
  exists u, render_loop exp ctx cap k i out = Undefined u.
Proof.
  induction k as [|k IH]; intros i out j Hi Hj Hnone; [lia|].
  cbn [render_loop].
  destruct (values ctx !! Z.to_nat i) as [[v|]|] eqn:Hv; [|eauto..].
  assert (j <> Z.to_nat i) by congruence.
  unfold render_res. destruct (int_of_double _); cbn [bind]; [|eauto].
  destruct (_ <=? cap); [|eauto].
  apply (IH _ _ j); [lia|lia|assumption].
Qed.

End Column.

(** ** Slots never written *)

Section Slots.
Variable log10 : double -> double.

Lemma ingest_slots ctx s16 ctx' :
  slots_inv ctx -> ingest log10 ctx s16 = Done ctx' -> slots_inv ctx'.
Proof.
  intros [Hok Hun] Hrun. pose proof Hok as (Hn & Hcol & Hlen & Hw & HcM).
  destruct (Z.eq_dec (n ctx) (c ctx)) as [Heq|Hne].
  - assert (Hlt : col ctx < w ctx).
    { destruct (Z.lt_ge_cases (col ctx) (w ctx)); [assumption|].
      rewrite ingest_commit_full in Hrun by assumption. discriminate. }
    revert Hrun. unfold ingest. rewrite Heq, Z.eqb_refl.
    destruct (Z.ltb_spec (col ctx) (w ctx)) as [_|]; [|lia]. cbn [av_assert0 bind].
    destruct (Z.leb_spec 0 (col ctx)) as [_|]; [|lia].
    destruct (Nat.ltb_spec (Z.to_nat (col ctx)) (length (values ctx))) as [Hin|]; [|lia].
    cbn [andb]. intros [= <-].
    unfold slots_inv, ctx_ok, uncommitted. cbn -[Z.to_nat].
    rewrite length_insert. split; [lia|].
    apply uncommitted_after_commit; [lia|assumption|assumption].
  - revert Hrun. unfold ingest.
    destruct (Z.eqb_spec (n ctx) (c ctx)) as [|_]; [contradiction|].
    intros [= <-]. unfold slots_inv, ctx_ok, uncommitted. cbn -[Z.to_nat].
    split; [lia|assumption].
Qed.

Lemma ingest_all_slots samples : forall ctx ctx',
  slots_inv ctx -> ingest_all log10 ctx samples = Done ctx' -> slots_inv ctx'.
Proof.
  induction samples as [|s16 rest IH]; intros ctx ctx' Hinv.
  - now intros [= <-].
  - cbn [ingest_all]. intros Hrun. apply bind_Done in Hrun as (ctx1 & H1 & Hrest).
    eapply IH; [|exact Hrest]. eapply ingest_slots; eassumption.
Qed.

(** ** A silent stream *)

Lemma ingest_silent ctx ctx' :
  0 < c ctx -> silent_inv ctx -> ingest log10 ctx 0 = Done ctx' ->
  silent_inv ctx' /\ c ctx' = c ctx.
Proof.
  intros Hc (Hslots & Hsum & Hmax & Hall) Hrun.
  pose proof (ingest_slots ctx 0 ctx' Hslots Hrun) as Hslots'.
  destruct Hslots as [Hok Hun]. pose proof Hok as (Hn & Hcol & Hlen & Hw & HcM).
  revert Hrun. unfold ingest. rewrite sample_level_zero, Hsum.
  change (dadd double_zero (double_of_float (fmul float_zero float_zero)))
    with double_zero.
  destruct (Z.eqb_spec (n ctx) (c ctx)) as [Heq|Hne].
  - destruct (Z.ltb_spec (col ctx) (w ctx)) as [Hlt|]; [|discriminate]. cbn [av_assert0 bind].
    destruct (Z.leb_spec 0 (col ctx)) as [_|]; [|lia].
    destruct (Nat.ltb_spec (Z.to_nat (col ctx)) (length (values ctx))) as [Hin|]; [|lia].
    cbn [andb].
    assert (Hsample : dsqrt (ddiv double_zero (double_of_int (c ctx))) = double_zero).
    { pose proof (double_of_int_pos_finite (c ctx) ltac:(lia)) as Hp.
      destruct (double_of_int (c ctx)) as [| | |[] m e]; try discriminate. reflexivity. }
    rewrite Hsample, Hmax. change (FFMAX double_zero double_zero) with double_zero.
    intros [= <-]. split; [|reflexivity].
    split; [assumption|]. split; [reflexivity|]. split; [reflexivity|].
    unfold committed. cbn -[Z.to_nat].
    rewrite committed_after_commit by (assumption || lia).
    apply Forall_app. split; [assumption|]. now repeat constructor.
  - intros [= <-]. split; [|reflexivity].
    split; [assumption|]. split; [reflexivity|]. split; assumption.
Qed.

Lemma ingest_all_silent samples : forall ctx ctx',
  0 < c ctx -> silent_inv ctx -> Forall (fun s => s = 0) samples ->
  ingest_all log10 ctx samples = Done ctx' -> silent_inv ctx'.
Proof.
  induction samples as [|s16 rest IH]; intros ctx ctx' Hc Hinv Hzero.
  - now intros [= <-].
  - apply Forall_cons in Hzero as [-> Hzero].
    cbn [ingest_all]. intros Hrun. apply bind_Done in Hrun as (ctx1 & H1 & Hrest).
    destruct (ingest_silent ctx ctx1 Hc Hinv H1) as [Hinv1 Hc1].
    eapply IH; [|exact Hinv1|exact Hzero|exact Hrest]. lia.
Qed.

End Slots.

Lemma init_slots_inv W H C :
  0 <= W <= INT_MAX -> 0 <= C <= INT_MAX -> slots_inv (init (priv_alloc W H C)).
Proof.
  intros HW HC. split; [now apply init_ctx_ok|].
  unfold uncommitted, av_malloc_doubles. cbn. now apply Forall_replicate.
Qed.

Lemma init_silent_inv W H C :
  0 <= W <= INT_MAX -> 0 <= C <= INT_MAX -> silent_inv (init (priv_alloc W H C)).
Proof.
  intros HW HC. split; [now apply init_slots_inv|].
  repeat split. unfold committed. cbn. constructor.
Qed.

(** A column that was never committed is read at end of stream. *)
Lemma request_frame_uncommitted exp ctx :
  slots_inv ctx -> col ctx < w ctx ->
  exists u, dumpwave_request_frame exp ctx AVERROR_EOF = Undefined u.
Proof.
  intros [(Hn & Hcol & Hlen & _) Hun] Hlt. unfold dumpwave_request_frame.
  rewrite Z.eqb_refl.
  destruct (render_loop_uninit exp ctx (w ctx * 4) (Z.to_nat (w ctx)) 0 EmptyString
              (Z.to_nat (col ctx))) as [u Hu]; [lia|lia| |].
  - unfold uncommitted in Hun. rewrite Forall_lookup in Hun.
    destruct (lookup_lt_is_Some_2 (values ctx) (Z.to_nat (col ctx))) as [o Ho]; [lia|].
    rewrite Ho. f_equal. apply (Hun 0%nat). rewrite lookup_drop, Nat.add_0_r. exact Ho.
  - exists u. now rewrite Hu.
Qed.

(** A silent stream ends in the conversion of a NaN. *)
Lemma request_frame_silent exp ctx :
  exp S754_nan = S754_nan -> silent_inv ctx -> 1 <= w ctx ->
  exists u, dumpwave_request_frame exp ctx AVERROR_EOF = Undefined u.
Proof.
  intros Hexp ([Hok Hun] & Hsum & Hmax & Hall) Hw.
  destruct (Z.eq_dec (col ctx) 0) as [H0|Hne].
  - apply request_frame_uncommitted; [split; assumption|lia].
  - pose proof Hok as (Hn & Hcol & Hlen & _).
    unfold dumpwave_request_frame. rewrite Z.eqb_refl.
    destruct (Z.to_nat (w ctx)) as [|k] eqn:Hk; [lia|].
    cbn [render_loop]. change (Z.to_nat 0) with 0%nat.
    assert (Hv : values ctx !! 0%nat = Some (Some double_zero)).
    { unfold committed in Hall. rewrite Forall_lookup in Hall.
      destruct (lookup_lt_is_Some_2 (values ctx) 0%nat) as [o Ho]; [lia|].
      rewrite Ho. f_equal. apply (Hall 0%nat). rewrite lookup_take_lt by lia. exact Ho. }
    rewrite Hv, Hmax, render_res_silence by assumption. cbn [bind]. eauto.
Qed.

(** ** Streams that fit, streams that do not *)

Lemma stream_ingested_app nb_channels l1 l2 :
  stream_ingested nb_channels (l1 ++ l2) =
  stream_ingested nb_channels l1 ++ stream_ingested nb_channels l2.
Proof. unfold stream_ingested. now rewrite map_app, concat_app. Qed.

Lemma stream_ingested_single nb_channels frame :
  stream_ingested nb_channels [frame] = frame_ingested nb_channels frame.
Proof. unfold stream_ingested. simpl. apply app_nil_r. Qed.

Lemma frame_ingested_mono samples :
  Z.of_nat (length samples) <= 32767 ->
  frame_ingested 1 (mono_frame samples) = samples.
Proof.
  intros Hlen. unfold frame_ingested, mono_frame. cbn [nb_samples data].
  rewrite int16_of_int_small by lia. rewrite Nat2Z.id.
  unfold first_channel. apply list_eq. intros j.
  rewrite list_lookup_fmap.
  destruct (lookup_lt_is_Some (seq 0 (length samples)) j) as [_ Hlt].
  destruct (decide (j < length samples)%nat) as [Hj|Hj].
  - rewrite lookup_seq_lt by assumption. cbn.
    replace (Z.to_nat ((0 + Z.of_nat j) * 1)) with j by lia.
    destruct (lookup_lt_is_Some_2 samples j Hj) as [s ->]. reflexivity.
  - rewrite lookup_seq_ge by lia. cbn. symmetry. apply lookup_ge_None. lia.
Qed.

Section Fit.
Variable log10 : double -> double.
Variable downstream : AVFrame -> Z.

Lemma filter_stream_room nb_channels ctx sink frames :
  Forall (frame_wf nb_channels) frames -> ctx_ok ctx ->
  room ctx (stream_ingested nb_channels frames) ->
  exists ctx', filter_stream log10 downstream nb_channels ctx sink frames
               = Done (ctx', sink ++ frames) /\
    ingest_all log10 ctx (stream_ingested nb_channels frames) = Done ctx' /\
    ctx_ok ctx' /\ same_config ctx ctx' /\
    ingested_count ctx' =
      ingested_count ctx + Z.of_nat (length (stream_ingested nb_channels frames)).
Proof.
  intros Hwf Hok Hroom. rewrite filter_stream_ingest_all by assumption.
  destruct (ingest_all_count log10 _ ctx Hok Hroom) as (ctx' & Hrun & Hrest).
  exists ctx'. rewrite Hrun. split; [reflexivity|]. split; [reflexivity|exact Hrest].
Qed.

Lemma filter_stream_no_room nb_channels ctx sink frames :
  Forall (frame_wf nb_channels) frames -> ctx_ok ctx -> 0 <= c ctx ->
  ~ room ctx (stream_ingested nb_channels frames) ->
  filter_stream log10 downstream nb_channels ctx sink frames = Abort.
Proof.
  intros Hwf Hok Hc Hroom. rewrite filter_stream_ingest_all by assumption.
  rewrite ingest_all_abort; [reflexivity|assumption|assumption|].
  unfold room in Hroom. lia.
Qed.

Lemma filter_frame_room nb_channels ctx sink frame :
  frame_wf nb_channels frame -> ctx_ok ctx ->
  room ctx (frame_ingested nb_channels frame) ->
  exists ctx', dumpwave_filter_frame log10 downstream nb_channels ctx sink frame
               = Done {| f_ctx := ctx'; f_sink := sink ++ [frame]; f_ret := 0 |} /\
    ingest_all log10 ctx (frame_ingested nb_channels frame) = Done ctx'.
Proof.
  intros Hwf Hok Hroom. rewrite filter_frame_ingest_all by assumption.
  destruct (ingest_all_count log10 _ ctx Hok Hroom) as (ctx' & Hrun & Hrest).
  exists ctx'. rewrite Hrun. split; reflexivity.
Qed.

Lemma filter_frame_no_room nb_channels ctx sink frame :
  frame_wf nb_channels frame -> ctx_ok ctx -> 0 <= c ctx ->
  ~ room ctx (frame_ingested nb_channels frame) ->
  dumpwave_filter_frame log10 downstream nb_channels ctx sink frame = Abort.
Proof.
  intros Hwf Hok Hc Hroom. rewrite filter_frame_ingest_all by assumption.
  rewrite ingest_all_abort; [reflexivity|assumption|assumption|].
  unfold room in Hroom. lia.
Qed.

End Fit.

Lemma room_init W H C samples :
  0 <= W -> 0 <= C ->
  Z.of_nat (length samples) / (C + 1) <= W ->
  room (init (priv_alloc W H C)) samples.
Proof.
  intros HW HC HL. unfold room, ingested_count. cbn.
  set (L := Z.of_nat (length samples)) in *.
  pose proof (Z.div_mod L (C + 1)). pose proof (Z.mod_pos_bound L (C + 1)). nia.
Qed.

(** ** Columns at the end of a stream *)

(** The context at the end of a stream that fits. *)
Lemma stream_end_inv log10 downstream nb_channels W H C frames ctx sink :
  0 <= W <= INT_MAX -> 0 < C <= INT_MAX ->
  Forall (frame_wf nb_channels) frames ->
  levels_defined log10 (stream_ingested nb_channels frames) ->
  filter_stream log10 downstream nb_channels (init (priv_alloc W H C)) [] frames
    = Done (ctx, sink) ->
  dw_inv ctx /\ w ctx = W /\ h ctx = H /\ c ctx = C /\ sink = frames.
Proof.
  intros HW HC Hwf Hlevels Hrun.
  rewrite filter_stream_ingest_all in Hrun by assumption.
  apply bind_Done in Hrun as (ctx' & Hrun & [= -> <-]).
  destruct (ingest_all_inv log10 _ (init (priv_alloc W H C)) ctx Hlevels
              ltac:(cbn; lia) (init_dw_inv W H C HW ltac:(lia)) Hrun)
    as (Hinv & _ & (Hw & Hh & Hc)).
  cbn in Hw, Hh, Hc. split; [exact Hinv|]. repeat split; assumption.
Qed.

(** What the invariant says of a committed column. *)
Lemma committed_column ctx i :
  dw_inv ctx -> 0 <= i < col ctx ->
  exists v : double,
    values ctx !! Z.to_nat i = Some (Some v) /\
    valid_binary 53 1024 v = true /\ nonneg v = true /\
    SFleb v (max ctx) = true.
Proof.
  intros (Hok & _ & _ & (Hall & _ & _) & _ & _ & Hvall) Hi.
  destruct Hok as (_ & Hcol & Hlen & _).
  destruct (lookup_lt_is_Some_2 (committed ctx) (Z.to_nat i)) as [o Ho].
  { unfold committed. rewrite length_take. lia. }
  rewrite Forall_lookup in Hall, Hvall.
  destruct (Hall _ _ Ho) as (v & -> & Hnn & Hle).
  destruct (Hvall _ _ Ho) as (v' & [= <-] & Hvalid).
  exists v. unfold committed in Ho. rewrite lookup_take_lt in Ho by lia.
  repeat split; assumption.
Qed.

Lemma peak_column ctx :
  dw_inv ctx -> 0 < col ctx ->
  exists j, 0 <= j < col ctx /\ values ctx !! Z.to_nat j = Some (Some (max ctx)).
Proof.
  intros (Hok & _ & _ & (_ & _ & Hsome) & _) Hcol.
  destruct Hok as (_ & Hcol' & Hlen & _).
  specialize (Hsome Hcol). apply list_elem_of_In, list_elem_of_lookup in Hsome as [j Hj].
  pose proof (lookup_lt_Some _ _ _ Hj) as Hlt.
  unfold committed in Hj, Hlt. rewrite length_take in Hlt.
  rewrite lookup_take_lt in Hj by lia.
  exists (Z.of_nat j). rewrite Nat2Z.id. split; [lia|exact Hj].
Qed.

(** When every slot holds a value for which [exp] returns a double of
    [[0, 1]], and the text fits the buffer, the result is the integers of
    the slots, separated by commas. *)
Lemma request_frame_serialized exp ctx ints :
  1 <= w ctx -> Z.of_nat (length (values ctx)) = w ctx ->
  0 <= h ctx <= INT_MAX ->
  Forall2 (fun o res => exists v, o = Some v /\
             in_unit_interval (exp (exp_arg (max ctx) v)) = true /\
             spec_render exp (h ctx) (max ctx) v = Some res)
          (values ctx) ints ->
  Zlength_string (spec_serialize ints) + 2 <= w ctx * 4 ->
  exists ctx',
    dumpwave_request_frame exp ctx AVERROR_EOF = Done (ctx', AVERROR_EOF) /\
    str ctx' = Some (spec_serialize ints) /\
    Z.of_nat (length ints) = w ctx /\
    Forall (fun res => 0 <= res <= h ctx) ints.
Proof.
  intros Hw Hlen Hh Hcols Hcap.
  pose proof (Forall2_length _ _ _ Hcols) as Hlen2.
  assert (Hcol : forall j res, ints !! j = Some res ->
            exists v, values ctx !! j = Some (Some v) /\
                      render_res exp (h ctx) (max ctx) v = Done res /\
                      0 <= res <= h ctx).
  { intros j res Hj.
    destruct (Forall2_lookup_r _ _ _ _ _ Hcols Hj) as (o & Ho & v & -> & Hunit & Hspec).
    exists v. split; [exact Ho|].
    destruct (render_res_unit_interval exp (h ctx) (max ctx) v Hh Hunit)
      as (res' & Hres & Hspec' & Hrange).
    assert (res' = res) by congruence. subst res'. tauto. }
  destruct ints as [|r rs]; [simpl in Hlen2; lia|].
  unfold dumpwave_request_frame. rewrite Z.eqb_refl.
  rewrite (render_loop_done exp ctx (w ctx * 4) (r :: rs)).
  - cbn [bind String.append].
    destruct (entries (r :: rs)) eqn:He; [now apply entries_nonempty in He|].
    rewrite <- He, removelast_entries.
    eexists. split; [reflexivity|]. split; [reflexivity|]. split; [lia|].
    apply Forall_lookup. intros j res Hj.
    destruct (Hcol j res Hj) as (v & _ & _ & Hrange). exact Hrange.
  - lia.
  - lia.
  - intros j res Hj. destruct (Hcol j res Hj) as (v & Hv & Hres & _).
    exists v. split; assumption.
  - cbn [String.append]. rewrite Zlength_entries. lia.
Qed.

(** The reference [log10] gives a number for every positive argument. *)
Lemma ref_log10_defined : log10_defined ref_log10.
Proof.
  intros x Hx. destruct x as [s|[]| |[] m e]; try discriminate; try reflexivity.
  apply binary_normalize_not_nan.
Qed.

(** ** The properties the specification states *)

(** C1 (the code departs from the claim).  The claim: after a stream of
    [L] samples the column cursor is [L / C], one value being committed
    after every [C] samples.  The code compares the window counter with
    [C] before incrementing it, so a value is committed on sample [C + 1]
    of a window: with W = 4, H = 100, C = 2 and the eight samples of the
    specification's example the cursor ends at 2, where [8 / 2 = 4]; in
    general it ends at [L / (C + 1)] ([column_after_stream]). *)
Theorem C1_column_cursor_lags (log10 : double -> double) (downstream : AVFrame -> Z) :
  exists ctx,
    filter_stream log10 downstream 1 (init (priv_alloc 4 100 2)) []
      [mono_frame eight_samples] = Done (ctx, [mono_frame eight_samples]) /\
    col ctx = 2 /\ n ctx = 2 /\
    Z.of_nat (length (stream_ingested 1 [mono_frame eight_samples])) / 2 = 4.
Proof.
  destruct (column_after_stream log10 downstream 1 4 100 2 [mono_frame eight_samples])
    as (ctx & Hrun & Hcol & Hn & _).
  - unfold INT_MAX; lia.
  - unfold INT_MAX; lia.
  - repeat constructor; unfold INT_MAX, is_int16; cbn; lia.
  - vm_compute. discriminate.
  - exists ctx. split; [exact Hrun|]. rewrite Hcol, Hn. vm_compute. tauto.
Qed.

(** C2.  The level of a sample is the one the specification words:
    [s / 32767], unchanged when it is exactly zero and otherwise
    [(20 log10 |smpl| + 60) / 60] clamped below at zero; and the square of
    that level is what a sample adds to [sum]: it is in [sum] after a
    sample that commits nothing, and in the value committed otherwise. *)
Theorem C2_square_of_level_added log10 ctx s16 :
  ctx_ok ctx -> col ctx < w ctx ->
  sample_level log10 s16 = spec_smpl log10 s16 /\
  exists ctx', ingest log10 ctx s16 = Done ctx' /\
    let total := dadd (sum ctx) (spec_square log10 s16) in
    if n ctx =? c ctx
    then values ctx' !! Z.to_nat (col ctx)
           = Some (Some (dsqrt (ddiv total (double_of_int (c ctx))))) /\
         sum ctx' = double_zero
    else sum ctx' = total.
Proof.
  intros Hok Hcol. pose proof Hok as (Hn & Hc & Hlen & _).
  split; [apply sample_level_spec|].
  unfold ingest, spec_square. rewrite <- sample_level_spec.
  destruct (Z.eqb_spec (n ctx) (c ctx)) as [Heq|Hne].
  - destruct (Z.ltb_spec (col ctx) (w ctx)) as [_|]; [|lia]. cbn [av_assert0 bind].
    destruct (Z.leb_spec 0 (col ctx)) as [_|]; [|lia].
    destruct (Nat.ltb_spec (Z.to_nat (col ctx)) (length (values ctx))) as [Hin|]; [|lia].
    cbn [andb]. eexists. split; [reflexivity|]. cbn [values sum].
    split; [|reflexivity]. now apply list_lookup_insert_eq.
  - eexists. split; [reflexivity|]. reflexivity.
Qed.

Lemma C2_witness :
  sample_level ref_log10 1000 = S754_finite false 16604560 (-25) /\
  exists ctx', ingest ref_log10 (init (priv_alloc 4 100 2)) 1000 = Done ctx' /\
    sum ctx' = dadd double_zero (spec_square ref_log10 1000).
Proof.
  destruct (C2_square_of_level_added ref_log10 (init (priv_alloc 4 100 2)) 1000)
    as [Hlevel (ctx' & Hrun & Hsum)].
  - apply init_ctx_ok; unfold INT_MAX; lia.
  - cbn. lia.
  - split; [vm_compute; reflexivity|]. exists ctx'. split; [exact Hrun|exact Hsum].
Defined.

(** C3.  At the end of a stream, for a positive peak, the integer the
    loop appends for a committed column of value [v] is the integer part
    of [H * exp ((v / peak) * e - e)].  The argument of [exp] is not
    positive, the committed value being between zero and the peak; so,
    the C library's [exp] returning a double of [[0, 1]] for such an
    argument, the integer lies in [[0, H]].  A column holds the peak, and
    its integer is [H], given [exp 0 = 1]. *)
Theorem C3_rendered_column log10 exp downstream nb_channels W H C frames ctx sink i :
  0 <= W <= INT_MAX -> 0 < C <= INT_MAX -> 0 <= H <= INT_MAX ->
  Forall (frame_wf nb_channels) frames ->
  levels_defined log10 (stream_ingested nb_channels frames) ->
  filter_stream log10 downstream nb_channels (init (priv_alloc W H C)) [] frames
    = Done (ctx, sink) ->
  0 <= i < col ctx ->
  pos_finite (max ctx) = true ->
  exp double_zero = double_one ->
  (forall v : double, values ctx !! Z.to_nat i = Some (Some v) ->
             SFleb (exp_arg (max ctx) v) double_zero = true ->
             in_unit_interval (exp (exp_arg (max ctx) v)) = true) ->
  (exists (v : double) res,
     values ctx !! Z.to_nat i = Some (Some v) /\
     SFleb (exp_arg (max ctx) v) double_zero = true /\
     spec_render exp H (max ctx) v = Some res /\
     (forall cap k out,
        render_loop exp ctx cap (S k) i out =
          let out' := String.append out (String.append (sprintf_d res) ",") in
          if Zlength_string out' + 1 <=? cap
          then render_loop exp ctx cap k (i + 1) out'
          else Undefined buffer_overrun) /\
     0 <= res <= H /\
     (v = max ctx -> res = H)) /\
  (exists j, 0 <= j < col ctx /\
     values ctx !! Z.to_nat j = Some (Some (max ctx)) /\
     render_res exp H (max ctx) (max ctx) = Done H).
Proof.
  intros HW HC HH Hwf Hlevels Hrun Hi Hpeak Hexp0 Hexp.
  destruct (stream_end_inv log10 downstream nb_channels W H C frames ctx sink
              HW HC Hwf Hlevels Hrun) as (Hinv & Hw & Hh & Hc & _).
  destruct (committed_column ctx i Hinv Hi) as (v & Hv & Hvalid & Hnn & Hle).
  assert (Hvmax : valid_binary 53 1024 (max ctx) = true) by apply Hinv.
  pose proof (exp_arg_nonpos (max ctx) v Hvalid Hvmax Hpeak Hnn Hle) as Harg.
  pose proof (Hexp v Hv Harg) as Hunit.
  destruct (render_res_unit_interval exp H (max ctx) v HH Hunit)
    as (res & Hres & Hspec & Hrange).
  split.
  - exists v, res. split; [exact Hv|]. split; [exact Harg|]. split; [exact Hspec|].
    split; [|split; [exact Hrange|]].
    + intros cap k out. cbn [render_loop]. rewrite Hv, Hh, Hres. reflexivity.
    + intros ->. rewrite render_res_peak in Hres by assumption. congruence.
  - destruct (peak_column ctx Hinv ltac:(lia)) as (j & Hj & Hvj).
    exists j. split; [exact Hj|]. split; [exact Hvj|]. now apply render_res_peak.
Qed.

Lemma C3_witness :
  exists (v : double) res,
    values example_ctx !! Z.to_nat 0 = Some (Some v) /\
    spec_render ref_exp 100 (max example_ctx) v = Some res /\
    0 <= res <= 100.
Proof.
  destruct (C3_rendered_column ref_log10 ref_exp status_ok 1 4 100 2
              [mono_frame twelve_samples] example_ctx [mono_frame twelve_samples] 0)
    as [(v & res & Hv & _ & Hspec & _ & Hrange & _) _].
  - unfold INT_MAX; lia.
  - unfold INT_MAX; lia.
  - unfold INT_MAX; lia.
  - repeat constructor; unfold INT_MAX, is_int16; cbn; lia.
  - unfold levels_defined.
    let l := eval vm_compute in (stream_ingested 1 [mono_frame twelve_samples]) in
    change (stream_ingested 1 [mono_frame twelve_samples]) with l.
    repeat (constructor; [vm_compute; reflexivity|]). constructor.
  - vm_compute. reflexivity.
  - vm_compute. split; [discriminate|reflexivity].
  - vm_compute. reflexivity.
  - reflexivity.
  - intros v Hv _. vm_compute in Hv. injection Hv as <-. vm_compute. reflexivity.
  - exists v, res. split; [exact Hv|]. split; [exact Hspec|exact Hrange].
Defined.

(** C4 (the code departs from the claim).  On a silent stream of [W * C]
    samples every committed value is zero and the peak stays zero; the
    finalizer has no case for a zero peak: it divides zero by zero, and
    the integer of the first column is the conversion of a NaN (or, when
    nothing was committed, the read of a slot never written), which is
    undefined and not the integer 0. *)
Theorem C4_silent_stream_no_fallback log10 exp downstream nb_channels W H C frames :
  exp S754_nan = S754_nan ->
  1 <= W <= INT_MAX -> 1 <= C <= INT_MAX ->
  Forall (frame_wf nb_channels) frames ->
  Forall (fun s16 => s16 = 0) (stream_ingested nb_channels frames) ->
  Z.of_nat (length (stream_ingested nb_channels frames)) = W * C ->
  exists ctx,
    filter_stream log10 downstream nb_channels (init (priv_alloc W H C)) [] frames
      = Done (ctx, frames) /\
    col ctx = W * C / (C + 1) /\
    Forall (fun o => o = Some double_zero) (committed ctx) /\
    max ctx = double_zero /\
    exists u, dumpwave_request_frame exp ctx AVERROR_EOF = Undefined u.
Proof.
  intros Hexp HW HC Hwf Hzero HL.
  assert (Hfit : Z.of_nat (length (stream_ingested nb_channels frames)) / (C + 1) <= W).
  { rewrite HL. apply Z.div_le_upper_bound; [lia|].
    replace ((C + 1) * W) with (W * C + W) by ring. lia. }
  destruct (column_after_stream log10 downstream nb_channels W H C frames
              ltac:(lia) ltac:(lia) Hwf Hfit) as (ctx & Hrun & Hcol & _ & _ & (Hw & _ & Hc)).
  exists ctx. split; [exact Hrun|]. split; [now rewrite Hcol, HL|].
  rewrite filter_stream_ingest_all in Hrun by assumption.
  apply bind_Done in Hrun as (ctx' & Hrun & [= ->]).
  pose proof (ingest_all_silent log10 (stream_ingested nb_channels frames)
                (init (priv_alloc W H C)) ctx ltac:(cbn; lia)
                (init_silent_inv W H C ltac:(lia) ltac:(lia)) Hzero Hrun)
    as Hsilent.
  pose proof Hsilent as (_ & _ & Hmax & Hall).
  split; [exact Hall|]. split; [exact Hmax|].
  apply request_frame_silent; [assumption|assumption|]. cbn in Hw. lia.
Qed.

Lemma C4_witness :
  exists ctx,
    filter_stream ref_log10 status_ok 1 (init (priv_alloc 2 240 1)) []
      [mono_frame [0; 0]] = Done (ctx, [mono_frame [0; 0]]) /\
    col ctx = 1 /\
    Forall (fun o => o = Some double_zero) (committed ctx) /\
    max ctx = double_zero /\
    exists u, dumpwave_request_frame ref_exp ctx AVERROR_EOF = Undefined u.
Proof.
  apply (C4_silent_stream_no_fallback ref_log10 ref_exp status_ok 1 2 240 1
           [mono_frame [0; 0]]).
  - reflexivity.
  - unfold INT_MAX; lia.
  - unfold INT_MAX; lia.
  - repeat constructor; unfold INT_MAX, is_int16; cbn; lia.
  - vm_compute. repeat constructor.
  - vm_compute. reflexivity.
Defined.

(** C5 (the code departs from the claim).  On a stream of at most
    [W * C] samples, the streams the specification admits, the column
    cursor ends below [W]: a value is committed on sample [C + 1] of a
    window (the defect of C1).  The slots from the cursor on hold
    nothing, [init] taking the array from [av_malloc] (the defect of
    C8), and the finalizer goes through all [W] slots: what it produces
    is not the integers of [W] columns. *)
Theorem C5_stream_leaves_columns_unwritten log10 exp downstream nb_channels W H C frames :
  1 <= W <= INT_MAX -> 1 <= C <= INT_MAX ->
  Forall (frame_wf nb_channels) frames ->
  let L := Z.of_nat (length (stream_ingested nb_channels frames)) in
  L <= W * C ->
  exists ctx,
    filter_stream log10 downstream nb_channels (init (priv_alloc W H C)) [] frames
      = Done (ctx, frames) /\
    col ctx = L / (C + 1) /\ col ctx < W /\
    (forall i, col ctx <= i < W -> values ctx !! Z.to_nat i = Some None) /\
    (exists u, dumpwave_request_frame exp ctx AVERROR_EOF = Undefined u).
Proof.
  intros HW HC Hwf L HL.
  assert (Hlt : L / (C + 1) < W).
  { apply Z.div_lt_upper_bound; [lia|].
    replace ((C + 1) * W) with (W * C + W) by ring. lia. }
  destruct (column_after_stream log10 downstream nb_channels W H C frames
              ltac:(lia) ltac:(lia) Hwf ltac:(fold L; lia))
    as (ctx & Hrun & Hcol & _ & Hok & (Hw & _)).
  fold L in Hcol. cbn in Hw.
  exists ctx. split; [exact Hrun|]. split; [exact Hcol|]. split; [lia|].
  rewrite filter_stream_ingest_all in Hrun by assumption.
  apply bind_Done in Hrun as (ctx' & Hrun & [= ->]).
  pose proof (ingest_all_slots log10 _ _ _
                (init_slots_inv W H C ltac:(lia) ltac:(lia)) Hrun) as Hslots.
  split.
  - intros i Hi. destruct Hslots as [(_ & Hc & Hlen & _) Hun].
    unfold uncommitted in Hun. rewrite Forall_lookup in Hun.
    destruct (lookup_lt_is_Some_2 (values ctx) (Z.to_nat i)) as [o Ho]; [lia|].
    rewrite Ho. f_equal.
    apply (Hun (Z.to_nat i - Z.to_nat (col ctx))%nat). rewrite lookup_drop.
    replace (Z.to_nat (col ctx) + (Z.to_nat i - Z.to_nat (col ctx)))%nat
      with (Z.to_nat i) by lia.
    exact Ho.
  - apply request_frame_uncommitted; [assumption|lia].
Qed.

(** The example of the specification: W = 4, H = 100, C = 2 and eight
    samples.  Two columns are committed, and the finalizer reads the
    third slot, which nothing has written. *)
Lemma C5_witness :
  exists ctx,
    filter_stream ref_log10 status_ok 1 (init (priv_alloc 4 100 2)) []
      [mono_frame eight_samples] = Done (ctx, [mono_frame eight_samples]) /\
    col ctx = 2 /\
    values ctx !! 2%nat = Some None /\ values ctx !! 3%nat = Some None /\
    dumpwave_request_frame ref_exp ctx AVERROR_EOF = Undefined uninit_read.
Proof.
  destruct (C5_stream_leaves_columns_unwritten ref_log10 ref_exp status_ok 1 4 100 2
              [mono_frame eight_samples])
    as (ctx & Hrun & Hcol & _ & Hnone & _).
  - unfold INT_MAX; lia.
  - unfold INT_MAX; lia.
  - repeat constructor; unfold INT_MAX, is_int16; cbn; lia.
  - vm_compute. discriminate.
  - exists ctx. split; [exact Hrun|].
    assert (Hcol2 : col ctx = 2) by (rewrite Hcol; reflexivity).
    split; [exact Hcol2|].
    split; [apply (Hnone 2); rewrite Hcol2; lia|].
    split; [apply (Hnone 3); rewrite Hcol2; lia|].
    vm_compute in Hrun. injection Hrun as <-. vm_compute. reflexivity.
Defined.

(** C6.  On a stream whose samples have a level that is a number (as
    they have when [log10] returns a number for every positive argument),
    with a positive window size, no call of [dumpwave_filter_frame] lowers
    [max], and at the end of the stream [max] is the maximum of the
    committed values: it bounds each of them and is one of them (and is
    zero while nothing is committed). *)
Theorem C6_peak_running_maximum log10 downstream nb_channels W H C pre frame post :
  0 <= W <= INT_MAX -> 0 < C <= INT_MAX ->
  Forall (frame_wf nb_channels) (pre ++ frame :: post) ->
  levels_defined log10 (stream_ingested nb_channels (pre ++ frame :: post)) ->
  Z.of_nat (length (stream_ingested nb_channels (pre ++ frame :: post))) / (C + 1) <= W ->
  exists ctx ctx' ctx_end,
    filter_stream log10 downstream nb_channels (init (priv_alloc W H C)) [] pre
      = Done (ctx, pre) /\
    dumpwave_filter_frame log10 downstream nb_channels ctx pre frame
      = Done {| f_ctx := ctx'; f_sink := pre ++ [frame]; f_ret := 0 |} /\
    SFleb (max ctx) (max ctx') = true /\
    filter_stream log10 downstream nb_channels (init (priv_alloc W H C)) []
      (pre ++ frame :: post) = Done (ctx_end, pre ++ frame :: post) /\
    SFleb (max ctx') (max ctx_end) = true /\
    peak_is_max ctx_end.
Proof.
  intros HW HC Hwf Hlevels Hfit.
  set (ctx0 := init (priv_alloc W H C)).
  assert (Hinv0 : dw_inv ctx0) by (apply init_dw_inv; lia).
  apply Forall_app in Hwf as [Hwf_pre Hwf_rest].
  apply Forall_cons in Hwf_rest as [Hwf_frame Hwf_post].
  rewrite stream_ingested_app in Hlevels, Hfit.
  change (frame :: post) with ([frame] ++ post) in Hlevels, Hfit.
  rewrite stream_ingested_app, stream_ingested_single in Hlevels, Hfit.
  apply Forall_app in Hlevels as [Hl_pre Hl_rest].
  apply Forall_app in Hl_rest as [Hl_frame Hl_post].
  destruct (ingest_all_count log10
              (stream_ingested nb_channels pre ++
               frame_ingested nb_channels frame ++ stream_ingested nb_channels post)
              ctx0 (init_ctx_ok W H C HW ltac:(lia)))
    as (ctx_end & Hrun & _).
  { apply room_init; [lia|lia|exact Hfit]. }
  rewrite ingest_all_app in Hrun.
  apply bind_Done in Hrun as (ctx & Hrun_pre & Hrun).
  rewrite ingest_all_app in Hrun.
  apply bind_Done in Hrun as (ctx' & Hrun_frame & Hrun_post).
  destruct (ingest_all_inv log10 _ ctx0 ctx Hl_pre ltac:(cbn; lia) Hinv0 Hrun_pre)
    as (Hinv & _ & (_ & _ & Hc)).
  cbn in Hc.
  destruct (ingest_all_inv log10 _ ctx ctx' Hl_frame ltac:(lia) Hinv Hrun_frame)
    as (Hinv' & Hle & (_ & _ & Hc')).
  destruct (ingest_all_inv log10 _ ctx' ctx_end Hl_post ltac:(lia) Hinv' Hrun_post)
    as (Hinv_end & Hle_end & _).
  exists ctx, ctx', ctx_end.
  split.
  { rewrite filter_stream_ingest_all by assumption. rewrite Hrun_pre. reflexivity. }
  split.
  { rewrite filter_frame_ingest_all by assumption. rewrite Hrun_frame. reflexivity. }
  split; [exact Hle|]. split.
  { rewrite filter_stream_ingest_all by (apply Forall_app; split; [|constructor]; assumption).
    rewrite stream_ingested_app.
    change (frame :: post) with ([frame] ++ post).
    rewrite stream_ingested_app, stream_ingested_single.
    rewrite ingest_all_app. fold ctx0. rewrite Hrun_pre. cbn [bind].
    rewrite ingest_all_app, Hrun_frame. cbn [bind]. rewrite Hrun_post. reflexivity. }
  split; [exact Hle_end|]. apply Hinv_end.
Qed.

Lemma C6_witness :
  exists ctx ctx' ctx_end,
    filter_stream ref_log10 status_ok 1 (init (priv_alloc 4 100 2)) []
      [mono_frame eight_samples] = Done (ctx, [mono_frame eight_samples]) /\
    dumpwave_filter_frame ref_log10 status_ok 1 ctx [mono_frame eight_samples]
      (mono_frame [1; 1; 1; 1])
      = Done {| f_ctx := ctx';
                f_sink := [mono_frame eight_samples] ++ [mono_frame [1; 1; 1; 1]];
                f_ret := 0 |} /\
    SFleb (max ctx) (max ctx') = true /\
    filter_stream ref_log10 status_ok 1 (init (priv_alloc 4 100 2)) []
      ([mono_frame eight_samples] ++ [mono_frame [1; 1; 1; 1]])
      = Done (ctx_end, [mono_frame eight_samples] ++ [mono_frame [1; 1; 1; 1]]) /\
    SFleb (max ctx') (max ctx_end) = true /\
    peak_is_max ctx_end.
Proof.
  apply (C6_peak_running_maximum ref_log10 status_ok 1 4 100 2
           [mono_frame eight_samples] (mono_frame [1; 1; 1; 1]) []).
  - unfold INT_MAX; lia.
  - unfold INT_MAX; lia.
  - repeat constructor; unfold INT_MAX, is_int16; cbn; lia.
  - unfold levels_defined.
    let l := eval vm_compute in
      (stream_ingested 1 ([mono_frame eight_samples] ++ [mono_frame [1; 1; 1; 1]])) in
    change (stream_ingested 1 ([mono_frame eight_samples] ++ [mono_frame [1; 1; 1; 1]]))
      with l.
    repeat (constructor; [vm_compute; reflexivity|]). constructor.
  - vm_compute. discriminate.
Defined.

(** C7 (amended).  The frames of a stream whose commits all find a free
    column are handed to [ff_filter_frame] once each, in input order and
    unchanged; a stream with a commit past column [w] stops in
    [av_assert0], and the frame of that commit is not forwarded. *)
Theorem C7_frames_forwarded log10 downstream nb_channels ctx sink frames :
  Forall (frame_wf nb_channels) frames -> ctx_ok ctx -> 0 <= c ctx ->
  (room ctx (stream_ingested nb_channels frames) ->
   exists ctx', filter_stream log10 downstream nb_channels ctx sink frames
                = Done (ctx', sink ++ frames)) /\
  (~ room ctx (stream_ingested nb_channels frames) ->
   filter_stream log10 downstream nb_channels ctx sink frames = Abort).
Proof.
  intros Hwf Hok Hc. split.
  - intros Hroom.
    destruct (filter_stream_room log10 downstream nb_channels ctx sink frames Hwf Hok Hroom)
      as (ctx' & Hrun & _).
    exists ctx'. exact Hrun.
  - intros Hroom. now apply filter_stream_no_room.
Qed.

Lemma C7_witness :
  exists ctx', filter_stream ref_log10 status_ok 1 (init (priv_alloc 4 100 2)) []
                 [mono_frame eight_samples; mono_frame [1; 1; 1; 1]]
               = Done (ctx', [mono_frame eight_samples; mono_frame [1; 1; 1; 1]]).
Proof.
  apply (C7_frames_forwarded ref_log10 status_ok 1 (init (priv_alloc 4 100 2)) []
           [mono_frame eight_samples; mono_frame [1; 1; 1; 1]]).
  - repeat constructor; unfold INT_MAX, is_int16; cbn; lia.
  - apply init_ctx_ok; unfold INT_MAX; lia.
  - cbn. lia.
  - unfold room. vm_compute. reflexivity.
Defined.

(** The claim C7 as stated fails: with W = 1 and C = 2 the second frame
    completes a second window, and is never forwarded. *)
Lemma C7_counterexample :
  filter_stream ref_log10 status_ok 1 (init (priv_alloc 1 240 2)) []
    [mono_frame [0; 0; 0]; mono_frame [0; 0; 0]] = Abort /\
  ~ (exists ctx', filter_stream ref_log10 status_ok 1 (init (priv_alloc 1 240 2)) []
                    [mono_frame [0; 0; 0]; mono_frame [0; 0; 0]]
                  = Done (ctx', [mono_frame [0; 0; 0]; mono_frame [0; 0; 0]])).
Proof.
  assert (H : filter_stream ref_log10 status_ok 1 (init (priv_alloc 1 240 2)) []
                [mono_frame [0; 0; 0]; mono_frame [0; 0; 0]] = Abort) by reflexivity.
  split; [exact H|]. intros (ctx' & Hr). rewrite H in Hr. discriminate.
Qed.

(** C8 (the code departs from the claim).  [init] takes the array of
    [values] from [av_malloc] and writes nothing to it: after setup the
    accumulator state is zero, as the framework left it, but the [w] slots
    of [values] hold no value, and a stream that leaves a column
    uncommitted ends in the read of such a slot, not of a zero. *)
Theorem C8_values_not_initialised log10 exp downstream nb_channels W H C frames ctx sink :
  1 <= W <= INT_MAX -> 0 <= C <= INT_MAX ->
  Forall (frame_wf nb_channels) frames ->
  filter_stream log10 downstream nb_channels (init (priv_alloc W H C)) [] frames
    = Done (ctx, sink) ->
  col ctx < W ->
  values (init (priv_alloc W H C)) = replicate (Z.to_nat W) None /\
  (col (init (priv_alloc W H C)) = 0 /\ n (init (priv_alloc W H C)) = 0 /\
   sum (init (priv_alloc W H C)) = double_zero /\
   max (init (priv_alloc W H C)) = double_zero) /\
  values ctx !! Z.to_nat (col ctx) = Some None /\
  exists u, dumpwave_request_frame exp ctx AVERROR_EOF = Undefined u.
Proof.
  intros HW HC Hwf Hrun Hcol.
  split; [reflexivity|]. split; [repeat split|].
  rewrite filter_stream_ingest_all in Hrun by assumption.
  apply bind_Done in Hrun as (ctx' & Hrun & [= -> _]).
  pose proof (ingest_all_slots log10 _ _ _
                (init_slots_inv W H C ltac:(lia) HC) Hrun) as Hslots.
  assert (Hw : w ctx = W).
  { destruct (Z.lt_ge_cases (Z.of_nat (length (stream_ingested nb_channels frames)) / (C + 1)) (W + 1)) as [Hfit|Hfull].
    - destruct (ingest_all_count log10 (stream_ingested nb_channels frames)
                  (init (priv_alloc W H C)) (init_ctx_ok W H C ltac:(lia) HC))
        as (ctx2 & Hrun2 & _ & (Hw2 & _) & _).
      { apply room_init; lia. }
      rewrite Hrun in Hrun2. injection Hrun2 as <-. exact Hw2.
    - rewrite ingest_all_abort in Hrun; [discriminate|apply init_ctx_ok; lia|cbn; lia|].
      unfold ingested_count. cbn.
      set (L := Z.of_nat _) in *.
      pose proof (Z.div_mod L (C + 1)). pose proof (Z.mod_pos_bound L (C + 1)). nia. }
  split.
  - destruct Hslots as [(Hn & Hc & Hlen & _) Hun].
    unfold uncommitted in Hun. rewrite Forall_lookup in Hun.
    destruct (lookup_lt_is_Some_2 (values ctx) (Z.to_nat (col ctx))) as [o Ho]; [lia|].
    rewrite Ho. f_equal. apply (Hun 0%nat). rewrite lookup_drop, Nat.add_0_r. exact Ho.
  - apply request_frame_uncommitted; [assumption|lia].
Qed.

Lemma C8_witness :
  values (init (priv_alloc 2 240 1)) = [None; None] /\
  exists u, dumpwave_request_frame ref_exp
              (stream_ctx (filter_stream ref_log10 status_ok 1
                             (init (priv_alloc 2 240 1)) [] [mono_frame [1000; 1000]]))
              AVERROR_EOF = Undefined u.
Proof.
  split; [reflexivity|].
  eapply (C8_values_not_initialised ref_log10 ref_exp status_ok 1 2 240 1
            [mono_frame [1000; 1000]]).
  - unfold INT_MAX; lia.
  - unfold INT_MAX; lia.
  - repeat constructor; unfold INT_MAX, is_int16; cbn; lia.
  - vm_compute. reflexivity.
  - vm_compute. reflexivity.
Defined.

(** C9.  The sample count of a frame is narrowed to [int16_t] before the
    loop: a call ingests the first [max 0 k] samples of the first
    channel, [k] being the count reduced into [[-32768, 32767]]; that is
    the frame's count exactly when the count is at most 32767, and
    nothing is ingested when [k] is negative or zero. *)
Theorem C9_sample_count_narrowed log10 downstream nb_channels ctx sink frame :
  frame_wf nb_channels frame ->
  let k := int16_of_int (nb_samples frame) in
  dumpwave_filter_frame log10 downstream nb_channels ctx sink frame =
    (let* ctx' := ingest_all log10 ctx
                    (first_channel nb_channels (data frame) 0 (Z.to_nat k)) in
     Done {| f_ctx := ctx'; f_sink := sink ++ [frame]; f_ret := 0 |}) /\
  Z.of_nat (length (frame_ingested nb_channels frame)) = Z.max 0 k /\
  (Z.max 0 k = nb_samples frame <-> nb_samples frame <= 32767) /\
  (k <= 0 ->
   dumpwave_filter_frame log10 downstream nb_channels ctx sink frame =
     Done {| f_ctx := ctx; f_sink := sink ++ [frame]; f_ret := 0 |}).
Proof.
  intros Hwf k. pose proof Hwf as (Hch & Hnb & Hlen & Hs).
  pose proof (filter_frame_ingest_all log10 downstream nb_channels ctx sink frame Hwf) as Hrun.
  unfold frame_ingested in Hrun. fold k in Hrun.
  split; [exact Hrun|]. split; [rewrite length_frame_ingested; fold k; lia|]. split.
  - pose proof (int16_of_int_range (nb_samples frame)). fold k in H. split.
    + lia.
    + intros Hle. subst k. rewrite int16_of_int_small; lia.
  - intros Hk. rewrite Hrun. replace (Z.to_nat k) with 0%nat by lia. reflexivity.
Qed.

Lemma C9_witness :
  frame_wf 1 long_frame /\
  int16_of_int (nb_samples long_frame) = -25536 /\
  dumpwave_filter_frame ref_log10 status_ok 1 (init (priv_alloc 600 240 64)) [] long_frame =
    Done {| f_ctx := init (priv_alloc 600 240 64); f_sink := [long_frame]; f_ret := 0 |}.
Proof.
  assert (Hwf : frame_wf 1 long_frame).
  { unfold frame_wf, long_frame, INT_MAX. cbn [nb_samples data].
    rewrite length_replicate, Z2Nat.id by discriminate.
    split; [discriminate|]. split; [split; discriminate|]. split; [reflexivity|].
    apply Forall_replicate. unfold is_int16. split; discriminate. }
  split; [exact Hwf|]. split; [reflexivity|].
  apply (C9_sample_count_narrowed ref_log10 status_ok 1
           (init (priv_alloc 600 240 64)) [] long_frame Hwf).
  vm_compute. discriminate.
Defined.

(** C10 (amended).  A call of [dumpwave_filter_frame] that returns,
    returns 0, whatever status [ff_filter_frame] gave: the status is
    assigned and dropped.  A call returns when no commit finds the column
    cursor at [w]; otherwise [av_assert0] stops the process inside the
    loop, before the frame is forwarded. *)
Theorem C10_returns_zero_or_aborts log10 downstream nb_channels ctx sink frame :
  frame_wf nb_channels frame -> ctx_ok ctx -> 0 <= c ctx ->
  (room ctx (frame_ingested nb_channels frame) ->
   exists r, dumpwave_filter_frame log10 downstream nb_channels ctx sink frame = Done r /\
             f_ret r = 0) /\
  (~ room ctx (frame_ingested nb_channels frame) ->
   dumpwave_filter_frame log10 downstream nb_channels ctx sink frame = Abort) /\
  (forall downstream' : AVFrame -> Z,
   dumpwave_filter_frame log10 downstream' nb_channels ctx sink frame =
   dumpwave_filter_frame log10 downstream nb_channels ctx sink frame).
Proof.
  intros Hwf Hok Hc. split; [|split].
  - intros Hroom.
    destruct (filter_frame_room log10 downstream nb_channels ctx sink frame Hwf Hok Hroom)
      as (ctx' & Hrun & _).
    eexists. split; [exact Hrun|reflexivity].
  - intros Hroom. now apply filter_frame_no_room.
  - intros downstream'. reflexivity.
Qed.

Lemma C10_witness :
  exists r, dumpwave_filter_frame ref_log10 (fun _ => -22) 1
              (init (priv_alloc 4 100 2)) [] (mono_frame eight_samples) = Done r /\
            f_ret r = 0.
Proof.
  apply (C10_returns_zero_or_aborts ref_log10 (fun _ => -22) 1
           (init (priv_alloc 4 100 2)) [] (mono_frame eight_samples)).
  - repeat constructor; unfold INT_MAX, is_int16; cbn; lia.
  - apply init_ctx_ok; unfold INT_MAX; lia.
  - cbn. lia.
  - unfold room. vm_compute. reflexivity.
Defined.

(** The claim C10 as stated fails: with W = 1 and C = 1 the fourth sample
    of a frame asks for a second column, and the call does not return. *)
Lemma C10_counterexample :
  dumpwave_filter_frame ref_log10 status_ok 1 (init (priv_alloc 1 100 1)) []
    (mono_frame [0; 0; 0; 0]) = Abort /\
  ~ (exists r, dumpwave_filter_frame ref_log10 status_ok 1
                 (init (priv_alloc 1 100 1)) [] (mono_frame [0; 0; 0; 0]) = Done r /\
               f_ret r = 0).
Proof.
  assert (H : dumpwave_filter_frame ref_log10 status_ok 1 (init (priv_alloc 1 100 1)) []
                (mono_frame [0; 0; 0; 0]) = Abort) by reflexivity.
  split; [exact H|]. intros (r & Hr & _). rewrite H in Hr. discriminate.
Qed.

(** ** Windows of samples *)

Section WindowRuns.
Variable log10 : double -> double.

(** Samples that complete no window. *)
Lemma ingest_all_partial samples : forall ctx,
  n ctx + Z.of_nat (length samples) <= c ctx ->
  0 <= n ctx ->
  ingest_all log10 ctx samples =
    Done {| w := w ctx; h := h ctx; c := c ctx; col := col ctx;
            str := str ctx; values := values ctx;
            n := n ctx + Z.of_nat (length samples);
            max := max ctx;
            sum := sum_of log10 (sum ctx) samples |}.
Proof.
  induction samples as [|s16 rest IH]; intros ctx Hn Hn0.
  - cbn. rewrite Z.add_0_r. now destruct ctx.
  - cbn [length] in Hn. cbn [ingest_all]. unfold ingest.
    destruct (Z.eqb_spec (n ctx) (c ctx)) as [Heq|_]; [lia|].
    cbn [bind]. rewrite IH by (cbn; lia). cbn.
    f_equal. f_equal. lia.
Qed.

(** A run of [C + 1] samples from the start of a window commits one
    value. *)
Lemma ingest_all_window ws ctx :
  ctx_ok ctx -> n ctx = 0 -> sum ctx = double_zero -> col ctx < w ctx ->
  Z.of_nat (length ws) = c ctx + 1 ->
  ingest_all log10 ctx ws =
    Done {| w := w ctx; h := h ctx; c := c ctx; col := col ctx + 1;
            str := str ctx;
            values := <[Z.to_nat (col ctx) := Some (window_value log10 (c ctx) ws)]>
                        (values ctx);
            n := 0;
            max := FFMAX (max ctx) (window_value log10 (c ctx) ws);
            sum := double_zero |}.
Proof.
  intros Hok Hn Hsum Hcol Hlen.
  induction ws as [|s16 front _] using rev_ind.
  { destruct Hok as ((? & ?) & _). cbn in Hlen. lia. }
  rewrite length_app in Hlen. cbn in Hlen.
  rewrite ingest_all_app, ingest_all_partial by lia. cbn [bind ingest_all].
  unfold ingest. cbn [n c col w values sum max str h].
  destruct (Z.eqb_spec (n ctx + Z.of_nat (length front)) (c ctx)) as [_|]; [|lia].
  destruct (Z.ltb_spec (col ctx) (w ctx)) as [_|]; [|lia]. cbn [av_assert0 bind].
  destruct Hok as (_ & Hc & Hl & _).
  destruct (Z.leb_spec 0 (col ctx)) as [_|]; [|lia].
  destruct (Nat.ltb_spec (Z.to_nat (col ctx)) (length (values ctx))) as [_|]; [|lia].
  cbn [andb bind]. unfold window_value, sum_of.
  rewrite fold_left_app. cbn [fold_left]. rewrite Hsum. reflexivity.
Qed.

(** [k] windows in a row. *)
Lemma ingest_all_windows k : forall samples ctx,
  ctx_ok ctx -> n ctx = 0 -> sum ctx = double_zero -> 0 <= c ctx ->
  col ctx + Z.of_nat k <= w ctx ->
  (k * Z.to_nat (c ctx + 1) <= length samples)%nat ->
  ingest_all log10 ctx (take (k * Z.to_nat (c ctx + 1)) samples) =
    let vs := map (window_value log10 (c ctx))
                  (windows k (Z.to_nat (c ctx + 1)) samples) in
    Done {| w := w ctx; h := h ctx; c := c ctx; col := col ctx + Z.of_nat k;
            str := str ctx;
            values := take (Z.to_nat (col ctx)) (values ctx) ++ map Some vs ++
                      drop (Z.to_nat (col ctx) + k) (values ctx);
            n := 0;
            max := peak_of (max ctx) vs;
            sum := double_zero |}.
Proof.
  induction k as [|k IH]; intros samples ctx Hok Hn Hsum Hc Hcol Hlen.
  - cbn. rewrite Nat.add_0_r, take_drop, Z.add_0_r.
    destruct ctx; cbn in *. now subst.
  - set (size := Z.to_nat (c ctx + 1)) in *.
    replace (S k * size)%nat with (size + k * size)%nat by lia.
    rewrite <- take_take_drop, ingest_all_app.
    pose proof Hok as (_ & Hcol0 & Hl & Hw & Hcmax).
    rewrite (ingest_all_window (take size samples) ctx Hok Hn Hsum) by
      (try rewrite length_take; lia).
    cbn [bind].
    set (v := window_value log10 (c ctx) (take size samples)).
    rewrite IH; cbn [w h c col str values n max sum]; fold size.
    + cbn [windows map peak_of fold_left]. fold v.
      f_equal. f_equal; [lia|].
      replace (Z.to_nat (col ctx + 1)) with (S (Z.to_nat (col ctx))) by lia.
      rewrite (take_S_r _ _ (Some v)) by (apply list_lookup_insert_eq; lia).
      rewrite take_insert_ge by lia. rewrite drop_insert_lt by lia.
      rewrite <- app_assoc. cbn [app].
      replace (S (Z.to_nat (col ctx)) + k)%nat with (Z.to_nat (col ctx) + S k)%nat by lia.
      reflexivity.
    + unfold ctx_ok; cbn [w h c col str values n max sum].
      rewrite length_insert. lia.
    + reflexivity.
    + reflexivity.
    + assumption.
    + lia.
    + rewrite length_drop. lia.
Qed.

End WindowRuns.

(** After a stream that fits, the accumulator is this function of the
    samples ingested. *)
Lemma accumulator_after_stream log10 downstream nb_channels W H C frames :
  0 <= W <= INT_MAX -> 0 <= C <= INT_MAX ->
  Forall (frame_wf nb_channels) frames ->
  let samples := stream_ingested nb_channels frames in
  let L := Z.of_nat (length samples) in
  L / (C + 1) <= W ->
  let q := Z.to_nat (L / (C + 1)) in
  let size := Z.to_nat (C + 1) in
  let vs := map (window_value log10 C) (windows q size samples) in
  filter_stream log10 downstream nb_channels (init (priv_alloc W H C)) [] frames =
    Done ({| w := W; h := H; c := C; col := L / (C + 1);
             str := None;
             values := map Some vs ++ replicate (Z.to_nat W - q) None;
             n := L mod (C + 1);
             max := peak_of double_zero vs;
             sum := sum_of log10 double_zero (drop (q * size) samples) |}, frames).
Proof.
  intros HW HC Hwf samples L HL q size vs.
  rewrite filter_stream_ingest_all by assumption. fold samples.
  pose proof (init_ctx_ok W H C HW HC) as Hok.
  pose proof (Z.div_mod L (C + 1) ltac:(lia)) as Hdm.
  pose proof (Z.mod_pos_bound L (C + 1) ltac:(lia)) as Hmod.
  assert (Hq0 : 0 <= L / (C + 1)) by (apply Z.div_pos; lia).
  assert (Hq : Z.of_nat q = L / (C + 1)) by (subst q; now rewrite Z2Nat.id).
  assert (Hsize : Z.of_nat size = C + 1) by (subst size; rewrite Z2Nat.id; lia).
  assert (HLq : Z.of_nat (length samples) =
                Z.of_nat (q * size) + L mod (C + 1)).
  { rewrite Nat2Z.inj_mul, Hq, Hsize. fold L. lia. }
  clearbody q size. fold L in HLq.
  set (r := L mod (C + 1)) in *. set (d := L / (C + 1)) in *. clearbody r d.
  rewrite <- (take_drop (q * size) samples) at 1.
  rewrite ingest_all_app.
  pose proof (ingest_all_windows log10 q samples (init (priv_alloc W H C)) Hok
                eq_refl eq_refl) as Hw.
  cbn [w h c col str values n max sum init priv_alloc] in Hw.
  replace (Z.to_nat (C + 1)) with size in Hw by lia.
  rewrite Hw; [| lia | lia | lia].
  cbn [bind]. fold vs.
  rewrite ingest_all_partial; cbn [w h c col str values n max sum].
  - rewrite length_drop. cbn [bind app]. f_equal. f_equal. f_equal.
    + lia.
    + change (Z.to_nat 0) with 0%nat. cbn [take app Nat.add]. unfold av_malloc_doubles.
      rewrite drop_replicate. reflexivity.
    + lia.
  - rewrite length_drop. lia.
  - lia.
Qed.

(** ** Columns once committed *)

Section Stable.
Variable log10 : double -> double.

Lemma ingest_stable ctx s16 ctx' :
  ingest log10 ctx s16 = Done ctx' -> 0 <= col ctx ->
  col ctx <= col ctx' /\
  forall i, (i < Z.to_nat (col ctx))%nat -> values ctx' !! i = values ctx !! i.
Proof.
  unfold ingest. intros Hrun Hcol.
  destruct (n ctx =? c ctx).
  - destruct (col ctx <? w ctx); [|discriminate]. cbn [av_assert0 bind] in Hrun.
    destruct (_ && _); [|discriminate]. injection Hrun as <-. cbn [col values].
    split; [lia|]. intros i Hi. apply list_lookup_insert_ne. lia.
  - injection Hrun as <-. cbn. split; [lia|reflexivity].
Qed.

Lemma ingest_all_stable samples : forall ctx ctx',
  ingest_all log10 ctx samples = Done ctx' -> 0 <= col ctx ->
  col ctx <= col ctx' /\
  forall i, (i < Z.to_nat (col ctx))%nat -> values ctx' !! i = values ctx !! i.
Proof.
  induction samples as [|s16 rest IH]; intros ctx ctx' Hrun Hcol.
  - injection Hrun as <-. split; [lia|reflexivity].
  - cbn [ingest_all] in Hrun. apply bind_Done in Hrun as (ctx1 & H1 & Hrest).
    destruct (ingest_stable ctx s16 ctx1 H1 Hcol) as [Hle1 Hv1].
    destruct (IH ctx1 ctx' Hrest ltac:(lia)) as [Hle Hv].
    split; [lia|]. intros i Hi. rewrite Hv by lia. now apply Hv1.
Qed.

End Stable.

(** ** The finalizer, called again *)

Section Idempotence.
Variable exp : double -> double.

Lemma render_loop_ext ctx ctx' cap : forall k i out,
  values ctx' = values ctx -> h ctx' = h ctx -> max ctx' = max ctx ->
  render_loop exp ctx' cap k i out = render_loop exp ctx cap k i out.
Proof.
  induction k as [|k IH]; intros i out Hv Hh Hm; [reflexivity|].
  cbn [render_loop]. rewrite Hv, Hh, Hm.
  destruct (values ctx !! Z.to_nat i) as [[v|]|]; try reflexivity.
  destruct (render_res exp (h ctx) (max ctx) v); cbn [bind]; try reflexivity.
  destruct (_ <=? _); [|reflexivity]. now apply IH.
Qed.

(** The finalizer writes [str] and nothing else. *)
Lemma request_frame_fields ctx ctx' ret :
  dumpwave_request_frame exp ctx AVERROR_EOF = Done (ctx', ret) ->
  ret = AVERROR_EOF /\
  (w ctx' = w ctx /\ h ctx' = h ctx /\ c ctx' = c ctx /\ col ctx' = col ctx /\
   n ctx' = n ctx /\ values ctx' = values ctx /\ max ctx' = max ctx /\
   sum ctx' = sum ctx).
Proof.
  unfold dumpwave_request_frame. rewrite Z.eqb_refl. intros Hrun.
  destruct (render_loop exp ctx (w ctx * 4) (Z.to_nat (w ctx)) 0 EmptyString)
    as [out| |u]; cbn [bind] in Hrun; try discriminate.
  destruct out as [|a out]; [discriminate|].
  injection Hrun as <- <-. cbn [w h c col n values max sum]. tauto.
Qed.

End Idempotence.

(** ** The polarity of a sample *)

Section Opp.
Variables prec emax : Z.

Lemma binary_round_aux_opp s m e l :
  SFopp (binary_round_aux prec emax s m e l) = binary_round_aux prec emax (negb s) m e l.
Proof.
  unfold binary_round_aux.
  destruct (shr_fexp prec emax m e l) as [mrs e'].
  destruct (shr_fexp prec emax _ e' loc_Exact) as [mrs' e''].
  destruct (shr_m mrs'); try reflexivity.
  now destruct (e'' <=? emax - prec).
Qed.

Lemma binary_round_opp s m e :
  SFopp (binary_round prec emax s m e) = binary_round prec emax (negb s) m e.
Proof.
  unfold binary_round. destruct (shl_align _ _ _) as [mz ez].
  apply binary_round_aux_opp.
Qed.

Lemma binary_normalize_opp z e :
  z <> 0 ->
  binary_normalize prec emax (- z) e false = SFopp (binary_normalize prec emax z e false).
Proof.
  intros Hz. destruct z as [|p|p]; [contradiction| |]; cbn [Z.opp binary_normalize];
    now rewrite binary_round_opp.
Qed.

Lemma xorb_negb_l a b : xorb (negb a) b = negb (xorb a b).
Proof. now destruct a, b. Qed.

Lemma SFdiv_opp_l x y :
  SFdiv prec emax (SFopp x) y = SFopp (SFdiv prec emax x y).
Proof.
  destruct x as [sx|sx| |sx mx ex], y as [sy|sy| |sy my ey];
    cbn [SFopp SFdiv]; rewrite ?xorb_negb_l; try reflexivity.
  destruct (SFdiv_core_binary prec emax (Z.pos mx) ex (Z.pos my) ey) as [[mz ez] lz].
  now rewrite binary_round_aux_opp.
Qed.

Lemma SFmul_opp_opp x :
  SFmul prec emax (SFopp x) (SFopp x) = SFmul prec emax x x.
Proof. destruct x as [[]|[]| |[] m e]; reflexivity. Qed.

End Opp.

Lemma double_of_float_opp x : double_of_float (SFopp x) = SFopp (double_of_float x).
Proof.
  destruct x as [s|s| |s m e]; try reflexivity.
  cbn [SFopp double_of_float]. now rewrite binary_round_opp.
Qed.

Lemma SFeqb_opp_zero x : SFeqb (SFopp x) double_zero = SFeqb x double_zero.
Proof. destruct x as [[]|[]| |[] m e]; reflexivity. Qed.

Lemma SFabs_opp x : SFabs (SFopp x) = SFabs x.
Proof. now destruct x. Qed.

Section Polarity.
Variable log10 : double -> double.

Lemma level_square_opp s16 : level_square log10 (- s16) = level_square log10 s16.
Proof.
  destruct (Z.eq_dec s16 0) as [->|Hs]; [reflexivity|].
  unfold level_square, sample_level, float_of_int, fdiv.
  rewrite binary_normalize_opp by assumption.
  rewrite SFdiv_opp_l, double_of_float_opp, SFeqb_opp_zero.
  unfold fabs. rewrite SFabs_opp.
  destruct (SFeqb _ double_zero); cbn [negb]; [|reflexivity].
  unfold fmul. now rewrite SFmul_opp_opp.
Qed.

(** [ingest] depends on the sample through the square of its level. *)
Lemma ingest_level_square ctx s16 s16' :
  level_square log10 s16 = level_square log10 s16' ->
  ingest log10 ctx s16 = ingest log10 ctx s16'.
Proof.
  intros Heq. unfold ingest.
  change (double_of_float (fmul (sample_level log10 s16) (sample_level log10 s16)))
    with (level_square log10 s16).
  change (double_of_float (fmul (sample_level log10 s16') (sample_level log10 s16')))
    with (level_square log10 s16').
  now rewrite Heq.
Qed.

Lemma ingest_all_opp samples : forall ctx,
  ingest_all log10 ctx (map Z.opp samples) = ingest_all log10 ctx samples.
Proof.
  induction samples as [|s16 rest IH]; intros ctx; [reflexivity|].
  cbn [map ingest_all].
  rewrite (ingest_level_square ctx (- s16) s16) by apply level_square_opp.
  destruct (ingest log10 ctx s16); cbn [bind]; auto.
Qed.

End Polarity.

(** ** A window size of zero *)

Lemma length_windows k size : forall samples, length (windows k size samples) = k.
Proof. induction k as [|k IH]; intros samples; cbn; [reflexivity|now rewrite IH]. Qed.

Lemma dsqrt_ddiv_zero x : inf_or_nan (dsqrt (ddiv x double_zero)) = true.
Proof. destruct x as [[]|[]| |[] m e]; reflexivity. Qed.

Lemma window_value_zero log10 ws : inf_or_nan (window_value log10 0 ws) = true.
Proof. unfold window_value. apply dsqrt_ddiv_zero. Qed.

Lemma FFMAX_inf_or_nan a b : inf_or_nan b = true -> FFMAX a b = b.
Proof.
  unfold FFMAX. destruct b as [|[]| |]; try discriminate; intros _.
  - now destruct a as [[]|[]| |[] m e].
  - now destruct a.
Qed.

Lemma peak_of_inf_or_nan vs : forall acc,
  Forall (fun v => inf_or_nan v = true) vs -> inf_or_nan acc = true ->
  inf_or_nan (peak_of acc vs) = true.
Proof.
  induction vs as [|v vs IH]; intros acc Hall Hacc; [exact Hacc|].
  apply Forall_cons in Hall as [Hv Hall]. cbn [peak_of fold_left].
  apply IH; [assumption|]. now rewrite FFMAX_inf_or_nan.
Qed.

Lemma render_res_inf_or_nan exp H peak v :
  exp S754_nan = S754_nan ->
  inf_or_nan v = true -> inf_or_nan peak = true ->
  render_res exp H peak v = Undefined float_to_int.
Proof.
  intros Hexp Hv Hp. unfold render_res.
  assert (Hdiv : ddiv v peak = S754_nan).
  { destruct v as [|[]| |]; try discriminate; destruct peak as [|[]| |]; try discriminate;
      reflexivity. }
  rewrite Hdiv. change (dsub (dmul S754_nan M_E) M_E) with S754_nan.
  rewrite Hexp. unfold dmul. now destruct (double_of_int H).
Qed.

(** ** The size of the buffer *)

(** The decimal digits of small integers. *)
Lemma sprintf_d_two_digits r :
  0 <= r <= 99 -> (String.length (sprintf_d r) <= 2)%nat.
Proof.
  intros Hr.
  assert (Hall : forallb (fun k => String.length (sprintf_d (Z.of_nat k)) <=? 2)%nat
                         (seq 0 100) = true) by (vm_compute; reflexivity).
  rewrite forallb_forall in Hall.
  specialize (Hall (Z.to_nat r)). rewrite Z2Nat.id in Hall by lia.
  apply Nat.leb_le, Hall, in_seq. lia.
Qed.

Lemma sprintf_d_three_digits r :
  100 <= r <= 999 -> String.length (sprintf_d r) = 3%nat.
Proof.
  intros Hr.
  assert (Hall : forallb (fun k => String.length (sprintf_d (Z.of_nat k)) =? 3)%nat
                         (seq 100 900) = true) by (vm_compute; reflexivity).
  rewrite forallb_forall in Hall.
  specialize (Hall (Z.to_nat r)). rewrite Z2Nat.id in Hall by lia.
  apply Nat.eqb_eq, Hall, in_seq. lia.
Qed.

Lemma Zlength_entries_cons r rs :
  Zlength_string (entries (r :: rs)) =
  Zlength_string (sprintf_d r) + 1 + Zlength_string (entries rs).
Proof.
  unfold Zlength_string. cbn [entries]. rewrite !string_length_app. cbn. lia.
Qed.

Lemma Zlength_entries_le d rs :
  Forall (fun r => Zlength_string (sprintf_d r) <= d) rs ->
  Zlength_string (entries rs) <= (d + 1) * Z.of_nat (length rs).
Proof.
  induction 1 as [|r rs Hr _ IH]; [cbn [length]; rewrite Z.mul_0_r; reflexivity|].
  rewrite Zlength_entries_cons. cbn [length]. rewrite Nat2Z.inj_succ, Z.mul_succ_r. lia.
Qed.

Lemma Zlength_entries_eq d rs :
  Forall (fun r => Zlength_string (sprintf_d r) = d) rs ->
  Zlength_string (entries rs) = (d + 1) * Z.of_nat (length rs).
Proof.
  induction 1 as [|r rs Hr _ IH]; [cbn [length]; rewrite Z.mul_0_r; reflexivity|].
  rewrite Zlength_entries_cons. cbn [length]. rewrite Nat2Z.inj_succ, Z.mul_succ_r. lia.
Qed.

Section Buffer.
Variable exp : double -> double.

(** The loop stops where [sprintf] would write past the buffer. *)
Lemma render_loop_overrun ctx cap rs : forall k i out,
  k = length rs -> 0 <= i ->
  (forall j r, rs !! j = Some r ->
     exists v, values ctx !! (Z.to_nat i + j)%nat = Some (Some v) /\
               render_res exp (h ctx) (max ctx) v = Done r) ->
  Zlength_string out + 1 <= cap ->
  cap < Zlength_string (String.append out (entries rs)) + 1 ->
  render_loop exp ctx cap k i out = Undefined buffer_overrun.
Proof.
  induction rs as [|r rs IH]; intros k i out -> Hi Hcols Hout Hcap.
  - exfalso. cbn [entries] in Hcap. unfold Zlength_string in *.
    rewrite string_length_app in Hcap. cbn in Hcap. lia.
  - cbn [length render_loop].
    destruct (Hcols 0%nat r eq_refl) as (v & Hv & Hr).
    rewrite Nat.add_0_r in Hv. rewrite Hv, Hr. cbn [bind].
    cbn [entries] in Hcap.
    set (out' := String.append out (String.append (sprintf_d r) ",")).
    assert (HX : String.append out (String.append (sprintf_d r) (String.append "," (entries rs)))
                 = String.append out' (entries rs)).
    { subst out'. now rewrite !string_app_assoc. }
    rewrite HX in Hcap.
    destruct (Z.leb_spec (Zlength_string out' + 1) cap) as [Hfit|]; [|reflexivity].
    apply IH; [reflexivity|lia| |assumption|assumption].
    intros j r' Hj. destruct (Hcols (S j) r' Hj) as (v' & Hv' & Hr').
    exists v'. split; [|assumption].
    replace (Z.to_nat (i + 1) + j)%nat with (Z.to_nat i + S j)%nat by lia. exact Hv'.
Qed.

(** The finalizer on [w] slots that hold values: the text and its
    terminator fit the [4 w] bytes of [str], or [sprintf] writes past
    them. *)
Lemma request_frame_capacity ctx ints :
  1 <= w ctx -> Z.of_nat (length (values ctx)) = w ctx ->
  Forall2 (fun o res => exists v, o = Some v /\
             render_res exp (h ctx) (max ctx) v = Done res) (values ctx) ints ->
  (Zlength_string (spec_serialize ints) + 2 <= w ctx * 4 ->
   exists ctx', dumpwave_request_frame exp ctx AVERROR_EOF = Done (ctx', AVERROR_EOF) /\
                str ctx' = Some (spec_serialize ints)) /\
  (w ctx * 4 < Zlength_string (spec_serialize ints) + 2 ->
   dumpwave_request_frame exp ctx AVERROR_EOF = Undefined buffer_overrun).
Proof.
  intros Hw Hlen Hcols.
  pose proof (Forall2_length _ _ _ Hcols) as Hlen2.
  assert (Hcol : forall j res, ints !! j = Some res ->
            exists v, values ctx !! (Z.to_nat 0 + j)%nat = Some (Some v) /\
                      render_res exp (h ctx) (max ctx) v = Done res).
  { intros j res Hj.
    destruct (Forall2_lookup_r _ _ _ _ _ Hcols Hj) as (o & Ho & v & -> & Hres).
    exists v. split; [exact Ho|exact Hres]. }
  destruct ints as [|r rs]; [simpl in Hlen2; lia|].
  unfold dumpwave_request_frame. rewrite Z.eqb_refl. split; intros Hcap.
  - rewrite (render_loop_done exp ctx (w ctx * 4) (r :: rs)); try assumption; try lia.
    + cbn [bind String.append].
      destruct (entries (r :: rs)) eqn:He; [now apply entries_nonempty in He|].
      rewrite <- He, removelast_entries.
      eexists. split; reflexivity.
    + cbn [String.append]. rewrite Zlength_entries. lia.
  - rewrite (render_loop_overrun ctx (w ctx * 4) (r :: rs)); try assumption; try lia.
    + reflexivity.
    + change (Zlength_string EmptyString) with 0. lia.
    + cbn [String.append]. rewrite Zlength_entries. lia.
Qed.

End Buffer.

Lemma Forall_exists_Forall2 {A B} (P : A -> B -> Prop) l :
  Forall (fun a => exists b, P a b) l -> exists l', Forall2 P l l'.
Proof.
  induction 1 as [|a l (b & Hb) _ (l' & IH)].
  - exists []. constructor.
  - exists (b :: l'). now constructor.
Qed.

(** ** What the accumulator leaves alone *)

Section Untouched.
Variable log10 : double -> double.

Lemma ingest_str ctx s16 ctx' :
  ingest log10 ctx s16 = Done ctx' -> str ctx' = str ctx.
Proof.
  unfold ingest. intros Hrun.
  destruct (n ctx =? c ctx).
  - destruct (col ctx <? w ctx); [|discriminate]. cbn [av_assert0 bind] in Hrun.
    destruct (_ && _); [|discriminate]. now injection Hrun as <-.
  - now injection Hrun as <-.
Qed.

Lemma ingest_all_str samples : forall ctx ctx',
  ingest_all log10 ctx samples = Done ctx' -> str ctx' = str ctx.
Proof.
  induction samples as [|s16 rest IH]; intros ctx ctx' Hrun.
  - now injection Hrun as <-.
  - cbn [ingest_all] in Hrun. apply bind_Done in Hrun as (ctx1 & H1 & Hrest).
    rewrite (IH _ _ Hrest). exact (ingest_str _ _ _ H1).
Qed.

End Untouched.

(** ** The dump file *)

(** A stream that committed every column, rendered with a height of at
    most two digits. *)
Lemma small_height_finalized log10 exp downstream nb_channels W H C frames ctx sink :
  1 <= W <= INT_MAX -> 0 < C <= INT_MAX -> 0 <= H <= 99 ->
  Forall (frame_wf nb_channels) frames ->
  levels_defined log10 (stream_ingested nb_channels frames) ->
  filter_stream log10 downstream nb_channels (init (priv_alloc W H C)) [] frames
    = Done (ctx, sink) ->
  col ctx = W ->
  pos_finite (max ctx) = true ->
  (forall v : double, In (Some v) (values ctx) ->
     SFleb (exp_arg (max ctx) v) double_zero = true ->
     in_unit_interval (exp (exp_arg (max ctx) v)) = true) ->
  exists ctx' ints,
    dumpwave_request_frame exp ctx AVERROR_EOF = Done (ctx', AVERROR_EOF) /\
    str ctx' = Some (spec_serialize ints) /\
    Z.of_nat (length ints) = W /\
    Forall (fun res => 0 <= res <= H) ints.
Proof.
  intros HW HC HH Hwf Hlevels Hrun Hcol Hpeak Hexp.
  destruct (stream_end_inv log10 downstream nb_channels W H C frames ctx sink
              ltac:(lia) HC Hwf Hlevels Hrun) as (Hinv & Hw & Hh & Hc & _).
  assert (Hvmax : valid_binary 53 1024 (max ctx) = true) by apply Hinv.
  assert (Hlen : Z.of_nat (length (values ctx)) = w ctx) by apply Hinv.
  assert (Hslots : Forall (fun o => exists res, exists v : double, o = Some v /\
                      render_res exp (h ctx) (max ctx) v = Done res /\ 0 <= res <= H)
                     (values ctx)).
  { apply Forall_lookup. intros j o Ho.
    pose proof (lookup_lt_Some _ _ _ Ho) as Hj.
    destruct (committed_column ctx (Z.of_nat j) Hinv ltac:(lia))
      as (v & Hv & Hvalid & Hnn & Hle).
    rewrite Nat2Z.id, Ho in Hv. injection Hv as ->.
    destruct (render_res_unit_interval exp H (max ctx) v ltac:(unfold INT_MAX; lia))
      as (res & Hres & _ & Hrange).
    { apply Hexp; [|now apply exp_arg_nonpos].
      apply list_elem_of_In. eapply list_elem_of_lookup_2, Ho. }
    exists res, v. rewrite Hh. auto. }
  apply Forall_exists_Forall2 in Hslots as (ints & Hints).
  pose proof (Forall2_length _ _ _ Hints) as Hlen2.
  assert (Hrange : Forall (fun res => 0 <= res <= H) ints).
  { apply Forall_lookup. intros j res Hj.
    destruct (Forall2_lookup_r _ _ _ _ _ Hints Hj) as (o & _ & v & _ & _ & Hr). exact Hr. }
  destruct (request_frame_capacity exp ctx ints) as [Hfit _]; [lia|exact Hlen| |].
  { eapply Forall2_impl; [exact Hints|]. intros o res (v & -> & Hres & _). eauto. }
  destruct Hfit as (ctx' & Hdone & Hstr).
  - destruct ints as [|r rs]; [simpl in Hlen2; lia|].
    pose proof (Zlength_entries r rs) as He.
    pose proof (Zlength_entries_le 2 (r :: rs)) as Hle.
    rewrite <- Hlen2 in Hle. rewrite Hlen in Hle. 
    assert (Zlength_string (entries (r :: rs)) <= 3 * w ctx); [|lia].
    apply Hle. eapply Forall_impl; [exact Hrange|].
    intros res Hres. cbn beta in Hres. pose proof (sprintf_d_two_digits res ltac:(lia)).
    unfold Zlength_string. lia.
  - exists ctx', ints. repeat split; try assumption. lia.
Qed.

(** ** Properties of the code *)

Ltac frames_wf := repeat constructor; unfold INT_MAX, is_int16; cbn; lia.

Ltac levels_by_computation :=
  unfold levels_defined;
  match goal with
  | |- Forall _ ?l => let l' := eval vm_compute in l in change l with l'
  end;
  repeat (constructor; [vm_compute; reflexivity|]); constructor.

(** X1.  The accumulator after a stream is a function of the samples of
    the first channel, cut into runs of [C + 1] samples: when the
    [L / (C + 1)] complete runs find a column each, the call of the last
    frame returns, column [k] holds the square root of the sum of the
    squared levels of run [k] divided by [C], the other columns were
    never written, [max] is the [FFMAX] of the committed values from
    zero, [n] counts the samples of the incomplete run and [sum] holds
    their squared levels; when there are more complete runs than
    columns, [av_assert0] stops the process. *)
Theorem X1_accumulator_of_samples log10 downstream nb_channels W H C frames :
  0 <= W <= INT_MAX -> 0 <= C <= INT_MAX ->
  Forall (frame_wf nb_channels) frames ->
  let samples := stream_ingested nb_channels frames in
  let L := Z.of_nat (length samples) in
  let q := Z.to_nat (L / (C + 1)) in
  let size := Z.to_nat (C + 1) in
  let vs := map (window_value log10 C) (windows q size samples) in
  (L / (C + 1) <= W ->
   filter_stream log10 downstream nb_channels (init (priv_alloc W H C)) [] frames =
     Done ({| w := W; h := H; c := C; col := L / (C + 1);
              str := None;
              values := map Some vs ++ replicate (Z.to_nat W - q) None;
              n := L mod (C + 1);
              max := peak_of double_zero vs;
              sum := sum_of log10 double_zero (drop (q * size) samples) |}, frames)) /\
  (W < L / (C + 1) ->
   filter_stream log10 downstream nb_channels (init (priv_alloc W H C)) [] frames = Abort).
Proof.
  intros HW HC Hwf samples L q size vs. split; intros HL.
  - now apply accumulator_after_stream.
  - now apply stream_too_long.
Qed.

Lemma X1_witness :
  exists ctx,
    filter_stream ref_log10 status_ok 1 (init (priv_alloc 4 100 2)) []
      [mono_frame eight_samples] = Done (ctx, [mono_frame eight_samples]) /\
    col ctx = 2 /\ n ctx = 2 /\
    values ctx = [Some (window_value ref_log10 2 [1000; 2000; -3000]);
                  Some (window_value ref_log10 2 [4000; 30000; 20000]); None; None].
Proof.
  destruct (X1_accumulator_of_samples ref_log10 status_ok 1 4 100 2
              [mono_frame eight_samples]) as [Hfit _].
  - unfold INT_MAX; lia.
  - unfold INT_MAX; lia.
  - frames_wf.
  - eexists. split; [apply Hfit; vm_compute; discriminate|].
    split; [reflexivity|]. split; reflexivity.
Defined.

(** X2.  For frames of at most 32767 samples, the count that the
    narrowing to [int16_t] leaves whole, the context that a stream
    leaves depends on the samples of the first channel alone: not on
    the other channels, nor on the way the samples are cut into frames,
    nor on what the next filter answers. *)
Theorem X2_first_channel_only log10 d1 d2 ch1 ch2 ctx sink1 sink2 frames1 frames2 :
  Forall (frame_wf ch1) frames1 -> Forall (frame_wf ch2) frames2 ->
  Forall (fun frame => nb_samples frame <= INT16_MAX) frames1 ->
  Forall (fun frame => nb_samples frame <= INT16_MAX) frames2 ->
  stream_first_channel ch1 frames1 = stream_first_channel ch2 frames2 ->
  exec_ctx (filter_stream log10 d1 ch1 ctx sink1 frames1) =
  exec_ctx (filter_stream log10 d2 ch2 ctx sink2 frames2).
Proof.
  intros Hwf1 Hwf2 Hs1 Hs2 Heq.
  assert (Hing : forall ch frames,
            Forall (frame_wf ch) frames ->
            Forall (fun frame => nb_samples frame <= INT16_MAX) frames ->
            stream_ingested ch frames = stream_first_channel ch frames).
  { intros ch frames Hwf Hs. unfold stream_ingested, stream_first_channel. f_equal.
    apply map_ext_in. intros frame Hin.
    rewrite Forall_forall in Hwf, Hs.
    apply list_elem_of_In in Hin.
    destruct (Hwf frame Hin) as (_ & Hnb & _). specialize (Hs frame Hin).
    unfold frame_ingested, frame_first_channel, INT16_MAX in *.
    rewrite int16_of_int_small by lia. reflexivity. }
  rewrite !filter_stream_ingest_all by assumption.
  rewrite (Hing ch1 frames1), (Hing ch2 frames2), Heq by assumption.
  now destruct (ingest_all log10 ctx (stream_first_channel ch2 frames2)).
Qed.

Lemma X2_witness :
  exec_ctx (filter_stream ref_log10 status_ok 2 (init (priv_alloc 4 100 2)) [] [stereo_frame]) =
  exec_ctx (filter_stream ref_log10 (fun _ => -22) 1 (init (priv_alloc 4 100 2)) []
              [mono_frame [1000]; mono_frame [2000; -3000]]).
Proof.
  apply X2_first_channel_only.
  - frames_wf.
  - frames_wf.
  - repeat constructor; unfold INT16_MAX; cbn; lia.
  - repeat constructor; unfold INT16_MAX; cbn; lia.
  - reflexivity.
Defined.

(** X3.  The accumulator does not see the polarity of the samples: a
    stream and the stream of the opposite samples leave the same
    context, a sample entering the sum through the absolute value or
    the square of its quotient by 32767. *)
Theorem X3_polarity log10 d1 d2 ch1 ch2 ctx sink1 sink2 frames1 frames2 :
  Forall (frame_wf ch1) frames1 -> Forall (frame_wf ch2) frames2 ->
  stream_ingested ch2 frames2 = map Z.opp (stream_ingested ch1 frames1) ->
  exec_ctx (filter_stream log10 d2 ch2 ctx sink2 frames2) =
  exec_ctx (filter_stream log10 d1 ch1 ctx sink1 frames1).
Proof.
  intros Hwf1 Hwf2 Heq.
  rewrite !filter_stream_ingest_all by assumption. rewrite Heq, ingest_all_opp.
  now destruct (ingest_all log10 ctx (stream_ingested ch1 frames1)).
Qed.

Lemma X3_witness :
  exec_ctx (filter_stream ref_log10 status_ok 1 (init (priv_alloc 4 100 2)) []
              [mono_frame [-1000; 2000; -3]]) =
  exec_ctx (filter_stream ref_log10 status_ok 1 (init (priv_alloc 4 100 2)) []
              [mono_frame [1000; -2000; 3]]).
Proof.
  apply X3_polarity.
  - frames_wf.
  - frames_wf.
  - reflexivity.
Defined.

(** X4.  A committed column is never written again: the frames that
    follow leave the values below the column cursor as they are, and the
    cursor does not move back. *)
Theorem X4_committed_columns_stable log10 downstream nb_channels ctx sink frames ctx' sink' i :
  Forall (frame_wf nb_channels) frames -> 0 <= col ctx ->
  filter_stream log10 downstream nb_channels ctx sink frames = Done (ctx', sink') ->
  0 <= i < col ctx ->
  col ctx <= col ctx' /\ values ctx' !! Z.to_nat i = values ctx !! Z.to_nat i.
Proof.
  intros Hwf Hcol Hrun Hi.
  rewrite filter_stream_ingest_all in Hrun by assumption.
  apply bind_Done in Hrun as (ctx1 & Hrun & [= <- _]).
  destruct (ingest_all_stable log10 _ _ _ Hrun Hcol) as [Hle Hv].
  split; [exact Hle|]. apply Hv. lia.
Qed.

Lemma X4_witness :
  col (after_stream 4 100 2 [mono_frame eight_samples]) <= col example_ctx /\
  values example_ctx !! Z.to_nat 1 =
  values (after_stream 4 100 2 [mono_frame eight_samples]) !! Z.to_nat 1.
Proof.
  apply (X4_committed_columns_stable ref_log10 status_ok 1
           (after_stream 4 100 2 [mono_frame eight_samples]) [mono_frame eight_samples]
           [mono_frame [1; 1; 1; 1]] example_ctx
           [mono_frame eight_samples; mono_frame [1; 1; 1; 1]] 1).
  - frames_wf.
  - vm_compute. discriminate.
  - vm_compute. reflexivity.
  - vm_compute. split; [discriminate|reflexivity].
Defined.

(** X5.  With the default [c = 0] every sample commits a column, and
    the value committed is the square root of a division by zero:
    positive infinity, or a NaN.  So is the peak, and at the end of the
    stream the finalizer converts a NaN to [int] for the first column. *)
Theorem X5_default_window_size log10 exp downstream nb_channels W H frames :
  exp S754_nan = S754_nan ->
  0 <= W <= INT_MAX ->
  Forall (frame_wf nb_channels) frames ->
  let L := Z.of_nat (length (stream_ingested nb_channels frames)) in
  1 <= L <= W ->
  exists ctx,
    filter_stream log10 downstream nb_channels (init (priv_alloc W H 0)) [] frames
      = Done (ctx, frames) /\
    col ctx = L /\
    (forall i, 0 <= i < L ->
       exists v, values ctx !! Z.to_nat i = Some (Some v) /\ inf_or_nan v = true) /\
    inf_or_nan (max ctx) = true /\
    dumpwave_request_frame exp ctx AVERROR_EOF = Undefined float_to_int.
Proof.
  intros Hexp HW Hwf L HL.
  pose proof (accumulator_after_stream log10 downstream nb_channels W H 0 frames HW
                ltac:(unfold INT_MAX; lia) Hwf) as Hrun.
  cbv zeta in Hrun. fold L in Hrun. change (0 + 1) with 1 in Hrun.
  rewrite Z.div_1_r in Hrun. specialize (Hrun ltac:(lia)).
  set (vs := map (window_value log10 0) _) in Hrun.
  assert (Hlen : length vs = Z.to_nat L).
  { subst vs. now rewrite length_map, length_windows. }
  assert (Hall : Forall (fun v => inf_or_nan v = true) vs).
  { subst vs. apply Forall_map, Forall_forall. intros ws _. apply window_value_zero. }
  eexists. split; [exact Hrun|]. cbn [col values max w h].
  assert (Hcols : forall i, 0 <= i < L ->
            exists v, (map Some vs ++ replicate (Z.to_nat W - Z.to_nat L) None)
                        !! Z.to_nat i = Some (Some v) /\ inf_or_nan v = true).
  { intros i Hi.
    destruct (lookup_lt_is_Some_2 vs (Z.to_nat i)) as [v Hv]; [lia|].
    exists v. split.
    - rewrite lookup_app_l by (rewrite length_map; lia).
      now rewrite list_lookup_fmap, Hv.
    - rewrite Forall_lookup in Hall. exact (Hall _ _ Hv). }
  assert (Hmax : inf_or_nan (peak_of double_zero vs) = true).
  { destruct vs as [|v vs']; [simpl in Hlen; lia|].
    apply Forall_cons in Hall as [Hv Hall]. cbn [peak_of fold_left].
    apply peak_of_inf_or_nan; [assumption|]. now rewrite FFMAX_inf_or_nan. }
  split; [reflexivity|]. split; [exact Hcols|]. split; [exact Hmax|].
  unfold dumpwave_request_frame. rewrite Z.eqb_refl. cbn [w].
  destruct (Z.to_nat W) as [|k] eqn:Hk; [lia|].
  cbn [render_loop values h max].
  destruct (Hcols 0 ltac:(lia)) as (v & Hv & Hinf). rewrite Hv.
  now rewrite render_res_inf_or_nan.
Qed.

Lemma X5_witness :
  exists ctx,
    filter_stream ref_log10 status_ok 1 (init (priv_alloc 2 240 0)) []
      [mono_frame [1000; 0]] = Done (ctx, [mono_frame [1000; 0]]) /\
    col ctx = 2 /\
    values ctx = [Some (S754_infinity false); Some S754_nan] /\
    dumpwave_request_frame ref_exp ctx AVERROR_EOF = Undefined float_to_int.
Proof.
  destruct (X5_default_window_size ref_log10 ref_exp status_ok 1 2 240
              [mono_frame [1000; 0]]) as (ctx & Hrun & Hcol & _ & _ & Hreq).
  - reflexivity.
  - unfold INT_MAX; lia.
  - frames_wf.
  - vm_compute. split; discriminate.
  - exists ctx. split; [exact Hrun|]. split; [exact Hcol|]. split; [|exact Hreq].
    vm_compute in Hrun. now injection Hrun as <-.
Defined.

(** X6.  The finalizer at the end of the stream writes [str] and nothing
    else, and gives the same result when it is called again. *)
Theorem X6_finalizer_idempotent exp ctx ctx' ret :
  dumpwave_request_frame exp ctx AVERROR_EOF = Done (ctx', ret) ->
  ret = AVERROR_EOF /\
  (w ctx' = w ctx /\ h ctx' = h ctx /\ c ctx' = c ctx /\ col ctx' = col ctx /\
   n ctx' = n ctx /\ values ctx' = values ctx /\ max ctx' = max ctx /\
   sum ctx' = sum ctx) /\
  dumpwave_request_frame exp ctx' AVERROR_EOF = Done (ctx', ret).
Proof.
  intros Hrun.
  destruct (request_frame_fields exp ctx ctx' ret Hrun) as (Hret & Hfields).
  split; [exact Hret|]. split; [exact Hfields|].
  destruct Hfields as (Hw & Hh & _ & _ & _ & Hv & Hm & _).
  revert Hrun. unfold dumpwave_request_frame. rewrite Z.eqb_refl.
  rewrite (render_loop_ext exp ctx ctx') by assumption. rewrite Hw.
  destruct (render_loop exp ctx (w ctx * 4) (Z.to_nat (w ctx)) 0 EmptyString)
    as [out| |u]; cbn [bind]; try discriminate.
  destruct out as [|a out]; [discriminate|].
  intros [= <- <-]. reflexivity.
Qed.

Lemma X6_witness :
  dumpwave_request_frame ref_exp
    (finalized (dumpwave_request_frame ref_exp example_ctx AVERROR_EOF)) AVERROR_EOF =
  Done (finalized (dumpwave_request_frame ref_exp example_ctx AVERROR_EOF), AVERROR_EOF).
Proof.
  apply (X6_finalizer_idempotent ref_exp example_ctx).
  vm_compute. reflexivity.
Defined.

(** X8.  With a height of at most 99 the buffer of [4 W] bytes is large
    enough: at the end of a stream that committed all [W] columns, with
    a positive peak, the finalizer returns (the C library's [exp]
    returning a double of [[0, 1]] for the arguments of the columns). *)
Theorem X8_small_height_fits log10 exp downstream nb_channels W H C frames ctx sink :
  1 <= W <= INT_MAX -> 0 < C <= INT_MAX -> 0 <= H <= 99 ->
  Forall (frame_wf nb_channels) frames ->
  levels_defined log10 (stream_ingested nb_channels frames) ->
  filter_stream log10 downstream nb_channels (init (priv_alloc W H C)) [] frames
    = Done (ctx, sink) ->
  col ctx = W ->
  pos_finite (max ctx) = true ->
  (forall v : double, In (Some v) (values ctx) ->
     SFleb (exp_arg (max ctx) v) double_zero = true ->
     in_unit_interval (exp (exp_arg (max ctx) v)) = true) ->
  exists ctx' ints,
    dumpwave_request_frame exp ctx AVERROR_EOF = Done (ctx', AVERROR_EOF) /\
    str ctx' = Some (spec_serialize ints) /\
    Z.of_nat (length ints) = W /\
    Forall (fun res => 0 <= res <= H) ints.
Proof.
  intros HW HC HH Hwf Hlevels Hrun Hcol Hpeak Hexp.
  destruct (stream_end_inv log10 downstream nb_channels W H C frames ctx sink
              ltac:(lia) HC Hwf Hlevels Hrun) as (Hinv & Hw & Hh & Hc & _).
  assert (Hvmax : valid_binary 53 1024 (max ctx) = true) by apply Hinv.
  assert (Hlen : Z.of_nat (length (values ctx)) = w ctx) by apply Hinv.
  assert (Hslots : Forall (fun o => exists res, exists v : double, o = Some v /\
                      render_res exp (h ctx) (max ctx) v = Done res /\ 0 <= res <= H)
                     (values ctx)).
  { apply Forall_lookup. intros j o Ho.
    pose proof (lookup_lt_Some _ _ _ Ho) as Hj.
    destruct (committed_column ctx (Z.of_nat j) Hinv ltac:(lia))
      as (v & Hv & Hvalid & Hnn & Hle).
    rewrite Nat2Z.id, Ho in Hv. injection Hv as ->.
    destruct (render_res_unit_interval exp H (max ctx) v ltac:(unfold INT_MAX; lia))
      as (res & Hres & _ & Hrange).
    { apply Hexp; [|now apply exp_arg_nonpos].
      apply list_elem_of_In. eapply list_elem_of_lookup_2, Ho. }
    exists res, v. rewrite Hh. auto. }
  apply Forall_exists_Forall2 in Hslots as (ints & Hints).
  pose proof (Forall2_length _ _ _ Hints) as Hlen2.
  assert (Hrange : Forall (fun res => 0 <= res <= H) ints).
  { apply Forall_lookup. intros j res Hj.
    destruct (Forall2_lookup_r _ _ _ _ _ Hints Hj) as (o & _ & v & _ & _ & Hr). exact Hr. }
  destruct (request_frame_capacity exp ctx ints) as [Hfit _]; [lia|exact Hlen| |].
  { eapply Forall2_impl; [exact Hints|]. intros o res (v & -> & Hres & _). eauto. }
  destruct Hfit as (ctx' & Hdone & Hstr).
  - destruct ints as [|r rs]; [simpl in Hlen2; lia|].
    pose proof (Zlength_entries r rs) as He.
    pose proof (Zlength_entries_le 2 (r :: rs)) as Hle.
    rewrite <- Hlen2 in Hle. rewrite Hlen in Hle. 
    assert (Zlength_string (entries (r :: rs)) <= 3 * w ctx); [|lia].
    apply Hle. eapply Forall_impl; [exact Hrange|].
    intros res Hres. cbn beta in Hres. pose proof (sprintf_d_two_digits res ltac:(lia)).
    unfold Zlength_string. lia.
  - exists ctx', ints. repeat split; try assumption. lia.
Qed.

Lemma X8_witness :
  exists ctx' ints,
    dumpwave_request_frame ref_exp (after_stream 2 50 1 [mono_frame [1000; 1000; 2000; 2000]])
      AVERROR_EOF = Done (ctx', AVERROR_EOF) /\
    str ctx' = Some (spec_serialize ints) /\
    Z.of_nat (length ints) = 2 /\
    Forall (fun res => 0 <= res <= 50) ints.
Proof.
  apply (X8_small_height_fits ref_log10 ref_exp status_ok 1 2 50 1
           [mono_frame [1000; 1000; 2000; 2000]] _ [mono_frame [1000; 1000; 2000; 2000]]).
  - unfold INT_MAX; lia.
  - unfold INT_MAX; lia.
  - lia.
  - frames_wf.
  - levels_by_computation.
  - vm_compute. reflexivity.
  - vm_compute. reflexivity.
  - vm_compute. reflexivity.
  - let vs := eval vm_compute in
      (values (after_stream 2 50 1 [mono_frame [1000; 1000; 2000; 2000]])) in
    change (values (after_stream 2 50 1 [mono_frame [1000; 1000; 2000; 2000]])) with vs.
    intros v Hin _.
    repeat (destruct Hin as [[= <-]|Hin]; [vm_compute; reflexivity|]).
    destruct Hin.
Defined.

(** X9.  With a height of three digits, as the default 240, columns
    that all hold the peak take four bytes each, and [sprintf] writes
    the terminator of the last one past the [4 W] bytes of [str]. *)
Theorem X9_peak_columns_overrun log10 exp downstream nb_channels W H C frames ctx sink :
  1 <= W <= INT_MAX -> 0 < C <= INT_MAX -> 100 <= H <= 999 ->
  Forall (frame_wf nb_channels) frames ->
  levels_defined log10 (stream_ingested nb_channels frames) ->
  filter_stream log10 downstream nb_channels (init (priv_alloc W H C)) [] frames
    = Done (ctx, sink) ->
  pos_finite (max ctx) = true ->
  exp double_zero = double_one ->
  Forall (fun o => o = Some (max ctx)) (values ctx) ->
  dumpwave_request_frame exp ctx AVERROR_EOF = Undefined buffer_overrun.
Proof.
  intros HW HC HH Hwf Hlevels Hrun Hpeak Hexp Hall.
  destruct (stream_end_inv log10 downstream nb_channels W H C frames ctx sink
              ltac:(lia) HC Hwf Hlevels Hrun) as (Hinv & Hw & Hh & Hc & _).
  assert (Hlen : Z.of_nat (length (values ctx)) = w ctx) by apply Hinv.
  destruct (request_frame_capacity exp ctx (replicate (length (values ctx)) H))
    as [_ Hover]; [lia|exact Hlen| |].
  - apply Forall2_same_length_lookup. split; [now rewrite length_replicate|].
    intros j o res Ho Hres. apply lookup_replicate in Hres as [-> _].
    rewrite Forall_lookup in Hall. rewrite (Hall _ _ Ho).
    eexists. split; [reflexivity|]. rewrite Hh.
    apply render_res_peak; [unfold INT_MAX; lia|assumption|assumption].
  - apply Hover.
    destruct (length (values ctx)) as [|k] eqn:Hk; [lia|].
    cbn [replicate]. pose proof (Zlength_entries H (replicate k H)) as He.
    pose proof (Zlength_entries_eq 3 (H :: replicate k H)) as Heq.
    cbn [length] in Heq. rewrite length_replicate in Heq.
    assert (Zlength_string (entries (H :: replicate k H)) = 4 * w ctx); [|lia].
    rewrite Heq; [lia|].
    change (H :: replicate k H) with (replicate (S k) H).
    apply Forall_replicate. unfold Zlength_string.
    now rewrite sprintf_d_three_digits.
Qed.

Lemma X9_witness :
  dumpwave_request_frame ref_exp (after_stream 2 240 1 [mono_frame [1000; 1000; 1000; 1000]])
    AVERROR_EOF = Undefined buffer_overrun.
Proof.
  apply (X9_peak_columns_overrun ref_log10 ref_exp status_ok 1 2 240 1
           [mono_frame [1000; 1000; 1000; 1000]] _ [mono_frame [1000; 1000; 1000; 1000]]).
  - unfold INT_MAX; lia.
  - unfold INT_MAX; lia.
  - lia.
  - frames_wf.
  - levels_by_computation.
  - vm_compute. reflexivity.
  - vm_compute. reflexivity.
  - reflexivity.
  - vm_compute. repeat constructor.
Defined.

(** X10.  The accumulator never writes [str], and the finalizer leaves
    the context as it is when the input link does not report the end of
    the stream; so a teardown before the end of the stream, with a dump
    file that opens, prints a buffer that nothing has written. *)
Theorem X10_teardown_before_eof log10 exp downstream nb_channels W H C frames ctx sink
    ret ctx' ret' path fopen :
  Forall (frame_wf nb_channels) frames ->
  filter_stream log10 downstream nb_channels (init (priv_alloc W H C)) [] frames
    = Done (ctx, sink) ->
  ret <> AVERROR_EOF ->
  dumpwave_request_frame exp ctx ret = Done (ctx', ret') ->
  fopen path = true ->
  ret' = ret /\ str ctx' = None /\
  uninit ctx' (Some path) fopen = Undefined uninit_read.
Proof.
  intros Hwf Hrun Hret Hreq Hopen.
  rewrite filter_stream_ingest_all in Hrun by assumption.
  apply bind_Done in Hrun as (ctx1 & Hrun & [= <- _]).
  apply ingest_all_str in Hrun. cbn in Hrun.
  unfold dumpwave_request_frame in Hreq.
  destruct (Z.eqb_spec ret AVERROR_EOF) as [|_]; [contradiction|].
  injection Hreq as <- <-. split; [reflexivity|]. split; [exact Hrun|].
  unfold uninit. now rewrite Hopen, Hrun.
Qed.

Lemma X10_witness :
  uninit (after_stream 4 100 2 [mono_frame eight_samples]) (Some dump_path) (fun _ => true)
    = Undefined uninit_read.
Proof.
  apply (X10_teardown_before_eof ref_log10 ref_exp status_ok 1 4 100 2
           [mono_frame eight_samples] (after_stream 4 100 2 [mono_frame eight_samples])
           [mono_frame eight_samples] 0 _ 0 dump_path (fun _ => true)).
  - frames_wf.
  - vm_compute. reflexivity.
  - discriminate.
  - reflexivity.
  - reflexivity.
Defined.

(** X11.  The whole run: the frames of a stream, the end of the stream,
    teardown.  With a height of at most 99, after a stream that
    committed all [W] columns, with a positive peak, the finalizer
    returns, and [uninit] returns only if the first column holds a
    positive zero, whose bytes [av_freep] takes for a null pointer: then
    the dump file, if the option names one and it opens, holds the
    width, the height and the integers of the [W] columns, and if it
    does not open the warning is logged and nothing is written.  For
    any other value of the first column [av_free] is handed a pointer
    that was never allocated. *)
Theorem X11_dump_after_stream log10 exp downstream nb_channels W H C frames ctx sink :
  1 <= W <= INT_MAX -> 0 < C <= INT_MAX -> 0 <= H <= 99 ->
  Forall (frame_wf nb_channels) frames ->
  levels_defined log10 (stream_ingested nb_channels frames) ->
  filter_stream log10 downstream nb_channels (init (priv_alloc W H C)) [] frames
    = Done (ctx, sink) ->
  col ctx = W ->
  pos_finite (max ctx) = true ->
  (forall v : double, In (Some v) (values ctx) ->
     SFleb (exp_arg (max ctx) v) double_zero = true ->
     in_unit_interval (exp (exp_arg (max ctx) v)) = true) ->
  exists ctx' ints (v0 : double),
    dumpwave_request_frame exp ctx AVERROR_EOF = Done (ctx', AVERROR_EOF) /\
    str ctx' = Some (spec_serialize ints) /\
    Z.of_nat (length ints) = W /\
    Forall (fun res => 0 <= res <= H) ints /\
    values ctx !! 0%nat = Some (Some v0) /\
    forall json fopen,
      uninit ctx' json fopen =
        match v0 with
        | S754_zero false =>
            Done {| dump_file :=
                      match json with
                      | Some path =>
                          if fopen path
                          then Some (json_document W H (spec_serialize ints))
                          else None
                      | None => None
                      end;
                    warned :=
                      match json with
                      | Some path => negb (fopen path)
                      | None => false
                      end |}
        | _ => Undefined invalid_free
        end.
Proof.
  intros HW HC HH Hwf Hlevels Hrun Hcol Hpeak Hexp.
  destruct (small_height_finalized log10 exp downstream nb_channels W H C frames ctx sink
              HW HC HH Hwf Hlevels Hrun Hcol Hpeak Hexp)
    as (ctx' & ints & Hdone & Hstr & Hlen & Hrange).
  destruct (stream_end_inv log10 downstream nb_channels W H C frames ctx sink
              ltac:(lia) HC Hwf Hlevels Hrun) as (Hinv & Hw & Hh & _).
  destruct (committed_column ctx 0 Hinv ltac:(lia)) as (v0 & Hv0 & _).
  destruct (request_frame_fields exp _ _ _ Hdone)
    as (_ & Hw' & Hh' & _ & _ & _ & Hv' & _).
  exists ctx', ints, v0. repeat (split; [assumption|]).
  intros json fopen. unfold uninit, av_freep_values.
  change (Z.to_nat 0) with 0%nat in Hv0.
  rewrite Hstr, Hv', Hv0, Hw', Hh', Hw, Hh.
  destruct json as [path|]; [destruct (fopen path)|]; cbn [bind negb];
    destruct v0 as [[]|[]| |[] m e]; reflexivity.
Qed.

(** A stream that starts with a silent window, W = 2, H = 50, C = 1,
    and the stream of twelve samples, whose first window is not
    silent. *)
Lemma X11_witness :
  (exists ctx' ints (v0 : double),
     dumpwave_request_frame ref_exp (after_stream 2 50 1 [mono_frame [0; 0; 2000; 2000]])
       AVERROR_EOF = Done (ctx', AVERROR_EOF) /\
     str ctx' = Some (spec_serialize ints) /\
     Z.of_nat (length ints) = 2 /\
     Forall (fun res => 0 <= res <= 50) ints /\
     values (after_stream 2 50 1 [mono_frame [0; 0; 2000; 2000]]) !! 0%nat
       = Some (Some v0) /\
     forall json fopen,
       uninit ctx' json fopen =
         match v0 with
         | S754_zero false =>
             Done {| dump_file :=
                       match json with
                       | Some path =>
                           if fopen path
                           then Some (json_document 2 50 (spec_serialize ints))
                           else None
                       | None => None
                       end;
                     warned :=
                       match json with
                       | Some path => negb (fopen path)
                       | None => false
                       end |}
         | _ => Undefined invalid_free
         end) /\
  uninit (finalized (dumpwave_request_frame ref_exp
                       (after_stream 2 50 1 [mono_frame [0; 0; 2000; 2000]]) AVERROR_EOF))
    (Some dump_path) (fun _ => true)
    = Done {| dump_file := Some (json_document 2 50 "3,50"); warned := false |} /\
  uninit (finalized (dumpwave_request_frame ref_exp example_ctx AVERROR_EOF))
    (Some dump_path) (fun _ => true)
    = Undefined invalid_free.
Proof.
  split; [|split; vm_compute; reflexivity].
  apply (X11_dump_after_stream ref_log10 ref_exp status_ok 1 2 50 1
           [mono_frame [0; 0; 2000; 2000]] _ [mono_frame [0; 0; 2000; 2000]]).
  - unfold INT_MAX; lia.
  - unfold INT_MAX; lia.
  - lia.
  - frames_wf.
  - levels_by_computation.
  - vm_compute. reflexivity.
  - vm_compute. reflexivity.
  - vm_compute. reflexivity.
  - let vs := eval vm_compute in
      (values (after_stream 2 50 1 [mono_frame [0; 0; 2000; 2000]])) in
    change (values (after_stream 2 50 1 [mono_frame [0; 0; 2000; 2000]])) with vs.
    intros v Hin _.
    repeat (destruct Hin as [[= <-]|Hin]; [vm_compute; reflexivity|]).
    destruct Hin.
Defined.

(** X12.  Teardown hands [av_freep] the array, not the address of the
    pointer to it.  After a stream that committed a column, [uninit]
    returns only if the value of the first window is a positive zero;
    for any other value [av_free] is handed a pointer that was never
    allocated.  When no column was committed, [av_freep] reads bytes
    that nothing has written. *)
Theorem X12_teardown_releases_first_column log10 downstream nb_channels W H C frames fopen :
  1 <= W <= INT_MAX -> 0 <= C <= INT_MAX ->
  Forall (frame_wf nb_channels) frames ->
  let samples := stream_ingested nb_channels frames in
  let L := Z.of_nat (length samples) in
  L / (C + 1) <= W ->
  exists ctx,
    filter_stream log10 downstream nb_channels (init (priv_alloc W H C)) [] frames
      = Done (ctx, frames) /\
    (C + 1 <= L ->
     uninit ctx None fopen =
       match window_value log10 C (take (Z.to_nat (C + 1)) samples) with
       | S754_zero false => Done {| dump_file := None; warned := false |}
       | _ => Undefined invalid_free
       end) /\
    (L < C + 1 -> uninit ctx None fopen = Undefined uninit_read).
Proof.
  intros HW HC Hwf samples L HL.
  pose proof (accumulator_after_stream log10 downstream nb_channels W H C frames
                ltac:(lia) HC Hwf HL) as Hrun.
  cbv zeta in Hrun. fold samples L in Hrun.
  eexists. split; [exact Hrun|]. unfold uninit, av_freep_values. cbn [bind values str].
  split; intros HLC.
  - assert (Hq : 1 <= L / (C + 1)).
    { apply Z.div_le_lower_bound; lia. }
    destruct (Z.to_nat (L / (C + 1))) as [|q] eqn:Hq'; [lia|].
    cbn [windows map app lookup list_lookup].
    destruct (window_value log10 C (take (Z.to_nat (C + 1)) samples))
      as [[]|[]| |[] m e]; reflexivity.
  - rewrite Z.div_small by lia. cbn [Z.to_nat windows map app].
    rewrite Nat.sub_0_r.
    destruct (Z.to_nat W) as [|k] eqn:Hk; [lia|]. reflexivity.
Qed.

Lemma X12_witness :
  exists ctx,
    filter_stream ref_log10 status_ok 1 (init (priv_alloc 4 100 2)) []
      [mono_frame eight_samples] = Done (ctx, [mono_frame eight_samples]) /\
    uninit ctx None (fun _ => true) = Undefined invalid_free.
Proof.
  destruct (X12_teardown_releases_first_column ref_log10 status_ok 1 4 100 2
              [mono_frame eight_samples] (fun _ => true))
    as (ctx & Hrun & Hfree & _).
  - unfold INT_MAX; lia.
  - unfold INT_MAX; lia.
  - frames_wf.
  - vm_compute. discriminate.
  - exists ctx. split; [exact Hrun|]. rewrite Hfree by (vm_compute; discriminate).
    vm_compute. reflexivity.
Defined.

(** X13.  The size of [str], exactly: when the [w] slots hold values
    whose integers are [ints], the finalizer returns if the integers,
    the commas between them and the terminator take at most [4 w]
    bytes, and [sprintf] writes past the buffer otherwise. *)
Theorem X13_buffer_capacity exp ctx ints :
  1 <= w ctx -> Z.of_nat (length (values ctx)) = w ctx ->
  Forall2 (fun o res => exists v, o = Some v /\
             render_res exp (h ctx) (max ctx) v = Done res) (values ctx) ints ->
  (Zlength_string (spec_serialize ints) + 2 <= w ctx * 4 ->
   exists ctx', dumpwave_request_frame exp ctx AVERROR_EOF = Done (ctx', AVERROR_EOF) /\
                str ctx' = Some (spec_serialize ints)) /\
  (w ctx * 4 < Zlength_string (spec_serialize ints) + 2 ->
   dumpwave_request_frame exp ctx AVERROR_EOF = Undefined buffer_overrun).
Proof. apply request_frame_capacity. Qed.

Lemma X13_witness :
  exists ctx',
    dumpwave_request_frame ref_exp example_ctx AVERROR_EOF = Done (ctx', AVERROR_EOF) /\
    str ctx' = Some "40,100,8,6"%string.
Proof.
  destruct (X13_buffer_capacity ref_exp example_ctx [40; 100; 8; 6]) as [Hfit _].
  - vm_compute. discriminate.
  - vm_compute. reflexivity.
  - let vs := eval vm_compute in (values example_ctx) in
    change (values example_ctx) with vs.
    repeat (constructor; [eexists; split; [reflexivity|vm_compute; reflexivity]|]).
    constructor.
  - apply Hfit. vm_compute. discriminate.
Defined.
